(** * flexlm_analysis.py: a shallow embedding and its properties

    The script reads FlexLM log files line by line, recovers a list of
    license events [(date, time, state, module, user, machine)], filters it
    through a set-based deduplicator and folds it either into per-module
    statistics ([do_some_stats]) or into per-module time series
    ([do_gnuplot_stats]).

    Modelling choices.
    - A Python [str] is a [string]; a character of the model is a Unicode
      code point below 256 (Latin-1), so a text with other characters has
      no counterpart in the model. The integer counters are [Z]; the dedup
      [set] is a [gset string]; the [stats] dictionaries are
      [gmap string _]; [module_list] is a [list string].
    - A file is the list of the lines that [open(a_file, 'r')] yields;
      opening and decoding are outside the model, and so are the files
      with ['.gz'] in their name, which [gzip.open(a_file, 'r')] yields as
      [bytes].
    - [str.lower()] and the character classes [\d], [\w] and [.] of the
      three regular expressions are those of Python 3 on these characters.
    - Whether a step on the operating system that can raise ([print],
      [os.makedirs], opening and writing a file) succeeds is not decided
      by the script: it is a parameter, [os_ok], of the functions that
      take such steps. [os.system] returns the exit status of its command
      and does not raise when the command fails.
    - A dictionary access [stats[module]] that would raise [KeyError] makes
      the fold return [None]; the folds are then proved total. A function
      that raises for another reason returns [None] as well. *)

From Stdlib Require Import ZArith Ascii String DecimalString List Lia.
From stdpp Require Import base decidable option list sorting gmap strings.

Open Scope string_scope.
Open Scope list_scope.
Open Scope Z_scope.

(** * The program *)

(** ** Strings *)

Definition dquote : ascii := ascii_of_nat 34.
Definition newline : ascii := ascii_of_nat 10.

Definition in_range (lo hi : N) (c : ascii) : bool :=
  let n := N_of_ascii c in ((lo <=? n) && (n <=? hi))%N.

Definition is_upper : ascii -> bool := in_range 65 90.
Definition is_lower : ascii -> bool := in_range 97 122.
Definition is_digit : ascii -> bool := in_range 48 57.

(** The characters from 128 to 255 that are alphanumeric for Python: the
    letters, the superscript digits and the fractions of Latin-1. *)
Definition is_latin1_word (c : ascii) : bool :=
  (N_of_ascii c =? 170)%N || in_range 178 179 c || (N_of_ascii c =? 181)%N
  || in_range 185 186 c || in_range 188 190 c || in_range 192 214 c
  || in_range 216 246 c || in_range 248 255 c.

(** The capital letters from 128 to 255; the small letter is 32 above. *)
Definition is_latin1_upper (c : ascii) : bool :=
  in_range 192 214 c || in_range 216 222 c.

(** [\w] : alphanumeric or the underscore *)
Definition is_word (c : ascii) : bool :=
  is_digit c || is_upper c || is_lower c || (N_of_ascii c =? 95)%N
  || is_latin1_word c.

(** [.] : anything but a line feed *)
Definition is_dot (c : ascii) : bool := negb (N_of_ascii c =? 10)%N.

(** [c.lower()] for a character below 256 *)
Definition lower_char (c : ascii) : ascii :=
  if is_upper c || is_latin1_upper c then ascii_of_N (N_of_ascii c + 32) else c.

(** [s.lower()] *)
Fixpoint lower (s : string) : string :=
  match s with
  | EmptyString => EmptyString
  | String c s' => String (lower_char c) (lower s')
  end.

(** ** The three regular expressions of [read_files]

    Backtracking matchers in continuation-passing style: a continuation is
    tried on the longest repetition first and on shorter ones afterwards,
    which is the order in which [re.match] explores greedy quantifiers. *)

Module Regex.

Section Combinators.
Context {A : Type}.

(** [p*], greedy; [k] receives the matched text and the remaining input. *)
Fixpoint many (p : ascii -> bool) (s : string)
    (k : string -> string -> option A) : option A :=
  match s with
  | String c s' =>
      if p c then
        match many p s' (fun m r => k (String c m) r) with
        | Some x => Some x
        | None => k EmptyString s
        end
      else k EmptyString s
  | EmptyString => k EmptyString s
  end.

(** [p+], greedy *)
Definition many1 (p : ascii -> bool) (s : string)
    (k : string -> string -> option A) : option A :=
  match s with
  | String c s' => if p c then many p s' (fun m r => k (String c m) r) else None
  | EmptyString => None
  end.

(** a literal text *)
Fixpoint lit (t : string) (s : string) (k : string -> option A) : option A :=
  match t with
  | EmptyString => k s
  | String c t' =>
      match s with
      | String d s' => if Ascii.eqb c d then lit t' s' k else None
      | EmptyString => None
      end
  end.

(** [\ ?] : an optional space, taken when it is there, given back when
    the rest does not match *)
Definition opt_space (s : string) (k : string -> option A) : option A :=
  match s with
  | String c s' =>
      if Ascii.eqb c " " then
        match k s' with Some x => Some x | None => k s end
      else k s
  | EmptyString => k s
  end.

(** [\d+:\d+:\d+] ; the continuation receives the matched text *)
Definition clock (s : string) (k : string -> string -> option A) : option A :=
  many1 is_digit s (fun h r1 =>
  lit ":" r1 (fun r2 =>
  many1 is_digit r2 (fun m r3 =>
  lit ":" r3 (fun r4 =>
  many1 is_digit r4 (fun sec r5 =>
  k (h +:+ ":" +:+ m +:+ ":" +:+ sec) r5))))).

(** [(\d+)/(\d+)/(\d+)] *)
Definition mdy (s : string)
    (k : string -> string -> string -> string -> option A) : option A :=
  many1 is_digit s (fun g1 r1 =>
  lit "/" r1 (fun r2 =>
  many1 is_digit r2 (fun g2 r3 =>
  lit "/" r3 (fun r4 =>
  many1 is_digit r4 (fun g3 r5 =>
  k g1 g2 g3 r5))))).
End Combinators.

(** [re.match(r'\ ?\d+:\d+:\d+ .+ \((\d+)/(\d+)/(\d+)\)', line)] *)
Definition re_start (line : string) : option (string * string * string) :=
  opt_space line (fun r0 =>
  clock r0 (fun _ r1 =>
  lit " " r1 (fun r2 =>
  many1 is_dot r2 (fun _ r3 =>
  lit " (" r3 (fun r4 =>
  mdy r4 (fun g1 g2 g3 r5 =>
  lit ")" r5 (fun _ => Some (g1, g2, g3)))))))).

(** [re.match(r'\ ?(\d+:\d+:\d+) .+ (\w+): "(.+)" (\w+)@(.+)', line)] *)
Definition re_event (line : string)
    : option (string * string * string * string * string) :=
  opt_space line (fun r0 =>
  clock r0 (fun g1 r1 =>
  lit " " r1 (fun r2 =>
  many1 is_dot r2 (fun _ r3 =>
  lit " " r3 (fun r4 =>
  many1 is_word r4 (fun g2 r5 =>
  lit (": " +:+ String dquote EmptyString) r5 (fun r6 =>
  many1 is_dot r6 (fun g3 r7 =>
  lit (String dquote " ") r7 (fun r8 =>
  many1 is_word r8 (fun g4 r9 =>
  lit "@" r9 (fun r10 =>
  many1 is_dot r10 (fun g5 _ =>
  Some (g1, g2, g3, g4, g5))))))))))))).

(** [re.match(r'\ ?\d+:\d+:\d+ .+ TIMESTAMP (\d+)\/(\d+)\/(\d+)', line)] *)
Definition re_timestamp (line : string) : option (string * string * string) :=
  opt_space line (fun r0 =>
  clock r0 (fun _ r1 =>
  lit " " r1 (fun r2 =>
  many1 is_dot r2 (fun _ r3 =>
  lit " TIMESTAMP " r3 (fun r4 =>
  mdy r4 (fun g1 g2 g3 _ => Some (g1, g2, g3))))))).

End Regex.

(** ** Events *)

(** [(date, time, state, module, user, machine)] *)
Definition event : Type := string * string * string * string * string * string.

Definition ev_date (e : event) : string := let '(d, _, _, _, _, _) := e in d.
Definition ev_time (e : event) : string := let '(_, t, _, _, _, _) := e in t.
Definition ev_state (e : event) : string := let '(_, _, s, _, _, _) := e in s.
Definition ev_module (e : event) : string := let '(_, _, _, m, _, _) := e in m.
Definition ev_user (e : event) : string := let '(_, _, _, _, u, _) := e in u.
Definition ev_machine (e : event) : string := let '(_, _, _, _, _, c) := e in c.

(** ['%s/%s/%s' % (year, month, day)] *)
Definition format_date (y m d : string) : string := y +:+ "/" +:+ m +:+ "/" +:+ d.

(** ** [read_files] *)

(** The local variables of [read_files]. *)
Record reader : Type := Reader {
  r_nb_days : Z;
  r_result_list : list event;
  r_date_matched : bool;
  r_date : string;
  r_old_date : string
}.

Definition unknown_date : string := "??/??/????".

(** the state before the first file is opened; [date] and [old_date] are
    not bound yet, they are assigned when a file is opened *)
Definition reader_init : reader :=
  Reader 0 [] false unknown_date EmptyString.

(** The body of [for line in inode]. *)
Definition read_line (st : reader) (line : string) : reader :=
  let st1 :=
    if r_date_matched st then st
    else
      match Regex.re_start line with
      | Some (g1, g2, g3) =>
          Reader (r_nb_days st) (r_result_list st) true
                 (format_date g3 g1 g2) (r_old_date st)
      | None => st
      end in
  match Regex.re_event line with
  | Some (time, state, module, user, machine) =>
      Reader (r_nb_days st1)
             (r_result_list st1 ++ [(r_date st1, time, state, module, user, machine)])
             (r_date_matched st1) (r_date st1) (r_old_date st1)
  | None =>
      match Regex.re_timestamp line with
      | Some (g1, g2, g3) =>
          let date := format_date g3 g1 g2 in
          if decide (date <> r_old_date st1) then
            Reader (r_nb_days st1 + 1) (r_result_list st1) (r_date_matched st1) date date
          else
            Reader (r_nb_days st1) (r_result_list st1) (r_date_matched st1)
                   date (r_old_date st1)
      | None => st1
      end
  end.

Definition read_lines (st : reader) (lines : list string) : reader :=
  fold_left read_line lines st.

(** The body of [for a_file in files]: [date] and [old_date] are assigned
    afresh, the other variables are kept. *)
Definition read_file (st : reader) (a_file : list string) : reader :=
  read_lines
    (Reader (r_nb_days st) (r_result_list st) (r_date_matched st)
            unknown_date EmptyString)
    a_file.

Definition read_files_state (files : list (list string)) : reader :=
  fold_left read_file files reader_init.

Definition read_files (files : list (list string)) : Z * list event :=
  let st := read_files_state files in (r_nb_days st, r_result_list st).

(** ** [deduplicate] *)

(** Returns the boolean the source returns together with the set as the
    source leaves it ([stats_dedup] is mutated in place). *)
Definition deduplicate (stats_dedup : gset string)
    (state module user machine : string) : bool * gset string :=
  let module_user_machine := module +:+ ":" +:+ user +:+ "@" +:+ machine in
  if decide (lower state = "out") then
    if decide (module_user_machine ∈ stats_dedup) then (true, stats_dedup)
    else (false, stats_dedup ∪ {[module_user_machine]})
  else if decide (lower state = "in") then
    if decide (module_user_machine ∈ stats_dedup)
    then (false, stats_dedup ∖ {[module_user_machine]})
    else (true, stats_dedup)
  else (false, stats_dedup).

(** ** [do_some_stats] *)

(** [(max_users, min_users, max_day, nb_users, total_use, nb_days, old_date)] *)
Abbreviation stats_tuple := (Z * Z * string * Z * Z * Z * string)%type.

Definition new_module_stats : stats_tuple :=
  (0, 999999999999, EmptyString, 0, 0, 0, "XXXXXXX").

(** The third component is [stats[module]]: [None] stands for [KeyError]. *)
Definition get_stats_from_module (stats : gmap string stats_tuple)
    (module_list : list string) (module : string)
    : gmap string stats_tuple * list string * option stats_tuple :=
  let '(stats, module_list) :=
    if decide (module ∈ module_list) then (stats, module_list)
    else (<[module := new_module_stats]> stats, module_list ++ [module]) in
  (stats, module_list, stats !! module).

Definition count_users_upon_state (state : string) (nb_users total_use : Z) : Z * Z :=
  if decide (lower state = "out") then (nb_users + 1, total_use + 1)
  else if decide (lower state = "in") then (nb_users - 1, total_use)
  else (nb_users, total_use).

Definition get_min_max_users (nb_users min_users max_users : Z) (date max_day : string)
    : Z * Z * string :=
  let '(max_users, max_day) :=
    if (0 <? nb_users) && (max_users <? nb_users) then (nb_users, date)
    else (max_users, max_day) in
  let min_users :=
    if (0 <=? nb_users) && (nb_users <? min_users) then nb_users else min_users in
  (min_users, max_users, max_day).

(** The statements of the loop body of [do_some_stats] between the read of
    the module's tuple and the write of the new one. *)
Definition update_stats_tuple (t : stats_tuple) (date state : string) : stats_tuple :=
  let '(max_users, min_users, max_day, nb_users, total_use, nb_days, old_date) := t in
  let '(nb_days, old_date) :=
    if decide (date <> old_date /\ lower state = "out") then (nb_days + 1, date)
    else (nb_days, old_date) in
  let '(nb_users, total_use) := count_users_upon_state state nb_users total_use in
  let '(min_users, max_users, max_day) :=
    get_min_max_users nb_users min_users max_users date max_day in
  (max_users, min_users, max_day, nb_users, total_use, nb_days, old_date).

(** [(stats, module_list, stats_dedup)] *)
Definition stats_acc : Type := gmap string stats_tuple * list string * gset string.

(** The body of [for data in result_list] in [do_some_stats]. *)
Definition stats_step (acc : stats_acc) (data : event) : option stats_acc :=
  let '(stats, module_list, stats_dedup) := acc in
  let '(date, time, state, module, user, machine) := data in
  let '(dup, stats_dedup) := deduplicate stats_dedup state module user machine in
  if dup then Some (stats, module_list, stats_dedup)
  else
    let '(stats, module_list, r) := get_stats_from_module stats module_list module in
    match r with
    | None => None
    | Some t =>
        Some (<[module := update_stats_tuple t date state]> stats,
              module_list, stats_dedup)
    end.

(** A loop whose body can raise. *)
Fixpoint fold_opt {A B : Type} (f : A -> B -> option A) (l : list B) (a : A)
    : option A :=
  match l with
  | [] => Some a
  | x :: l' =>
      match f a x with
      | Some a' => fold_opt f l' a'
      | None => None
      end
  end.

Definition do_some_stats (result_list : list event)
    : option (gmap string stats_tuple * list string) :=
  match fold_opt stats_step result_list (∅, [], ∅) with
  | Some (stats, module_list, _) => Some (stats, module_list)
  | None => None
  end.

(** ** [do_gnuplot_stats] *)

Definition init_use_upon_state (state : string) : Z :=
  let use := 0 in
  if decide (lower state = "out") then 1
  else
    (* [state.lower == 'in'] compares a bound method with a string *)
    if false then 0 else use.

Definition update_use_value_upon_state (state : string) (use : Z) : Z :=
  if decide (lower state = "out") then use + 1
  else if decide (lower state = "in") then use - 1
  else use.

(** [(date, time, use)] *)
Abbreviation snapshot := (string * string * Z)%type.

Definition gnuplot_acc : Type :=
  gmap string (list snapshot) * list string * gset string.

(** The body of [for data in result_list] in [do_gnuplot_stats]; the list
    of a module is kept newest first, as in the source. *)
Definition gnuplot_step (acc : gnuplot_acc) (data : event) : option gnuplot_acc :=
  let '(stats, module_list, stats_dedup) := acc in
  let '(date, time, state, module, user, machine) := data in
  let '(dup, stats_dedup) := deduplicate stats_dedup state module user machine in
  if dup then Some (stats, module_list, stats_dedup)
  else
    let '(stats, module_list) :=
      if decide (module ∈ module_list) then (stats, module_list)
      else (<[module := []]> stats, module_list ++ [module]) in
    match stats !! module with
    | None => None
    | Some event_list =>
        let use :=
          match event_list with
          | [] => init_use_upon_state state
          | (some_date, some_time, use) :: _ => update_use_value_upon_state state use
          end in
        Some (<[module := (date, time, use) :: event_list]> stats,
              module_list, stats_dedup)
    end.

Definition do_gnuplot_stats (result_list : list event)
    : option (gmap string (list snapshot) * list string) :=
  match fold_opt gnuplot_step result_list (∅, [], ∅) with
  | Some (stats, module_list, _) => Some (stats, module_list)
  | None => None
  end.

(** ** Output *)

(** What the script does to the outside world, in order. *)
Inductive effect : Type :=
  | Print (text : string)                          (* [print(text)] *)
  | Makedirs (path : string)                       (* [os.makedirs(path, exist_ok=True)] *)
  | WriteFile (path : string) (written : list string)  (* a file opened with ['w'] and the texts written to it *)
  | System (command : string).                     (* [os.system(command)] *)

(** ['%d' % n] *)
Definition string_of_Z (n : Z) : string := NilEmpty.string_of_int (Z.to_int n).

Definition nl : string := String newline EmptyString.
Definition quoted (s : string) : string := String dquote (s +:+ String dquote EmptyString).

(** [os.path.join(a, b)] on a POSIX system *)
Definition path_join (a b : string) : string :=
  match b with
  | String "/" _ => b
  | _ =>
      if decide (a = EmptyString) then b
      else if String.eqb (substring (String.length a - 1) 1 a) "/" then a +:+ b
      else a +:+ "/" +:+ b
  end.

(** *** The division of [print_stats]

    [total_use/nb_use_days] is the true division of two integers: the
    double nearest to the quotient, ties to even, [ZeroDivisionError] for a
    zero divisor and [OverflowError] when that double would be [2^1024] or
    more. ['%d'] then prints the integer part of the double. *)

(** [x * 2^s] for [s >= 0], [x] otherwise: the two sides of a fraction
    scaled by a power of two of either sign. *)
Definition scale (x s : Z) : Z := if 0 <=? s then x * 2 ^ s else x.

(** The integer nearest to [n / d], ties to even; [n >= 0], [d > 0]. *)
Definition round_half_even (n d : Z) : Z :=
  let q := n / d in
  let r := n mod d in
  if 2 * r <? d then q
  else if d <? 2 * r then q + 1
  else if Z.even q then q else q + 1.

(** [k] with [2^k <= n / d < 2^(k+1)]; [n > 0], [d > 0]. *)
Definition quotient_exponent (n d : Z) : Z :=
  let k := Z.log2 n - Z.log2 d in
  if scale n (- k) <? scale d k then k - 1 else k.

(** [int(a / b)]: [None] when the division raises. The double has 53
    significant bits, fewer below [2^-1022]. *)
Definition int_of_true_div (a b : Z) : option Z :=
  if b =? 0 then None
  else if a =? 0 then Some 0
  else
    let n := Z.abs a in
    let d := Z.abs b in
    let k := quotient_exponent n d in
    if 1023 <? k then None
    else
      let e := Z.max (k - 52) (-1074) in
      let m := round_half_even (scale n (- e)) (scale d e) in
      if (k =? 1023) && (m =? 2 ^ 53) then None
      else Some (Z.sgn a * Z.sgn b * (if 0 <=? e then m * 2 ^ e else m / 2 ^ (- e))).

(** The lines [print_stats] prints for one module, [None] when the
    division raises. *)
Definition print_module_stats (nb_days : Z) (name : string) (t : stats_tuple)
    : option (list effect) :=
  let '(max_users, min_users, max_day, nb_users, total_use, nb_use_days, date) := t in
  let min_users := if max_users =? 0 then 0 else min_users in
  let head :=
    [ Print ("Module " +:+ name +:+ " :");
      Print " Number of users per day :";
      Print ("  max : " +:+ string_of_Z max_users +:+ " (" +:+ max_day +:+ ")");
      Print ("  min : " +:+ string_of_Z min_users);
      Print (" Total number of use : " +:+ string_of_Z total_use);
      Print (" Number of days used : " +:+ string_of_Z nb_use_days +:+ " / "
               +:+ string_of_Z nb_days) ] in
  if 0 <? nb_use_days then
    match int_of_true_div total_use nb_use_days with
    | Some average =>
        Some (head ++ [Print (" Average use per day : " +:+ string_of_Z average)]
                ++ [Print EmptyString])
    | None => None
    end
  else Some (head ++ [Print EmptyString]).

(** ['%s %s %d\n' % (date, time, use)] *)
Definition dat_line (event : snapshot) : string :=
  let '(date, time, use) := event in
  date +:+ " " +:+ time +:+ " " +:+ string_of_Z use +:+ nl.

(** The rows [print_gnuplot] writes to the data file of a module whose
    list is [event_list]: the list is reversed first, as it was built by
    prepending. *)
Definition dat_rows (event_list : list snapshot) : list snapshot := rev event_list.

Definition gnuplot_header (report_name : string) : list string :=
  [ "# Gnuplot settings." +:+ nl;
    "set key right" +:+ nl;
    "set grid" +:+ nl;
    "set title " +:+ quoted ("FlexLm - " +:+ report_name) +:+ " noenhanced" +:+ nl;
    "set xdata time" +:+ nl;
    "set timefmt " +:+ quoted "%Y/%m/%d %H:%M:%S" +:+ nl;
    "set format x " +:+ quoted "%Y/%m/%d %H:%M:%S" +:+ nl;
    "set xlabel " +:+ quoted "Date, Time" +:+ nl;
    "set xtics rotate" +:+ nl;
    "set ylabel " +:+ quoted "Number of licenses in use" +:+ nl;
    "set ytics 1" +:+ nl;
    "set output " +:+ quoted (report_name +:+ ".pdf") +:+ nl;
    "set style line 1 lt 1 lw 2 pt 7 ps 0.5" +:+ nl;
    "set terminal pdf size 29.7 cm, 21.0 cm  # PDF output in A4 format" +:+ nl;
    nl +:+ "# All license features on one page." +:+ nl;
    "plot " ].

(** The directive of a module in the first [plot] command of the script. *)
Definition plot_directive (first_line : bool) (m : string) : string :=
  (if first_line then EmptyString else ", \" +:+ nl)
  +:+ quoted (m +:+ ".dat") +:+ " using 1:3 title " +:+ quoted m
  +:+ " noenhanced with lines".

Definition gnuplot_pages (module_list : list string) : list string :=
  [ nl +:+ "# One page per license feature.";
    nl +:+ "set xrange [GPVAL_X_MIN:GPVAL_X_MAX]" ]
  ++ map (fun m => nl +:+ "plot " +:+ quoted (m +:+ ".dat") +:+ " using 1:3 title "
                    +:+ quoted m +:+ " noenhanced with linespoints linestyle 1")
         module_list.

(** ** Steps that can fail, [Options] and [main] *)

Record Options : Type := {
  files : list (list string);   (* the content of the files named on the command line *)
  out : string;
  report : string
}.

(** [_get_command_line_arguments], from the values [argparse] returns *)
Definition get_command_line_arguments (gnuplot stats : bool) (report_name : string)
    (log_files : list (list string)) : Options :=
  let out := "None" in
  let out := if gnuplot then "gnuplot" else out in
  let out := if stats then "stat" else out in
  {| files := log_files; out := out; report := report_name |}.

Section OperatingSystem.

(** Whether a step succeeds: the directory of a data file may be missing,
    the standard output closed, the disk full. A step that fails raises.
    The run in which every step succeeds is the one of [os_ok] constantly
    [true]. *)
Variable os_ok : effect -> bool.

(** Steps taken one after the other: [None] when one of them raises. *)
Definition perform (steps : list effect) : option (list effect) :=
  if forallb os_ok steps then Some steps else None.

Fixpoint print_stats (nb_days : Z) (stats : gmap string stats_tuple)
    (name_list : list string) : option (list effect) :=
  match name_list with
  | [] => Some []
  | name :: rest =>
      match stats !! name with
      | None => None
      | Some t =>
          match print_module_stats nb_days name t with
          | None => None
          | Some lines =>
              match perform lines, print_stats nb_days stats rest with
              | Some printed, Some out => Some (printed ++ out)
              | _, _ => None
              end
          end
      end
  end.

Definition output_stats (nb_days : Z) (result_list : list event) : option (list effect) :=
  match do_some_stats result_list with
  | Some (stats, name_list) => print_stats nb_days stats name_list
  | None => None
  end.

(** The first loop over [module_list]: the directives added to the script
    and the data files, or [None] when [stats[m]] raises or a data file
    cannot be opened or written. [event_list.reverse()] reverses the list
    of the dictionary in place: the loop goes on with the dictionary
    updated. *)
Fixpoint gnuplot_data (stats : gmap string (list snapshot)) (data_dir : string)
    (first_line : bool) (module_list : list string)
    : option (list string * list effect) :=
  match module_list with
  | [] => Some ([], [])
  | m :: rest =>
      let dat_filename := m +:+ ".dat" in
      match stats !! m with
      | None => None
      | Some event_list =>
          let event_list := dat_rows event_list in
          let stats := <[m := event_list]> stats in
          let dat_file :=
            WriteFile (path_join data_dir dat_filename) (map dat_line event_list) in
          if os_ok dat_file then
            match gnuplot_data stats data_dir false rest with
            | Some (directives, files) =>
                Some (plot_directive first_line m :: directives, dat_file :: files)
            | None => None
            end
          else None
      end
  end.

(** The files [print_gnuplot] writes: the data files in the order of
    [module_list], then the script, which is opened first and written to
    until the end. *)
Definition print_gnuplot (report_name : string) (nb_days : Z)
    (stats : gmap string (list snapshot)) (module_list : list string)
    (data_dir : string) : option (list effect) :=
  match gnuplot_data stats data_dir true module_list with
  | Some (directives, files) =>
      let gnuplot_file :=
        WriteFile (path_join data_dir "gnuplot.script")
                  (gnuplot_header report_name ++ directives
                     ++ gnuplot_pages module_list) in
      if os_ok gnuplot_file then Some (files ++ [gnuplot_file]) else None
  | None => None
  end.

Definition output_gnuplot (report_name : string) (nb_days : Z)
    (result_list : list event) (data_dir : string) : option (list effect) :=
  match do_gnuplot_stats result_list with
  | Some (stats, module_list) =>
      print_gnuplot report_name nb_days stats module_list data_dir
  | None => None
  end.

(** The effects of [main], or [None] when it raises. The exit status of
    the two commands is dropped. *)
Definition main (my_opts : Options) : option (list effect) :=
  let '(nb_days, result_list) := read_files (files my_opts) in
  if (1 <? length result_list)%nat then
    if decide (out my_opts = "stat") then output_stats nb_days result_list
    else if decide (out my_opts = "gnuplot" /\ nb_days > 0) then
      let report := report my_opts in
      let report_dir := report +:+ "_report" in
      let data_dir := path_join report_dir "data" in
      match perform [Makedirs report_dir; Makedirs data_dir],
            output_gnuplot report nb_days result_list data_dir
      with
      | Some made, Some written =>
          Some (made ++ written ++
                [System ("cd " +:+ data_dir +:+ "; gnuplot " +:+ "gnuplot.script");
                 System ("mv " +:+ path_join data_dir report +:+ ".pdf " +:+ report_dir)])
      | _, _ => None
      end
    else Some []
  else Some [].

End OperatingSystem.

(** * Vocabulary of the properties *)

(** ** The deduplicated stream *)

Definition is_out (e : event) : Prop := lower (ev_state e) = "out".
Definition is_in (e : event) : Prop := lower (ev_state e) = "in".

#[global] Instance is_out_dec e : Decision (is_out e).
Proof. unfold is_out. apply _. Defined.
#[global] Instance is_in_dec e : Decision (is_in e).
Proof. unfold is_in. apply _. Defined.

(** The element of [stats_dedup] that stands for an event. *)
Definition dedup_key (e : event) : string :=
  ev_module e +:+ ":" +:+ ev_user e +:+ "@" +:+ ev_machine e.

(** [deduplicate] on the fields of an event, as both folds call it. *)
Definition dedup_event (stats_dedup : gset string) (e : event) : bool * gset string :=
  let '(date, time, state, module, user, machine) := e in
  deduplicate stats_dedup state module user machine.

(** The dedup set after a stream has gone through the fold. *)
Definition dedup_after (stats_dedup : gset string) (l : list event) : gset string :=
  fold_left (fun s e => (dedup_event s e).2) l stats_dedup.

(** The events for which [deduplicate] returns [False]: those that reach
    the statistics. *)
Fixpoint accepted_from (stats_dedup : gset string) (l : list event) : list event :=
  match l with
  | [] => []
  | e :: l' =>
      let '(dup, s') := dedup_event stats_dedup e in
      if dup then accepted_from s' l' else e :: accepted_from s' l'
  end.

Definition accepted (l : list event) : list event := accepted_from ∅ l.

(** The accepted events of one module. *)
Definition of_module (m : string) (l : list event) : list event :=
  filter (fun e => ev_module e = m) l.

(** The value of a module's tuple after the accepted events [evs], from the
    tuple [o] ([None]: the module has not been seen). *)
Definition module_fold (m : string) (evs : list event) (o : option stats_tuple)
    : option stats_tuple :=
  fold_left
    (fun o e =>
       if decide (ev_module e = m)
       then Some (update_stats_tuple (default new_module_stats o) (ev_date e) (ev_state e))
       else o)
    evs o.

Definition stats_wf {V : Type} (stats : gmap string V) (module_list : list string) : Prop :=
  forall m, m ∈ module_list <-> is_Some (stats !! m).

(** ** The time series of one module *)

(** The [use] value of a new snapshot, from the module's list so far. *)
Definition next_use (event_list : list snapshot) (state : string) : Z :=
  match event_list with
  | [] => init_use_upon_state state
  | (_, _, use) :: _ => update_use_value_upon_state state use
  end.

(** The list of a module (newest first) after the accepted events [evs]. *)
Definition series_fold (m : string) (evs : list event) (o : option (list snapshot))
    : option (list snapshot) :=
  fold_left
    (fun o e =>
       if decide (ev_module e = m)
       then Some ((ev_date e, ev_time e, next_use (default [] o) (ev_state e))
                    :: default [] o)
       else o)
    evs o.

(** ** Projections of a module's tuple *)

Definition t_nb_users (t : stats_tuple) : Z :=
  let '(_, _, _, nb_users, _, _, _) := t in nb_users.
Definition t_total_use (t : stats_tuple) : Z :=
  let '(_, _, _, _, total_use, _, _) := t in total_use.
Definition t_nb_days (t : stats_tuple) : Z :=
  let '(_, _, _, _, _, nb_days, _) := t in nb_days.
Definition t_old_date (t : stats_tuple) : string :=
  let '(_, _, _, _, _, _, old_date) := t in old_date.

(** The tuple [get_stats_from_module] hands out for a module: the stored
    one, or the initial one for a module not seen before. *)
Definition tuple_of (stats : gmap string stats_tuple) (m : string) : stats_tuple :=
  default new_module_stats (stats !! m).

(** The [use] value of the newest snapshot of a module, [0] when the module
    has none. *)
Definition last_use (event_list : list snapshot) : Z :=
  match event_list with
  | [] => 0
  | (_, _, use) :: _ => use
  end.

(** ** Open keys *)

(** A CheckOut or CheckIn record of the key [k]. *)
Definition touches (k : string) (e : event) : Prop :=
  dedup_key e = k /\ (is_out e \/ is_in e).

#[global] Instance touches_dec k e : Decision (touches k e).
Proof. unfold touches. apply _. Defined.

(** The key [k] is open after the stream [l]: the latest CheckOut or
    CheckIn record of the key is a CheckOut. *)
Definition key_open (k : string) (l : list event) : Prop :=
  match last (filter (touches k) l) with
  | Some e => is_out e
  | None => False
  end.

#[global] Instance key_open_dec k l : Decision (key_open k l).
Proof. unfold key_open. destruct (last (filter (touches k) l)); apply _. Defined.

Ltac set_tac :=
  repeat (rewrite elem_of_union || rewrite elem_of_difference
          || rewrite elem_of_singleton);
  intuition congruence.

(** ** Observations on the result of the folds *)

(** A field of the tuple [do_some_stats] leaves for a module. *)
Definition stats_field (f : stats_tuple -> Z) (l : list event) (m : string) : option Z :=
  match do_some_stats l with
  | Some (stats, _) => Some (f (tuple_of stats m))
  | None => None
  end.

(** The list [do_gnuplot_stats] leaves for a module, newest first. *)
Definition series_of (l : list event) (m : string) : option (list snapshot) :=
  match do_gnuplot_stats l with
  | Some (stats, _) => Some (default [] (stats !! m))
  | None => None
  end.

(** ** Two records with one key *)

(** A log in which two different (module, user, machine) triples give the
    same string [a:b@c:d@e]. *)
Definition colliding_log : list string :=
  [ "10:00:00 (lmgrd) TIMESTAMP 7/30/2012";
    "11:50:22 (vendor) OUT: " +:+ quoted "a" +:+ " b@c:d@e";
    "11:51:00 (vendor) IN: " +:+ quoted "a:b@c" +:+ " d@e";
    "11:52:00 (vendor) OUT: " +:+ quoted "a" +:+ " b@c:d@e";
    "11:53:00 (vendor) IN: " +:+ quoted "a:b@c" +:+ " d@e" ].

Definition colliding_stream : list event :=
  [ ("2012/7/30", "11:50:22", "OUT", "a", "b", "c:d@e");
    ("2012/7/30", "11:51:00", "IN", "a:b@c", "d", "e");
    ("2012/7/30", "11:52:00", "OUT", "a", "b", "c:d@e");
    ("2012/7/30", "11:53:00", "IN", "a:b@c", "d", "e") ].

(** ** Days of use *)

(** The dates of the accepted CheckOut events of a module, in order. *)
Definition checkout_dates (m : string) (evs : list event) : list string :=
  map ev_date (filter is_out (of_module m evs)).

(** How often a date differs from the one before it, [old_date] standing
    before the first. *)
Fixpoint date_changes (old_date : string) (dates : list string) : Z :=
  match dates with
  | [] => 0
  | d :: rest => (if decide (d <> old_date) then 1 else 0) + date_changes d rest
  end.

(** Equal dates stand together: once the date changes, the date left does
    not come back. *)
Fixpoint grouped (dates : list string) : Prop :=
  match dates with
  | [] => True
  | d :: rest =>
      match rest with
      | [] => True
      | d' :: _ => d' <> d -> d ∉ rest
      end /\ grouped rest
  end.

Definition distinct_dates (dates : list string) : nat :=
  size (list_to_set dates : gset string).

#[global] Instance grouped_dec dates : Decision (grouped dates).
Proof.
  induction dates as [|d [|d' rest] IH]; cbn [grouped]; apply _.
Defined.

(** Closes a decidable goal on concrete data by evaluation. *)
Ltac by_decision :=
  match goal with
  | |- ?P => apply (@bool_decide_unpack P _); vm_compute; exact I
  end.

(** A log rotated in the course of a day: the records at the head of the
    second file carry the unknown date, those after its first TIMESTAMP line
    carry the date of the first file again. *)
Definition rotated_logs : list (list string) :=
  [ [ "20:00:00 (lmgrd) TIMESTAMP 7/30/2012";
      "20:10:00 (orglab) OUT: " +:+ quoted "Origin7" +:+ " alice@HOST1" ];
    [ "21:05:00 (orglab) OUT: " +:+ quoted "Origin7" +:+ " bob@HOST2";
      "22:00:00 (lmgrd) TIMESTAMP 7/30/2012";
      "22:20:00 (orglab) OUT: " +:+ quoted "Origin7" +:+ " carol@HOST3" ] ].

Definition rotated_stream : list event :=
  [ ("2012/7/30", "20:10:00", "OUT", "Origin7", "alice", "HOST1");
    ("??/??/????", "21:05:00", "OUT", "Origin7", "bob", "HOST2");
    ("2012/7/30", "22:20:00", "OUT", "Origin7", "carol", "HOST3") ].

(** ** Stamps and balance of a time series *)

Definition row_stamp (r : snapshot) : string * string := (r.1.1, r.1.2).
Definition event_stamp (e : event) : string * string := (ev_date e, ev_time e).

(** CheckOuts minus CheckIns *)
Definition balance (evs : list event) : Z :=
  Z.of_nat (length (filter is_out evs)) - Z.of_nat (length (filter is_in evs)).

(** [1] when the first event is a CheckIn, which [init_use_upon_state]
    takes for [0] and not for [-1]. *)
Definition floor_bonus (evs : list event) : Z :=
  match evs with
  | e :: _ => if decide (is_in e) then 1 else 0
  | [] => 0
  end.

(** ** Sample log lines *)

Definition line_start : string :=
  "8:21:20 (lmgrd) FLEXnet Licensing (v10.8.0 build 18869) started on MACHINE (IBM PC) (7/30/2012)".

Definition line_ts : string := "20:52:29 (lmgrd) TIMESTAMP 1/23/2012".
Definition line_banner : string := "11:49:00 (lmgrd) (orglab) using TCP-port 49686".
Definition line_out : string :=
  "11:50:22 (orglab) OUT: " +:+ quoted "Origin7" +:+ " user@MACHINE-NAME".

(** ** Streams without colliding keys *)

(** No two events of different modules give the same key. *)
Definition collision_free (l : list event) : Prop :=
  forall e1 e2, e1 ∈ l -> e2 ∈ l -> dedup_key e1 = dedup_key e2 ->
    ev_module e1 = ev_module e2.

(** The open keys that belong to events of the module [m]. *)
Definition open_keys (m : string) (l : list event) : gset string :=
  dedup_after ∅ l ∩ list_to_set (dedup_key <$> of_module m l).

(** * Vocabulary of the further properties *)

(** ** Strings of one character class *)

Fixpoint all_chars (p : ascii -> bool) (s : string) : bool :=
  match s with
  | EmptyString => true
  | String c s' => p c && all_chars p s'
  end.

(** What a group [(c+)] of a regular expression can hold: a string that is
    not empty, of characters of the class [c]. *)
Definition in_class (p : ascii -> bool) (s : string) : Prop :=
  s <> EmptyString /\ all_chars p s = true.

(** Nothing of the class follows: the rest is empty or starts outside the
    class. *)
Definition stops (p : ascii -> bool) (rest : string) : Prop :=
  match rest with
  | EmptyString => True
  | String c _ => p c = false
  end.

(** A date as [read_files] formats it from three groups of digits. *)
Definition is_formatted_date (date : string) : Prop :=
  exists y m d,
    date = format_date y m d /\
    in_class is_digit y /\ in_class is_digit m /\ in_class is_digit d.

(** ** Lines and dates of [read_files] *)

(** [(time, state, module, user, machine)]: an event without its date. *)
Definition event_fields (e : event) : string * string * string * string * string :=
  let '(_, time, state, module, user, machine) := e in
  (time, state, module, user, machine).

(** The event [read_files] makes of the groups of the event pattern. *)
Definition dated (date : string) (fields : string * string * string * string * string)
    : event :=
  let '(time, state, module, user, machine) := fields in
  (date, time, state, module, user, machine).

(** The date of a line that [read_files] treats as a TIMESTAMP line: one
    that matches the TIMESTAMP pattern and not the event pattern. *)
Definition timestamp_date (line : string) : option string :=
  match Regex.re_event line with
  | Some _ => None
  | None =>
      match Regex.re_timestamp line with
      | Some (g1, g2, g3) => Some (format_date g3 g1 g2)
      | None => None
      end
  end.

(** A line that matches one of the three patterns. *)
Definition matches_some (line : string) : Prop :=
  is_Some (Regex.re_start line) \/ is_Some (Regex.re_event line)
  \/ is_Some (Regex.re_timestamp line).

#[global] Instance matches_some_dec line : Decision (matches_some line).
Proof. unfold matches_some. apply _. Defined.

(** The sum of a list of integers. *)
Definition sum_Z (l : list Z) : Z := fold_right Z.add 0 l.

(** A date [read_files] can give to an event. *)
Definition is_event_date (date : string) : Prop :=
  date = unknown_date \/ is_formatted_date date.

(** A character other than the slash of a formatted date. *)
Definition not_slash (c : ascii) : bool := negb (Ascii.eqb c "/").

(** The days [read_files] counts in one file: the changes of date along
    its TIMESTAMP lines, the first one counting as a change. *)
Definition file_days (a_file : list string) : Z :=
  date_changes EmptyString (omap timestamp_date a_file).

(** ** Keys and module lists *)

(** The events of one key. *)
Definition of_key (k : string) (l : list event) : list event :=
  filter (fun e => dedup_key e = k) l.

(** [if module not in module_list: module_list.append(module)] *)
Definition add_module (module_list : list string) (e : event) : list string :=
  if decide (ev_module e ∈ module_list) then module_list
  else module_list ++ [ev_module e].

(** The names of a list in the order of their first occurrence. *)
Fixpoint first_seen (names : list string) : list string :=
  match names with
  | [] => []
  | x :: rest => x :: filter (fun y => y <> x) (first_seen rest)
  end.

(** ** More projections of a module's tuple *)

Definition t_max_users (t : stats_tuple) : Z :=
  let '(max_users, _, _, _, _, _, _) := t in max_users.
Definition t_min_users (t : stats_tuple) : Z :=
  let '(_, min_users, _, _, _, _, _) := t in min_users.
Definition t_max_day (t : stats_tuple) : string :=
  let '(_, _, max_day, _, _, _, _) := t in max_day.

(** What holds of the tuple of a module from its creation on. *)
Definition tuple_bounds (t : stats_tuple) : Prop :=
  0 <= t_max_users t /\
  t_nb_users t <= t_max_users t /\
  t_max_users t <= t_total_use t /\
  0 <= t_nb_days t <= t_total_use t /\
  0 <= t_min_users t <= 999999999999 /\
  (0 < t_max_users t -> t_min_users t <= t_max_users t).

(** ** Effects by kind *)

Definition is_print (x : effect) : Prop :=
  match x with Print _ => True | _ => False end.
Definition is_write (x : effect) : Prop :=
  match x with WriteFile _ _ => True | _ => False end.

#[global] Instance collision_free_dec l : Decision (collision_free l).
Proof.
  refine (cast_if (decide (Forall (fun e1 => Forall (fun e2 =>
            dedup_key e1 = dedup_key e2 -> ev_module e1 = ev_module e2) l) l)));
    unfold collision_free; rewrite Forall_forall in *.
  - intros e1 e2 H1 H2. specialize (f e1 H1). rewrite Forall_forall in f. auto.
  - intros H. apply n. intros e1 H1. apply Forall_forall. intros e2 H2. auto.
Defined.

(** * Properties *)

(** ** Lemmas on the deduplicator *)

Lemma dedup_event_eq s e :
  dedup_event s e =
    if decide (is_out e) then
      if decide (dedup_key e ∈ s) then (true, s) else (false, s ∪ {[dedup_key e]})
    else if decide (is_in e) then
      if decide (dedup_key e ∈ s) then (false, s ∖ {[dedup_key e]}) else (true, s)
    else (false, s).
Proof.
  destruct e as [[[[[d t] st] m] u] c].
  unfold dedup_event, deduplicate, is_out, is_in, dedup_key; simpl.
  repeat case_decide; try reflexivity; contradiction.
Qed.

Lemma dedup_after_app s l1 l2 :
  dedup_after s (l1 ++ l2) = dedup_after (dedup_after s l1) l2.
Proof. unfold dedup_after. apply fold_left_app. Qed.

Lemma accepted_from_app s l1 l2 :
  accepted_from s (l1 ++ l2) =
  accepted_from s l1 ++ accepted_from (dedup_after s l1) l2.
Proof.
  revert s. induction l1 as [|e l1 IH]; intros s; [reflexivity|].
  change (dedup_after s (e :: l1)) with (dedup_after (dedup_event s e).2 l1).
  cbn [app accepted_from].
  destruct (dedup_event s e) as [dup s']; cbn [snd].
  destruct dup; rewrite IH; reflexivity.
Qed.

Lemma fold_opt_app {A B : Type} (f : A -> B -> option A) l1 l2 a :
  fold_opt f (l1 ++ l2) a =
  match fold_opt f l1 a with
  | Some a' => fold_opt f l2 a'
  | None => None
  end.
Proof.
  revert a. induction l1 as [|x l1 IH]; intros a; simpl; [reflexivity|].
  destruct (f a x); [apply IH | reflexivity].
Qed.

(** ** The statistics fold, module by module *)

Lemma stats_step_spec stats ml s e :
  stats_wf stats ml ->
  exists stats' ml',
    stats_step (stats, ml, s) e = Some (stats', ml', (dedup_event s e).2) /\
    stats_wf stats' ml' /\
    forall m, stats' !! m =
      if (dedup_event s e).1 then stats !! m
      else if decide (ev_module e = m)
           then Some (update_stats_tuple (default new_module_stats (stats !! m))
                        (ev_date e) (ev_state e))
           else stats !! m.
Proof.
  intros Hwf. destruct e as [[[[[d t] st] mo] u] c].
  unfold stats_step, dedup_event; simpl.
  destruct (deduplicate s st mo u c) as [dup s']; simpl.
  destruct dup.
  { exists stats, ml. auto. }
  unfold get_stats_from_module.
  destruct (decide (mo ∈ ml)) as [Hin|Hnin].
  - destruct (proj1 (Hwf mo) Hin) as [t0 Ht0]. rewrite Ht0.
    eexists _, ml. split; [reflexivity|]. split.
    + intros m. rewrite lookup_insert. case_decide; subst.
      * split; [eauto | intros _; exact Hin].
      * apply Hwf.
    + intros m. rewrite lookup_insert. case_decide; subst; [|reflexivity].
      rewrite Ht0. reflexivity.
  - rewrite lookup_insert_eq.
    assert (Hnone : stats !! mo = None).
    { destruct (stats !! mo) eqn:E; [|reflexivity].
      exfalso. apply Hnin, Hwf. eauto. }
    eexists _, (ml ++ [mo]). split; [reflexivity|]. split.
    + intros m. rewrite elem_of_app, list_elem_of_singleton.
      rewrite !lookup_insert. repeat case_decide; subst; try congruence.
      * split; eauto.
      * split; [intros [?|?]; [apply Hwf; assumption|congruence] |].
        intros H'. left. apply Hwf. exact H'.
    + intros m. rewrite !lookup_insert. repeat case_decide; subst; try congruence.
      rewrite Hnone. reflexivity.
Qed.

Lemma stats_fold_spec l : forall stats ml s,
  stats_wf stats ml ->
  exists stats' ml',
    fold_opt stats_step l (stats, ml, s) = Some (stats', ml', dedup_after s l) /\
    stats_wf stats' ml' /\
    forall m, stats' !! m = module_fold m (accepted_from s l) (stats !! m).
Proof.
  induction l as [|e l IH]; intros stats ml s Hwf.
  { exists stats, ml. auto. }
  destruct (stats_step_spec stats ml s e Hwf) as (stats1 & ml1 & Hstep & Hwf1 & Hlk).
  destruct (IH stats1 ml1 (dedup_event s e).2 Hwf1) as (stats2 & ml2 & Hfold & Hwf2 & Hlk2).
  exists stats2, ml2. cbn [fold_opt]. rewrite Hstep.
  split; [exact Hfold|]. split; [exact Hwf2|].
  intros m. rewrite Hlk2, Hlk. cbn [accepted_from].
  destruct (dedup_event s e) as [dup s']; cbn [fst snd].
  destruct dup; [reflexivity|]. unfold module_fold; cbn [fold_left].
  case_decide; reflexivity.
Qed.

Lemma stats_wf_empty {V : Type} : stats_wf (∅ : gmap string V) [].
Proof.
  intros m. rewrite lookup_empty. split.
  - intros H. apply elem_of_nil in H. contradiction.
  - intros [x Hx]. discriminate.
Qed.

(** [do_some_stats] never raises, and the tuple it leaves for a module is
    the fold of the module's accepted events. *)
Lemma do_some_stats_spec l :
  exists stats ml,
    do_some_stats l = Some (stats, ml) /\
    stats_wf stats ml /\
    forall m, stats !! m = module_fold m (accepted l) None.
Proof.
  destruct (stats_fold_spec l ∅ [] ∅ stats_wf_empty) as (stats & ml & Hf & Hwf & Hlk).
  exists stats, ml. unfold do_some_stats. rewrite Hf. split; [reflexivity|].
  split; [exact Hwf|]. intros m. rewrite Hlk, lookup_empty. reflexivity.
Qed.

(** ** The time-series fold, module by module *)

Lemma gnuplot_step_spec stats ml s e :
  stats_wf stats ml ->
  exists stats' ml',
    gnuplot_step (stats, ml, s) e = Some (stats', ml', (dedup_event s e).2) /\
    stats_wf stats' ml' /\
    forall m, stats' !! m =
      if (dedup_event s e).1 then stats !! m
      else if decide (ev_module e = m)
           then Some ((ev_date e, ev_time e, next_use (default [] (stats !! m)) (ev_state e))
                        :: default [] (stats !! m))
           else stats !! m.
Proof.
  intros Hwf. destruct e as [[[[[d t] st] mo] u] c].
  unfold gnuplot_step, dedup_event; simpl.
  destruct (deduplicate s st mo u c) as [dup s']; simpl.
  destruct dup.
  { exists stats, ml. auto. }
  destruct (decide (mo ∈ ml)) as [Hin|Hnin]; cbn iota beta.
  - destruct (proj1 (Hwf mo) Hin) as [t0 Ht0]. rewrite Ht0.
    eexists _, ml. split; [reflexivity|]. split.
    + intros m. rewrite lookup_insert. case_decide; subst.
      * split; [eauto | intros _; exact Hin].
      * apply Hwf.
    + intros m. rewrite lookup_insert. case_decide; subst; [|reflexivity].
      rewrite Ht0. simpl. destruct t0 as [|[[? ?] ?] ?]; reflexivity.
  - rewrite lookup_insert_eq.
    assert (Hnone : stats !! mo = None).
    { destruct (stats !! mo) eqn:E; [|reflexivity].
      exfalso. apply Hnin, Hwf. eauto. }
    eexists _, (ml ++ [mo]). split; [reflexivity|]. split.
    + intros m. rewrite elem_of_app, list_elem_of_singleton.
      rewrite !lookup_insert. repeat case_decide; subst; try congruence.
      * split; eauto.
      * split; [intros [?|?]; [apply Hwf; assumption|congruence] |].
        intros H'. left. apply Hwf. exact H'.
    + intros m. rewrite !lookup_insert. repeat case_decide; subst; try congruence.
      rewrite Hnone. reflexivity.
Qed.

Lemma gnuplot_fold_spec l : forall stats ml s,
  stats_wf stats ml ->
  exists stats' ml',
    fold_opt gnuplot_step l (stats, ml, s) = Some (stats', ml', dedup_after s l) /\
    stats_wf stats' ml' /\
    forall m, stats' !! m = series_fold m (accepted_from s l) (stats !! m).
Proof.
  induction l as [|e l IH]; intros stats ml s Hwf.
  { exists stats, ml. auto. }
  destruct (gnuplot_step_spec stats ml s e Hwf) as (stats1 & ml1 & Hstep & Hwf1 & Hlk).
  destruct (IH stats1 ml1 (dedup_event s e).2 Hwf1) as (stats2 & ml2 & Hfold & Hwf2 & Hlk2).
  exists stats2, ml2. cbn [fold_opt]. rewrite Hstep.
  split; [exact Hfold|]. split; [exact Hwf2|].
  intros m. rewrite Hlk2, Hlk. cbn [accepted_from].
  destruct (dedup_event s e) as [dup s']; cbn [fst snd].
  destruct dup; [reflexivity|]. unfold series_fold; cbn [fold_left].
  case_decide; reflexivity.
Qed.

(** [do_gnuplot_stats] never raises, and the list it leaves for a module is
    the fold of the module's accepted events. *)
Lemma do_gnuplot_stats_spec l :
  exists stats ml,
    do_gnuplot_stats l = Some (stats, ml) /\
    stats_wf stats ml /\
    forall m, stats !! m = series_fold m (accepted l) None.
Proof.
  destruct (gnuplot_fold_spec l ∅ [] ∅ stats_wf_empty) as (stats & ml & Hf & Hwf & Hlk).
  exists stats, ml. unfold do_gnuplot_stats. rewrite Hf. split; [reflexivity|].
  split; [exact Hwf|]. intros m. rewrite Hlk, lookup_empty. reflexivity.
Qed.

(** ** Projections of a module's tuple *)

Lemma update_total_use t d st :
  t_total_use (update_stats_tuple t d st) =
  t_total_use t + (if decide (lower st = "out") then 1 else 0).
Proof.
  destruct t as [[[[[[mx mn] md] nu] tu] nd] od].
  unfold update_stats_tuple, count_users_upon_state, get_min_max_users, t_total_use.
  repeat (case_decide || case_match); simplify_eq; lia.
Qed.

Lemma update_nb_users t d st :
  t_nb_users (update_stats_tuple t d st) =
  t_nb_users t + (if decide (lower st = "out") then 1
                  else if decide (lower st = "in") then -1 else 0).
Proof.
  destruct t as [[[[[[mx mn] md] nu] tu] nd] od].
  unfold update_stats_tuple, count_users_upon_state, get_min_max_users, t_nb_users.
  repeat (case_decide || case_match); simplify_eq; lia.
Qed.

Lemma update_nb_days t d st :
  t_nb_days (update_stats_tuple t d st) =
  t_nb_days t + (if decide (d <> t_old_date t /\ lower st = "out") then 1 else 0).
Proof.
  destruct t as [[[[[[mx mn] md] nu] tu] nd] od].
  unfold update_stats_tuple, count_users_upon_state, get_min_max_users, t_nb_days, t_old_date.
  repeat (case_decide || case_match); simplify_eq; try lia; tauto.
Qed.

Lemma update_old_date t d st :
  t_old_date (update_stats_tuple t d st) =
  if decide (d <> t_old_date t /\ lower st = "out") then d else t_old_date t.
Proof.
  destruct t as [[[[[[mx mn] md] nu] tu] nd] od].
  unfold update_stats_tuple, count_users_upon_state, get_min_max_users, t_old_date.
  repeat (case_decide || case_match); simplify_eq; try reflexivity; tauto.
Qed.

(** ** Folds over a stream extended at its end *)

Lemma module_fold_app m l1 l2 o :
  module_fold m (l1 ++ l2) o = module_fold m l2 (module_fold m l1 o).
Proof. unfold module_fold. apply fold_left_app. Qed.

Lemma series_fold_app m l1 l2 o :
  series_fold m (l1 ++ l2) o = series_fold m l2 (series_fold m l1 o).
Proof. unfold series_fold. apply fold_left_app. Qed.

Lemma accepted_snoc l e :
  accepted (l ++ [e]) =
  accepted l ++ (if (dedup_event (dedup_after ∅ l) e).1 then [] else [e]).
Proof.
  unfold accepted. rewrite accepted_from_app. f_equal.
  cbn [accepted_from]. destruct (dedup_event (dedup_after ∅ l) e) as [dup s'].
  destruct dup; reflexivity.
Qed.

Lemma of_module_app m l1 l2 : of_module m (l1 ++ l2) = of_module m l1 ++ of_module m l2.
Proof. unfold of_module. apply filter_app. Qed.

Lemma module_fold_cons m e evs o :
  module_fold m (e :: evs) o =
  module_fold m evs
    (if decide (ev_module e = m)
     then Some (update_stats_tuple (default new_module_stats o) (ev_date e) (ev_state e))
     else o).
Proof. reflexivity. Qed.

Lemma series_fold_cons m e evs o :
  series_fold m (e :: evs) o =
  series_fold m evs
    (if decide (ev_module e = m)
     then Some ((ev_date e, ev_time e, next_use (default [] o) (ev_state e))
                  :: default [] o)
     else o).
Proof. reflexivity. Qed.

Lemma module_fold_other m evs o :
  of_module m evs = [] -> module_fold m evs o = o.
Proof.
  revert o. induction evs as [|e evs IH]; intros o H; [reflexivity|].
  unfold of_module in H. rewrite filter_cons in H.
  rewrite module_fold_cons. case_decide; [discriminate|].
  apply IH, H.
Qed.

Lemma series_fold_other m evs o :
  of_module m evs = [] -> series_fold m evs o = o.
Proof.
  revert o. induction evs as [|e evs IH]; intros o H; [reflexivity|].
  unfold of_module in H. rewrite filter_cons in H.
  rewrite series_fold_cons. case_decide; [discriminate|].
  apply IH, H.
Qed.

Lemma module_fold_is_Some m evs o :
  is_Some (module_fold m evs o) <-> is_Some o \/ of_module m evs <> [].
Proof.
  revert o. induction evs as [|e evs IH]; intros o.
  { cbn. split; [auto | intros [H|H]; [exact H | contradiction]]. }
  rewrite module_fold_cons, IH. unfold of_module. rewrite filter_cons.
  case_decide.
  - split; [intros _; right; discriminate | intros _; left; eauto].
  - reflexivity.
Qed.

(** ** [total_use] *)

Lemma module_fold_total_use m evs o :
  t_total_use (default new_module_stats (module_fold m evs o)) =
  t_total_use (default new_module_stats o)
  + Z.of_nat (length (filter is_out (of_module m evs))).
Proof.
  revert o. induction evs as [|e evs IH]; intros o.
  { cbn. lia. }
  rewrite module_fold_cons, IH. unfold of_module. rewrite filter_cons.
  case_decide; [|reflexivity].
  cbn [from_option id]. rewrite update_total_use, filter_cons.
  unfold is_out at 2. repeat case_decide; try contradiction; cbn [length]; lia.
Qed.

(** C7. For every event stream, cut anywhere into [l1 ++ l2]:
    [do_some_stats] returns on both [l1] and the whole stream; a module has
    a tuple exactly when one of its events passed deduplication; the
    [total_use] of a module equals the number of its CheckOut events that
    passed deduplication; and the [total_use] after the prefix [l1] is at
    most the [total_use] after the whole stream (it never decreases over
    the fold). *)
Theorem total_use_counts_accepted_checkouts (l1 l2 : list event) (m : string) :
  exists stats1 ml1 stats ml,
    do_some_stats l1 = Some (stats1, ml1) /\
    do_some_stats (l1 ++ l2) = Some (stats, ml) /\
    (m ∈ ml <-> of_module m (accepted (l1 ++ l2)) <> []) /\
    t_total_use (tuple_of stats m) =
      Z.of_nat (length (filter is_out (of_module m (accepted (l1 ++ l2))))) /\
    t_total_use (tuple_of stats1 m) <= t_total_use (tuple_of stats m).
Proof.
  destruct (do_some_stats_spec l1) as (stats1 & ml1 & H1 & Hwf1 & Hlk1).
  destruct (do_some_stats_spec (l1 ++ l2)) as (stats & ml & H & Hwf & Hlk).
  exists stats1, ml1, stats, ml. repeat split; try assumption.
  - intros Hin. apply Hwf in Hin. rewrite Hlk in Hin.
    apply module_fold_is_Some in Hin. destruct Hin as [[x Hx]|Hne]; [discriminate|exact Hne].
  - intros Hne. apply Hwf. rewrite Hlk. apply module_fold_is_Some. right. exact Hne.
  - unfold tuple_of. rewrite Hlk, module_fold_total_use. cbn. lia.
  - unfold tuple_of. rewrite Hlk, Hlk1. unfold accepted.
    rewrite accepted_from_app, module_fold_app.
    rewrite (module_fold_total_use m (accepted_from _ l2)). lia.
Qed.

(** ** One more event *)

Lemma do_some_stats_snoc l e :
  exists stats ml stats' ml',
    do_some_stats l = Some (stats, ml) /\
    do_some_stats (l ++ [e]) = Some (stats', ml') /\
    forall m, stats' !! m =
      if (dedup_event (dedup_after ∅ l) e).1 then stats !! m
      else if decide (ev_module e = m)
           then Some (update_stats_tuple (tuple_of stats m) (ev_date e) (ev_state e))
           else stats !! m.
Proof.
  destruct (do_some_stats_spec l) as (stats & ml & H & _ & Hlk).
  destruct (do_some_stats_spec (l ++ [e])) as (stats' & ml' & H' & _ & Hlk').
  exists stats, ml, stats', ml'. split; [exact H|]. split; [exact H'|].
  intros m. rewrite Hlk', accepted_snoc, module_fold_app, <- Hlk.
  destruct (dedup_event (dedup_after ∅ l) e).1; reflexivity.
Qed.

Lemma do_gnuplot_stats_snoc l e :
  exists stats ml stats' ml',
    do_gnuplot_stats l = Some (stats, ml) /\
    do_gnuplot_stats (l ++ [e]) = Some (stats', ml') /\
    forall m, stats' !! m =
      if (dedup_event (dedup_after ∅ l) e).1 then stats !! m
      else if decide (ev_module e = m)
           then Some ((ev_date e, ev_time e, next_use (default [] (stats !! m)) (ev_state e))
                        :: default [] (stats !! m))
           else stats !! m.
Proof.
  destruct (do_gnuplot_stats_spec l) as (stats & ml & H & _ & Hlk).
  destruct (do_gnuplot_stats_spec (l ++ [e])) as (stats' & ml' & H' & _ & Hlk').
  exists stats, ml, stats', ml'. split; [exact H|]. split; [exact H'|].
  intros m. rewrite Hlk', accepted_snoc, series_fold_app, <- Hlk.
  destruct (dedup_event (dedup_after ∅ l) e).1; reflexivity.
Qed.

Lemma next_use_other event_list state :
  lower state <> "out" -> lower state <> "in" ->
  next_use event_list state = last_use event_list.
Proof.
  intros Ho Hi. destruct event_list as [|[[d t] u] rest]; cbn.
  - unfold init_use_upon_state. rewrite decide_False by exact Ho. reflexivity.
  - unfold update_use_value_upon_state.
    rewrite decide_False by exact Ho. rewrite decide_False by exact Hi. reflexivity.
Qed.

(** C10. An event whose state lowercases to neither ['out'] nor ['in'] is
    not dropped by [deduplicate], which leaves the set as it is; appended to
    any stream, it leaves [nb_users], [total_use] and [nb_days] of every
    module as they were in [do_some_stats] (for a module not seen before,
    as in the tuple [get_stats_from_module] creates), while
    [do_gnuplot_stats] prepends to the list of its module a snapshot that
    repeats the concurrency of the newest one ([0] when there is none) and
    leaves the other modules alone. *)
Theorem other_state_event (l : list event) (e : event) :
  ~ is_out e -> ~ is_in e ->
  (forall s, dedup_event s e = (false, s)) /\
  (exists stats ml stats' ml',
     do_some_stats l = Some (stats, ml) /\
     do_some_stats (l ++ [e]) = Some (stats', ml') /\
     forall m,
       t_nb_users (tuple_of stats' m) = t_nb_users (tuple_of stats m) /\
       t_total_use (tuple_of stats' m) = t_total_use (tuple_of stats m) /\
       t_nb_days (tuple_of stats' m) = t_nb_days (tuple_of stats m)) /\
  (exists series ml series' ml',
     do_gnuplot_stats l = Some (series, ml) /\
     do_gnuplot_stats (l ++ [e]) = Some (series', ml') /\
     series' !! ev_module e =
       Some ((ev_date e, ev_time e, last_use (default [] (series !! ev_module e)))
               :: default [] (series !! ev_module e)) /\
     forall m, m <> ev_module e -> series' !! m = series !! m).
Proof.
  intros Ho Hi.
  assert (Hd : forall s, dedup_event s e = (false, s)).
  { intros s. rewrite dedup_event_eq.
    rewrite decide_False by exact Ho. rewrite decide_False by exact Hi. reflexivity. }
  split; [exact Hd|]. split.
  - destruct (do_some_stats_snoc l e) as (stats & ml & stats' & ml' & H & H' & Hlk).
    exists stats, ml, stats', ml'. split; [exact H|]. split; [exact H'|].
    intros m. unfold tuple_of at 1 3 5. rewrite Hlk, Hd. cbn [fst].
    case_decide; [|auto]. cbn [from_option id].
    rewrite update_nb_users, update_total_use, update_nb_days.
    unfold is_out, is_in in Ho, Hi.
    repeat case_decide; try tauto. repeat split; lia.
  - destruct (do_gnuplot_stats_snoc l e) as (series & ml & series' & ml' & H & H' & Hlk).
    exists series, ml, series', ml'. split; [exact H|]. split; [exact H'|]. split.
    + rewrite Hlk, Hd. cbn [fst]. rewrite decide_True by reflexivity.
      rewrite next_use_other by assumption. reflexivity.
    + intros m Hm. rewrite Hlk, Hd. cbn [fst]. rewrite decide_False by congruence.
      reflexivity.
Qed.

(** A [DENIED] record after a checkout. *)
Lemma other_state_event_witness :
  let l := [("2012/7/30", "11:50:22", "OUT", "Origin7", "user", "MACHINE")] in
  let e := ("2012/7/30", "11:51:00", "DENIED", "Origin7", "guest", "MACHINE") in
  exists series ml series' ml',
    do_gnuplot_stats l = Some (series, ml) /\
    do_gnuplot_stats (l ++ [e]) = Some (series', ml') /\
    series' !! ev_module e =
      Some ((ev_date e, ev_time e, last_use (default [] (series !! ev_module e)))
              :: default [] (series !! ev_module e)) /\
    forall m, m <> ev_module e -> series' !! m = series !! m.
Proof.
  intros l e.
  refine (proj2 (proj2 (other_state_event l e _ _))); vm_compute; discriminate.
Defined.

(** C8. For every state string, [init_use_upon_state] returns [1] when the
    state lowercases to ['out'] and [0] otherwise, so never a negative
    value and [0] for a CheckIn; and when an event passes deduplication
    and no earlier event of its module did, [do_gnuplot_stats] leaves for
    the module the single snapshot that carries this value. *)
Theorem first_event_initial_use (state : string) (l : list event) (e : event) :
  init_use_upon_state state = (if decide (lower state = "out") then 1 else 0) /\
  0 <= init_use_upon_state state /\
  (lower state = "in" -> init_use_upon_state state = 0) /\
  (of_module (ev_module e) (accepted l) = [] ->
   (dedup_event (dedup_after ∅ l) e).1 = false ->
   exists series ml,
     do_gnuplot_stats (l ++ [e]) = Some (series, ml) /\
     series !! ev_module e =
       Some [(ev_date e, ev_time e, if decide (is_out e) then 1 else 0)]).
Proof.
  assert (Hinit : forall st, init_use_upon_state st = if decide (lower st = "out") then 1 else 0).
  { intros st. unfold init_use_upon_state. case_decide; reflexivity. }
  split; [apply Hinit|]. split; [rewrite Hinit; case_decide; lia|].
  split.
  { intros Hin. rewrite Hinit. rewrite decide_False; [reflexivity|].
    rewrite Hin. discriminate. }
  intros Hfirst Hacc.
  destruct (do_gnuplot_stats_snoc l e) as (series & ml & series' & ml' & H & H' & Hlk).
  destruct (do_gnuplot_stats_spec l) as (series0 & ml0 & H0 & _ & Hlk0).
  rewrite H in H0. injection H0 as <- <-.
  exists series', ml'. split; [exact H'|].
  rewrite Hlk, Hacc. rewrite decide_True by reflexivity.
  rewrite Hlk0, series_fold_other by exact Hfirst.
  cbn. rewrite Hinit. reflexivity.
Qed.

(** A CheckIn that is the first accepted event of its module: its key is
    the key of the checkout before it. *)
Lemma first_event_initial_use_witness :
  let l := [("2012/7/30", "11:50:22", "OUT", "a", "b", "c:d@e")] in
  let e := ("2012/7/30", "11:51:00", "IN", "a:b@c", "d", "e") in
  exists series ml,
    do_gnuplot_stats (l ++ [e]) = Some (series, ml) /\
    series !! "a:b@c" = Some [("2012/7/30", "11:51:00", 0)].
Proof.
  intros l e.
  refine (proj2 (proj2 (proj2 (first_event_initial_use "IN" l e))) _ _);
    vm_compute; reflexivity.
Defined.

(** ** Open keys *)

Lemma out_not_in e : is_out e -> is_in e -> False.
Proof. unfold is_out, is_in. intros -> H. discriminate. Qed.

Lemma dedup_after_snoc s l e :
  dedup_after s (l ++ [e]) = (dedup_event (dedup_after s l) e).2.
Proof. rewrite dedup_after_app. reflexivity. Qed.

(** The dedup set holds exactly the open keys. *)
Lemma elem_of_dedup_after k l : k ∈ dedup_after ∅ l <-> key_open k l.
Proof.
  unfold key_open. induction l as [|e l IH] using rev_ind.
  { cbn. split; [apply not_elem_of_empty | contradiction]. }
  rewrite dedup_after_snoc, filter_app, dedup_event_eq.
  rewrite filter_cons, filter_nil.
  destruct (decide (touches k e)) as [[Hk Hoi]|Hnt].
  - rewrite last_snoc. subst k. clear IH.
    destruct (decide (is_out e)) as [Ho|Hno].
    + case_decide; cbn [snd]; set_tac.
    + destruct Hoi as [Ho|Hi]; [contradiction|].
      rewrite decide_True by exact Hi.
      case_decide; cbn [snd]; set_tac.
  - rewrite app_nil_r, <- IH. clear IH.
    destruct (decide (dedup_key e = k)) as [Hk|Hk].
    + assert (Hno : ~ is_out e) by (intros H; apply Hnt; split; auto).
      assert (Hni : ~ is_in e) by (intros H; apply Hnt; split; auto).
      rewrite decide_False by exact Hno. rewrite decide_False by exact Hni.
      reflexivity.
    + repeat case_decide; cbn [snd]; set_tac.
Qed.

(** C2. With the key of an event the string [module:user@machine] that
    [deduplicate] stores, and a key open when its latest CheckOut or
    CheckIn record in the stream so far is a CheckOut: a CheckOut whose key
    is open is dropped and leaves the set as it is; a CheckIn whose key is
    open is accepted and closes the key; a CheckIn whose key is not open is
    dropped; so a CheckIn right after a CheckOut of its key is accepted,
    and of a CheckOut replayed twice the second is always dropped, exactly
    one being accepted when the stream starts with them. *)
Theorem deduplicate_open_keys (l : list event) (e e' : event) :
  let s := dedup_after ∅ l in
  (is_out e -> key_open (dedup_key e) l -> dedup_event s e = (true, s)) /\
  (is_in e -> key_open (dedup_key e) l ->
     (dedup_event s e).1 = false /\ ~ key_open (dedup_key e) (l ++ [e])) /\
  (is_in e -> ~ key_open (dedup_key e) l -> dedup_event s e = (true, s)) /\
  (is_out e -> is_in e' -> dedup_key e' = dedup_key e ->
     (dedup_event (dedup_after ∅ (l ++ [e])) e').1 = false) /\
  (is_out e ->
     accepted (l ++ [e; e]) = accepted (l ++ [e]) /\ accepted [e; e] = [e]).
Proof.
  intros s. subst s.
  assert (Hopen : forall l0 e0, is_out e0 -> key_open (dedup_key e0) (l0 ++ [e0])).
  { intros l0 e0 Ho. unfold key_open. rewrite filter_app, filter_cons, filter_nil.
    rewrite decide_True by (split; auto). rewrite last_snoc. exact Ho. }
  assert (Hdrop : forall l0 e0, is_out e0 -> key_open (dedup_key e0) l0 ->
            dedup_event (dedup_after ∅ l0) e0 = (true, dedup_after ∅ l0)).
  { intros l0 e0 Ho Hk. apply elem_of_dedup_after in Hk.
    rewrite dedup_event_eq. rewrite decide_True by exact Ho.
    rewrite decide_True by exact Hk. reflexivity. }
  assert (Hin : forall l0 e0, is_in e0 -> key_open (dedup_key e0) l0 ->
            (dedup_event (dedup_after ∅ l0) e0).1 = false).
  { intros l0 e0 Hi Hk. apply elem_of_dedup_after in Hk.
    rewrite dedup_event_eq.
    rewrite decide_False by (intros Ho; exact (out_not_in _ Ho Hi)).
    rewrite decide_True by exact Hi. rewrite decide_True by exact Hk. reflexivity. }
  split; [apply Hdrop|]. split.
  { intros Hi Hk. split; [apply Hin; assumption|].
    unfold key_open. rewrite filter_app, filter_cons, filter_nil.
    rewrite decide_True by (split; auto). rewrite last_snoc.
    intros Ho. exact (out_not_in _ Ho Hi). }
  split.
  { intros Hi Hk. rewrite <- elem_of_dedup_after in Hk.
    rewrite dedup_event_eq.
    rewrite decide_False by (intros Ho; exact (out_not_in _ Ho Hi)).
    rewrite decide_True by exact Hi. rewrite decide_False by exact Hk. reflexivity. }
  split.
  { intros Ho Hi Hk. apply Hin; [exact Hi|]. rewrite Hk. apply Hopen, Ho. }
  intros Ho. split.
  - change (l ++ [e; e]) with (l ++ [e] ++ [e]). rewrite app_assoc.
    rewrite (accepted_snoc (l ++ [e]) e).
    rewrite (Hdrop (l ++ [e]) e Ho (Hopen l e Ho)). cbn [fst]. apply app_nil_r.
  - change [e; e] with ([e] ++ [e]). rewrite (accepted_snoc [e] e).
    rewrite (Hdrop [e] e Ho (Hopen [] e Ho)). cbn [fst]. rewrite app_nil_r.
    change [e] with ([] ++ [e]) at 1. rewrite accepted_snoc.
    cbn [dedup_after fold_left]. rewrite dedup_event_eq.
    rewrite decide_True by exact Ho.
    rewrite decide_False by apply not_elem_of_empty. reflexivity.
Qed.

Lemma deduplicate_open_keys_witness :
  let out := ("2012/7/30", "11:50:22", "OUT", "Origin7", "user", "MACHINE") in
  let in_ := ("2012/7/30", "12:00:00", "IN", "Origin7", "user", "MACHINE") in
  dedup_event (dedup_after ∅ [out]) out = (true, dedup_after ∅ [out]) /\
  (dedup_event (dedup_after ∅ [out]) in_).1 = false /\
  dedup_event (dedup_after ∅ [out; in_]) in_ = (true, dedup_after ∅ [out; in_]) /\
  accepted [out; out] = [out].
Proof.
  intros out in_.
  split; [|split; [|split]].
  - refine (proj1 (deduplicate_open_keys [out] out out) _ _); vm_compute; reflexivity.
  - refine (proj1 (proj1 (proj2 (deduplicate_open_keys [out] in_ in_)) _ _));
      vm_compute; reflexivity.
  - refine (proj1 (proj2 (proj2 (deduplicate_open_keys [out; in_] in_ in_))) _ _).
    + vm_compute; reflexivity.
    + vm_compute. discriminate.
  - refine (proj2 (proj2 (proj2 (proj2 (proj2 (deduplicate_open_keys [] out out)))) _)).
    vm_compute; reflexivity.
Defined.

(** ** Observations on the result of the folds *)

Lemma stats_field_spec f l m :
  stats_field f l m = Some (f (default new_module_stats (module_fold m (accepted l) None))).
Proof.
  unfold stats_field. destruct (do_some_stats_spec l) as (stats & ml & H & _ & Hlk).
  rewrite H. unfold tuple_of. rewrite Hlk. reflexivity.
Qed.

Lemma series_of_spec l m :
  series_of l m = Some (default [] (series_fold m (accepted l) None)).
Proof.
  unfold series_of. destruct (do_gnuplot_stats_spec l) as (stats & ml & H & _ & Hlk).
  rewrite H, Hlk. reflexivity.
Qed.

(** ** Two records with one key *)

(** C1. On the log [colliding_log] the running count of the module
    [a:b@c] is negative: [read_files] returns [colliding_stream], whose
    CheckIn records are accepted because their key is the key of the
    CheckOut of another module; [nb_users] is [-1] after two events and
    [-2] at the end, and the time series of the module ends at [-1]. *)
Theorem negative_count_on_colliding_keys :
  read_files [colliding_log] = (1, colliding_stream) /\
  accepted colliding_stream = colliding_stream /\
  stats_field t_nb_users (take 2 colliding_stream) "a:b@c" = Some (-1) /\
  stats_field t_nb_users colliding_stream "a:b@c" = Some (-2) /\
  series_of colliding_stream "a:b@c" =
    Some [("2012/7/30", "11:53:00", -1); ("2012/7/30", "11:51:00", 0)].
Proof.
  split; [vm_compute; reflexivity|].
  split; [vm_compute; reflexivity|].
  rewrite !stats_field_spec, series_of_spec.
  repeat split; vm_compute; reflexivity.
Qed.

(** ** Days of use *)

Lemma checkout_dates_app m l1 l2 :
  checkout_dates m (l1 ++ l2) = checkout_dates m l1 ++ checkout_dates m l2.
Proof. unfold checkout_dates. rewrite of_module_app, filter_app, map_app. reflexivity. Qed.

Lemma module_fold_nb_days m evs : forall o,
  t_nb_days (default new_module_stats (module_fold m evs o)) =
  t_nb_days (default new_module_stats o)
  + date_changes (t_old_date (default new_module_stats o)) (checkout_dates m evs).
Proof.
  induction evs as [|e evs IH]; intros o.
  { cbn. lia. }
  rewrite module_fold_cons, IH.
  unfold checkout_dates, of_module. rewrite filter_cons.
  case_decide; [|reflexivity].
  cbn [from_option id]. rewrite update_nb_days, update_old_date, filter_cons.
  unfold is_out at 2.
  destruct (decide (lower (ev_state e) = "out")) as [Ho|Hno].
  - cbn [map date_changes].
    destruct (decide (ev_date e = t_old_date (default new_module_stats o))) as [Hd|Hd].
    + repeat case_decide; try tauto. rewrite <- Hd. lia.
    + repeat case_decide; try tauto. lia.
  - repeat case_decide; try tauto. lia.
Qed.

Lemma date_changes_grouped dates : forall old_date,
  grouped (old_date :: dates) ->
  date_changes old_date dates =
  Z.of_nat (size ((list_to_set dates : gset string) ∖ {[old_date]})).
Proof.
  induction dates as [|d rest IH]; intros old_date Hg.
  { cbn. rewrite difference_disjoint_L by apply disjoint_empty_l.
    rewrite size_empty. reflexivity. }
  destruct Hg as [Hback Hg]. cbn [date_changes]. rewrite (IH d Hg).
  cbn [list_to_set].
  destruct (decide (d = old_date)) as [->|Hne].
  - rewrite decide_False by tauto.
    replace (({[old_date]} ∪ list_to_set rest) ∖ {[old_date]} : gset string)
      with ((list_to_set rest : gset string) ∖ {[old_date]}); [lia|].
    apply set_eq. intros x. set_tac.
  - rewrite decide_True by exact Hne.
    specialize (Hback Hne).
    replace (({[d]} ∪ list_to_set rest) ∖ {[old_date]} : gset string)
      with ({[d]} ∪ ((list_to_set rest : gset string) ∖ {[d]})).
    + assert (Hdisj : ({[d]} : gset string) ## (list_to_set rest : gset string) ∖ {[d]}).
      { apply elem_of_disjoint. intros x. set_tac. }
      rewrite (size_union (C := gset string) _ _ Hdisj), size_singleton. lia.
    + apply set_eq. intros x.
      rewrite !elem_of_union, !elem_of_difference, !elem_of_singleton, elem_of_union.
      rewrite elem_of_singleton, elem_of_list_to_set.
      split.
      * intros [->|[Hx Hxd]].
        -- split; [left; reflexivity|]. congruence.
        -- split; [right; exact Hx|]. intros ->. apply Hback.
           apply elem_of_cons. right. exact Hx.
      * intros [[->|Hx] Hxo]; [left; reflexivity|].
        destruct (decide (x = d)) as [->|Hxd]; [left; reflexivity|].
        right. split; [exact Hx | exact Hxd].
Qed.

Lemma grouped_app_l l1 l2 : grouped (l1 ++ l2) -> grouped l1.
Proof.
  induction l1 as [|d l1 IH]; [intros _; exact I|].
  cbn [app grouped]. intros [Hback Hg]. split; [|apply IH, Hg].
  destruct l1 as [|d' l1]; [exact I|].
  intros Hne Hin. apply (Hback Hne).
  change ((d' :: l1) ++ l2) with ((d' :: l1) ++ l2).
  apply elem_of_app. left. exact Hin.
Qed.

Lemma grouped_sentinel old_date dates :
  grouped dates -> old_date ∉ dates -> grouped (old_date :: dates).
Proof.
  intros Hg Hn. cbn [grouped]. split; [|exact Hg].
  destruct dates; [exact I | intros _; exact Hn].
Qed.

Lemma difference_absent (dates : list string) (old_date : string) :
  old_date ∉ dates ->
  (list_to_set dates : gset string) ∖ {[old_date]} = list_to_set dates.
Proof.
  intros Hn. apply set_eq. intros x.
  rewrite elem_of_difference, elem_of_singleton, elem_of_list_to_set.
  split; [intros [H _]; exact H|]. intros H. split; [exact H|]. congruence.
Qed.

(** C4, amended. For every event stream, cut anywhere into [l1 ++ l2],
    the [nb_days] of a module is the number of times the date of an
    accepted CheckOut of the module differs from the date of the module's
    accepted CheckOut before it, the first one being compared with
    ['XXXXXXX']. When the accepted CheckOuts of the module that carry one
    date stand together and none carries ['XXXXXXX'], this is the number of
    distinct dates with an accepted CheckOut of the module, after the
    prefix [l1] as after the whole stream: the counter goes up once per
    distinct date. *)
Theorem nb_days_counts_date_changes (l1 l2 : list event) (m : string) :
  let dates := checkout_dates m (accepted (l1 ++ l2)) in
  stats_field t_nb_days (l1 ++ l2) m = Some (date_changes "XXXXXXX" dates) /\
  (grouped dates -> "XXXXXXX" ∉ dates ->
   stats_field t_nb_days (l1 ++ l2) m = Some (Z.of_nat (distinct_dates dates)) /\
   stats_field t_nb_days l1 m =
     Some (Z.of_nat (distinct_dates (checkout_dates m (accepted l1))))).
Proof.
  intros dates.
  assert (Hgen : forall l, stats_field t_nb_days l m =
            Some (date_changes "XXXXXXX" (checkout_dates m (accepted l)))).
  { intros l. rewrite stats_field_spec, module_fold_nb_days. reflexivity. }
  assert (Hdist : forall ds, grouped ds -> "XXXXXXX" ∉ ds ->
            date_changes "XXXXXXX" ds = Z.of_nat (distinct_dates ds)).
  { intros ds Hg Hn. rewrite date_changes_grouped by (apply grouped_sentinel; assumption).
    unfold distinct_dates. rewrite difference_absent by exact Hn. reflexivity. }
  split; [apply Hgen|]. intros Hg Hn.
  rewrite !Hgen. fold dates. rewrite (Hdist dates Hg Hn). split; [reflexivity|].
  subst dates. unfold accepted in *.
  rewrite accepted_from_app, checkout_dates_app in Hg, Hn.
  rewrite Hdist; [reflexivity | exact (grouped_app_l _ _ Hg) |].
  intros Hin. apply Hn, elem_of_app. left. exact Hin.
Qed.

(** Two days of one log. *)
Lemma nb_days_counts_date_changes_witness :
  let l1 := [ ("2012/7/30", "11:50:22", "OUT", "Origin7", "alice", "HOST1");
              ("2012/7/30", "12:00:00", "OUT", "Origin7", "bob", "HOST2") ] in
  let l2 := [ ("2012/7/31", "09:00:00", "OUT", "Origin7", "carol", "HOST3") ] in
  stats_field t_nb_days (l1 ++ l2) "Origin7" = Some 2 /\
  stats_field t_nb_days l1 "Origin7" = Some 1.
Proof.
  intros l1 l2.
  refine (proj2 (nb_days_counts_date_changes l1 l2 "Origin7") _ _).
  - by_decision.
  - by_decision.
Defined.

(** C4 as stated fails: the three CheckOuts fall on two distinct dates,
    but [nb_days] is [3]. *)
Lemma nb_days_distinct_dates_counterexample :
  snd (read_files rotated_logs) = rotated_stream /\
  accepted rotated_stream = rotated_stream /\
  stats_field t_nb_days rotated_stream "Origin7" = Some 3 /\
  distinct_dates (checkout_dates "Origin7" (accepted rotated_stream)) = 2%nat.
Proof.
  split; [vm_compute; reflexivity|].
  split; [vm_compute; reflexivity|].
  rewrite stats_field_spec. split; vm_compute; reflexivity.
Qed.

(** ** The time series of a module *)

Lemma balance_cons e evs :
  balance (e :: evs) =
  (if decide (is_out e) then 1 else if decide (is_in e) then -1 else 0) + balance evs.
Proof.
  unfold balance. rewrite !filter_cons.
  destruct (decide (is_out e)) as [Ho|Ho]; destruct (decide (is_in e)) as [Hi|Hi];
    cbn [length]; try lia.
  exfalso. exact (out_not_in _ Ho Hi).
Qed.

Lemma update_use_delta e use :
  update_use_value_upon_state (ev_state e) use =
  use + (if decide (is_out e) then 1 else if decide (is_in e) then -1 else 0).
Proof.
  unfold update_use_value_upon_state, is_out, is_in.
  repeat case_decide; try lia; try contradiction; congruence.
Qed.

Lemma init_use_delta e :
  init_use_upon_state (ev_state e) =
  (if decide (is_out e) then 1 else if decide (is_in e) then -1 else 0)
  + (if decide (is_in e) then 1 else 0).
Proof.
  unfold init_use_upon_state, is_out, is_in.
  destruct (decide (lower (ev_state e) = "out")) as [Ho|Ho].
  - rewrite decide_False; [reflexivity|]. rewrite Ho. discriminate.
  - case_decide; reflexivity.
Qed.

(** From a list that is not empty, the fold adds the balance. *)
Lemma series_fold_use_from m evs : forall r rest,
  last_use (default [] (series_fold m evs (Some (r :: rest)))) =
  last_use (r :: rest) + balance (of_module m evs).
Proof.
  induction evs as [|e evs IH]; intros r rest.
  { cbn. unfold balance. cbn. destruct r as [[? ?] ?]. lia. }
  rewrite series_fold_cons. unfold of_module. rewrite filter_cons.
  case_decide.
  - cbn [from_option id]. rewrite IH, balance_cons.
    destruct r as [[d t] u]. cbn [last_use next_use].
    rewrite update_use_delta. unfold of_module. lia.
  - apply IH.
Qed.

Lemma series_fold_use m evs : forall o,
  default [] o = [] ->
  last_use (default [] (series_fold m evs o)) =
  balance (of_module m evs) + floor_bonus (of_module m evs).
Proof.
  induction evs as [|e evs IH]; intros o Ho.
  { cbn. rewrite Ho. reflexivity. }
  rewrite series_fold_cons. unfold of_module. rewrite filter_cons.
  case_decide.
  - rewrite Ho. rewrite series_fold_use_from, balance_cons.
    cbn [last_use next_use floor_bonus]. rewrite init_use_delta.
    unfold of_module. lia.
  - apply IH, Ho.
Qed.

Lemma series_fold_stamps m evs : forall o,
  row_stamp <$> rev (default [] (series_fold m evs o)) =
  (row_stamp <$> rev (default [] o)) ++ (event_stamp <$> of_module m evs).
Proof.
  induction evs as [|e evs IH]; intros o.
  { cbn. rewrite app_nil_r. reflexivity. }
  rewrite series_fold_cons, IH. unfold of_module. rewrite filter_cons.
  case_decide; [|reflexivity].
  cbn [from_option id rev]. rewrite fmap_app, <- app_assoc. reflexivity.
Qed.

Lemma last_use_rev (event_list : list snapshot) :
  last_use event_list =
  match last (rev event_list) with
  | Some (_, _, use) => use
  | None => 0
  end.
Proof.
  destruct event_list as [|[[d t] u] rest]; [reflexivity|].
  cbn [rev]. rewrite last_snoc. reflexivity.
Qed.

Lemma accepted_from_sublist s l : accepted_from s l `sublist_of` l.
Proof.
  revert s. induction l as [|e l IH]; intros s; cbn [accepted_from].
  - constructor.
  - destruct (dedup_event s e) as [dup s']. destruct dup.
    + apply sublist_cons, IH.
    + apply sublist_skip, IH.
Qed.

(** The data file of a module in the output of [print_gnuplot]. *)
Lemma gnuplot_data_file os_ok data_dir m :
  forall module_list stats first_line directives files,
  gnuplot_data os_ok stats data_dir first_line module_list = Some (directives, files) ->
  m ∈ module_list ->
  exists event_list,
    stats !! m = Some event_list /\
    WriteFile (path_join data_dir (m +:+ ".dat")) (map dat_line (dat_rows event_list))
      ∈ files.
Proof.
  induction module_list as [|m0 rest IH]; intros stats first_line directives files H Hin.
  { apply elem_of_nil in Hin. contradiction. }
  cbn [gnuplot_data] in H.
  destruct (stats !! m0) as [event_list|] eqn:Hm0; [|discriminate].
  destruct (os_ok _); [|discriminate].
  destruct (gnuplot_data os_ok (<[m0 := dat_rows event_list]> stats) data_dir false rest)
    as [[ds fs]|] eqn:Hrest; [|discriminate].
  injection H as <- <-.
  destruct (decide (m = m0)) as [->|Hne].
  - exists event_list. split; [exact Hm0|]. apply elem_of_cons. left. reflexivity.
  - apply elem_of_cons in Hin. destruct Hin as [->|Hin]; [contradiction|].
    destruct (IH _ false ds fs Hrest Hin) as (el & Hel & Hfile).
    rewrite lookup_insert_ne in Hel by congruence.
    exists el. split; [exact Hel|]. apply elem_of_cons. right. exact Hfile.
Qed.

(** When every module has a list and every file can be written, the loop
    over the modules completes. *)
Lemma gnuplot_data_total os_ok data_dir :
  (forall x, os_ok x = true) ->
  forall module_list (stats : gmap string (list snapshot)) first_line,
  (forall m, m ∈ module_list -> is_Some (stats !! m)) ->
  is_Some (gnuplot_data os_ok stats data_dir first_line module_list).
Proof.
  intros Hok.
  induction module_list as [|m0 rest IH]; intros stats first_line Hall;
    cbn [gnuplot_data].
  { eauto. }
  destruct (Hall m0) as [el Hel]; [apply elem_of_cons; left; reflexivity|].
  rewrite Hel, Hok.
  destruct (IH (<[m0 := dat_rows el]> stats) false) as [[ds fs] Hrest].
  { intros m Hm. apply lookup_insert_is_Some'. right. apply Hall, elem_of_cons.
    right. exact Hm. }
  rewrite Hrest. eauto.
Qed.

Lemma StronglySorted_sublist {A : Type} (R : relation A) (l1 l2 : list A) :
  l1 `sublist_of` l2 -> StronglySorted R l2 -> StronglySorted R l1.
Proof.
  induction 1 as [|x l1 l2 Hsub IH|x l1 l2 Hsub IH]; intros Hs.
  - constructor.
  - apply StronglySorted_cons in Hs. destruct Hs as [Hall Hs].
    apply StronglySorted_cons. split; [|apply IH, Hs].
    rewrite Forall_forall in *. intros y Hy. apply Hall.
    eapply elem_of_sublist; eassumption.
  - apply StronglySorted_cons in Hs. apply IH, Hs.
Qed.

Lemma series_fold_is_Some m evs o :
  is_Some (series_fold m evs o) <-> is_Some o \/ of_module m evs <> [].
Proof.
  revert o. induction evs as [|e evs IH]; intros o.
  { cbn. split; [auto | intros [H|H]; [exact H | contradiction]]. }
  rewrite series_fold_cons, IH. unfold of_module. rewrite filter_cons.
  case_decide.
  - split; [intros _; right; discriminate | intros _; left; eauto].
  - reflexivity.
Qed.

(** The part of the time series that does not depend on the keys. For
    every event stream and module: the module is listed exactly when one of
    its events passed deduplication; the (date, time) stamps of the rows
    are those of the module's accepted events, in the order of the input
    stream, of which these events are a subsequence, so that the rows are
    sorted by any order on the stamps by which the input is sorted; and the
    concurrency of the final row is the number of accepted CheckOuts minus
    the number of accepted CheckIns of the module, plus one when the first
    accepted event of the module is a CheckIn, which [init_use_upon_state]
    counts as [0]. *)
Lemma time_series_order (l : list event) (m : string) :
  exists series ml,
    do_gnuplot_stats l = Some (series, ml) /\
    (m ∈ ml <-> of_module m (accepted l) <> []) /\
    let rows := dat_rows (default [] (series !! m)) in
    row_stamp <$> rows = event_stamp <$> of_module m (accepted l) /\
    of_module m (accepted l) `sublist_of` l /\
    (forall R : relation (string * string),
       StronglySorted R (event_stamp <$> l) -> StronglySorted R (row_stamp <$> rows)) /\
    match last rows with
    | Some (_, _, use) =>
        use = balance (of_module m (accepted l)) + floor_bonus (of_module m (accepted l))
    | None => of_module m (accepted l) = []
    end.
Proof.
  destruct (do_gnuplot_stats_spec l) as (series & ml & H & Hwf & Hlk).
  exists series, ml. split; [exact H|].
  assert (Hstamps : row_stamp <$> dat_rows (default [] (series !! m)) =
                    event_stamp <$> of_module m (accepted l)).
  { unfold dat_rows. rewrite Hlk, series_fold_stamps. reflexivity. }
  assert (Hsub : of_module m (accepted l) `sublist_of` l).
  { unfold of_module. etransitivity; [apply sublist_filter | apply accepted_from_sublist]. }
  split; [|split; [exact Hstamps|split; [exact Hsub|split]]].
  - rewrite (Hwf m), Hlk, series_fold_is_Some. split.
    + intros [[x Hx]|Hne]; [discriminate | exact Hne].
    + intros Hne. right. exact Hne.
  - intros R Hsorted. rewrite Hstamps.
    eapply StronglySorted_sublist; [|exact Hsorted]. apply fmap_sublist, Hsub.
  - pose proof (last_use_rev (default [] (series !! m))) as Hlast.
    unfold dat_rows in *.
    destruct (last (rev (default [] (series !! m)))) as [[[d t] use]|] eqn:Hl.
    + rewrite <- Hlast, Hlk. apply series_fold_use. reflexivity.
    + apply last_None in Hl. rewrite Hl in Hstamps.
      symmetry in Hstamps. apply fmap_nil_inv in Hstamps. exact Hstamps.
Qed.

(** When [output_gnuplot] completes, the data file of every listed module
    has been written from the rows [dat_rows] of the module. *)
Lemma output_gnuplot_data_file os_ok report_name nb_days l data_dir effects m :
  output_gnuplot os_ok report_name nb_days l data_dir = Some effects ->
  of_module m (accepted l) <> [] ->
  exists series ml event_list,
    do_gnuplot_stats l = Some (series, ml) /\
    series !! m = Some event_list /\
    WriteFile (path_join data_dir (m +:+ ".dat")) (map dat_line (dat_rows event_list))
      ∈ effects.
Proof.
  unfold output_gnuplot, print_gnuplot. intros H Hne.
  destruct (do_gnuplot_stats_spec l) as (series & ml & Hs & Hwf & Hlk).
  rewrite Hs in H.
  destruct (gnuplot_data os_ok series data_dir true ml) as [[ds fs]|] eqn:Hdata;
    [|discriminate].
  destruct (os_ok _); [|discriminate]. injection H as <-.
  assert (Hin : m ∈ ml).
  { apply Hwf. rewrite Hlk. apply series_fold_is_Some. right. exact Hne. }
  destruct (gnuplot_data_file os_ok data_dir m ml series true ds fs Hdata Hin)
    as (el & Hel & Hfile).
  exists series, ml, el. split; [exact Hs|]. split; [exact Hel|].
  apply elem_of_app. left. exact Hfile.
Qed.

(** C6. On the log [colliding_log] the final row of the time series of the
    module [a:b@c] does not carry the accepted CheckOuts minus the accepted
    CheckIns of the module. After the first two records the module has no
    accepted CheckOut and one accepted CheckIn, and its only row carries
    [0], not [-1]; after all four records it has two accepted CheckIns and
    its final row carries [-1], not [-2], and so does the last line of its
    data file. The CheckIns are accepted because their key is the key of
    the CheckOuts of the module [a]. *)
Theorem final_use_on_colliding_keys :
  read_files [colliding_log] = (1, colliding_stream) /\
  (let l := take 2 colliding_stream in
   of_module "a:b@c" (accepted l) =
     [("2012/7/30", "11:51:00", "IN", "a:b@c", "d", "e")] /\
   option_map dat_rows (series_of l "a:b@c") = Some [("2012/7/30", "11:51:00", 0)] /\
   balance (of_module "a:b@c" (accepted l)) = -1) /\
  (let l := colliding_stream in
   option_map dat_rows (series_of l "a:b@c") =
     Some [("2012/7/30", "11:51:00", 0); ("2012/7/30", "11:53:00", -1)] /\
   balance (of_module "a:b@c" (accepted l)) = -2 /\
   exists effects,
     output_gnuplot (fun _ => true) "Licenses" 1 l "Licenses_report/data" = Some effects /\
     WriteFile "Licenses_report/data/a:b@c.dat"
               ["2012/7/30 11:51:00 0" +:+ nl; "2012/7/30 11:53:00 -1" +:+ nl]
       ∈ effects).
Proof.
  split; [vm_compute; reflexivity|]. split.
  - intros l. split; [vm_compute; reflexivity|].
    rewrite series_of_spec. split; vm_compute; reflexivity.
  - intros l. rewrite series_of_spec. split; [vm_compute; reflexivity|].
    split; [vm_compute; reflexivity|].
    eexists. split; [vm_compute; reflexivity|].
    apply elem_of_cons; right; apply elem_of_cons; left; reflexivity.
Qed.

(** ** The date tracker of [read_files] *)

Lemma read_lines_app st l1 l2 :
  read_lines st (l1 ++ l2) = read_lines (read_lines st l1) l2.
Proof. unfold read_lines. apply fold_left_app. Qed.

Lemma read_files_state_snoc files a_file :
  read_files_state (files ++ [a_file]) = read_file (read_files_state files) a_file.
Proof. unfold read_files_state. rewrite fold_left_app. reflexivity. Qed.

Lemma read_line_result_list st line :
  exists tail, r_result_list (read_line st line) = r_result_list st ++ tail.
Proof.
  unfold read_line.
  destruct (r_date_matched st); [|destruct (Regex.re_start line) as [[[g1 g2] g3]|]];
    (destruct (Regex.re_event line) as [[[[[t s] m] u] c]|];
     [eexists; reflexivity|];
     destruct (Regex.re_timestamp line) as [[[h1 h2] h3]|];
     [case_decide|]; exists []; cbn; rewrite app_nil_r; reflexivity).
Qed.

Lemma read_lines_result_list lines : forall st,
  exists tail, r_result_list (read_lines st lines) = r_result_list st ++ tail.
Proof.
  induction lines as [|line lines IH]; intros st.
  { exists []. cbn. rewrite app_nil_r. reflexivity. }
  cbn [read_lines fold_left]. fold (read_lines (read_line st line) lines).
  destruct (IH (read_line st line)) as [t2 H2].
  destruct (read_line_result_list st line) as [t1 H1].
  exists (t1 ++ t2). rewrite H2, H1, app_assoc. reflexivity.
Qed.

(** C5, amended. On a line that matches the TIMESTAMP pattern and not the
    event pattern, [read_files] sets the current date to the date of the
    line; it increments [nb_days] and sets [old_date] to that date if and
    only if the date differs from [old_date], the date of the last
    TIMESTAMP line counted in the file being read; otherwise [nb_days] and
    [old_date] are unchanged. The list of events is unchanged either way. *)
Theorem timestamp_line_compares_with_old_date (st : reader) (line g1 g2 g3 : string) :
  Regex.re_event line = None ->
  Regex.re_timestamp line = Some (g1, g2, g3) ->
  let st' := read_line st line in
  let date := format_date g3 g1 g2 in
  r_date st' = date /\
  r_result_list st' = r_result_list st /\
  (date <> r_old_date st ->
     r_nb_days st' = r_nb_days st + 1 /\ r_old_date st' = date) /\
  (date = r_old_date st ->
     r_nb_days st' = r_nb_days st /\ r_old_date st' = r_old_date st).
Proof.
  intros He Ht. unfold read_line. rewrite He, Ht.
  destruct (r_date_matched st); [|destruct (Regex.re_start line) as [[[h1 h2] h3]|]];
    cbn; case_decide; cbn; repeat split; intros; try reflexivity; congruence.
Qed.

Lemma timestamp_line_compares_with_old_date_witness :
  let st := read_file reader_init [line_start] in
  let st' := read_line st "20:52:29 (lmgrd) TIMESTAMP 7/31/2012" in
  r_date st' = "2012/7/31" /\
  r_result_list st' = r_result_list st /\
  (format_date "2012" "7" "31" <> r_old_date st ->
     r_nb_days st' = r_nb_days st + 1 /\ r_old_date st' = "2012/7/31") /\
  (format_date "2012" "7" "31" = r_old_date st ->
     r_nb_days st' = r_nb_days st /\ r_old_date st' = r_old_date st).
Proof.
  intros st st'.
  refine (timestamp_line_compares_with_old_date st
            "20:52:29 (lmgrd) TIMESTAMP 7/31/2012" "7" "31" "2012" _ _);
    vm_compute; reflexivity.
Defined.

(** C5 as stated fails in both directions. After the start line of a log
    dated 7/30/2012 the current date is [2012/7/30]; a TIMESTAMP line of
    the same date still increments [nb_days], as [old_date] is empty. And a
    TIMESTAMP line whose date differs from the current date but equals
    [old_date] does not increment it. *)
Lemma timestamp_current_date_counterexample :
  (let st := read_file reader_init [line_start] in
   let line := "20:52:29 (lmgrd) TIMESTAMP 7/30/2012" in
   Regex.re_event line = None /\
   Regex.re_timestamp line = Some ("7", "30", "2012") /\
   r_date st = format_date "2012" "7" "30" /\
   r_nb_days st = 0 /\
   r_nb_days (read_line st line) = 1) /\
  (let line := "20:52:29 (lmgrd) TIMESTAMP 1/23/2012" in
   let st := read_file reader_init [line; line_start] in
   Regex.re_event line = None /\
   Regex.re_timestamp line = Some ("1", "23", "2012") /\
   r_date st = "2012/7/30" /\
   r_nb_days st = 1 /\
   r_nb_days (read_line st line) = 1 /\
   r_date (read_line st line) = "2012/1/23").
Proof. vm_compute. repeat split; reflexivity. Qed.

(** Lines that set no date leave the date tracker alone: the events among
    them are recorded with the date of the tracker. *)
Lemma read_lines_undated date old_date matched : forall lines nb events,
  Forall (fun line => timestamp_date line = None) lines ->
  matched = true \/ Forall (fun line => Regex.re_start line = None) lines ->
  read_lines (Reader nb events matched date old_date) lines =
  Reader nb (events ++ (dated date <$> omap Regex.re_event lines)) matched date old_date.
Proof.
  induction lines as [|line lines IH]; intros nb events Hts Hstart.
  { cbn. rewrite app_nil_r. reflexivity. }
  apply Forall_cons in Hts. destruct Hts as [Hline Hts].
  assert (Hstart' : matched = true \/
                    Forall (fun line => Regex.re_start line = None) lines).
  { destruct Hstart as [Hm|Hs]; [left; exact Hm|right].
    apply Forall_cons in Hs. apply Hs. }
  assert (Hst1 : (if matched then Reader nb events matched date old_date
                  else match Regex.re_start line with
                       | Some (g1, g2, g3) =>
                           Reader nb events true (format_date g3 g1 g2) old_date
                       | None => Reader nb events matched date old_date
                       end) = Reader nb events matched date old_date).
  { destruct Hstart as [->|Hs]; [reflexivity|].
    apply Forall_cons in Hs. destruct Hs as [-> _]. destruct matched; reflexivity. }
  change (read_lines ?st (line :: lines)) with (read_lines (read_line st line) lines).
  unfold read_line. cbn [r_date_matched r_nb_days r_result_list r_date r_old_date].
  rewrite Hst1. cbn [r_date_matched r_nb_days r_result_list r_date r_old_date].
  unfold timestamp_date in Hline. cbn [omap list_omap].
  destruct (Regex.re_event line) as [[[[[time state] module] user] machine]|].
  - rewrite IH by assumption. cbn [fmap list_fmap dated].
    rewrite <- app_assoc. reflexivity.
  - destruct (Regex.re_timestamp line) as [[[g1 g2] g3]|]; [discriminate|].
    apply IH; assumption.
Qed.

(** C3, amended. Whenever [read_files] opens a further file, the current
    date is reset to ['??/??/????'] and [old_date] to the empty string,
    while [nb_days], the list of events and [date_matched] are carried
    over. Up to the first line of the file that sets a date (a TIMESTAMP
    line, or the first start line matched in the run), every event line is
    recorded with the date ['??/??/????'], whatever date the earlier files
    resolved, and the day counter does not move. *)
Theorem later_file_starts_with_unknown_date (files : list (list string))
    (head rest : list string) :
  Forall (fun line => timestamp_date line = None) head ->
  r_date_matched (read_files_state files) = true \/
    Forall (fun line => Regex.re_start line = None) head ->
  let st := read_files_state files in
  let undated := dated unknown_date <$> omap Regex.re_event head in
  (forall a_file,
     read_files_state (files ++ [a_file]) =
     read_lines
       (Reader (r_nb_days st) (r_result_list st) (r_date_matched st)
               unknown_date EmptyString)
       a_file) /\
  read_files_state (files ++ [head]) =
    Reader (r_nb_days st) (r_result_list st ++ undated) (r_date_matched st)
           unknown_date EmptyString /\
  read_files_state (files ++ [head ++ rest]) =
    read_lines (read_files_state (files ++ [head])) rest /\
  exists tail,
    snd (read_files (files ++ [head ++ rest])) = snd (read_files files) ++ undated ++ tail.
Proof.
  intros Hts Hstart st undated.
  assert (Hhead : read_files_state (files ++ [head]) =
                  Reader (r_nb_days st) (r_result_list st ++ undated) (r_date_matched st)
                         unknown_date EmptyString).
  { rewrite read_files_state_snoc. unfold read_file. fold st.
    apply read_lines_undated; assumption. }
  assert (Hrest : read_files_state (files ++ [head ++ rest]) =
                  read_lines (read_files_state (files ++ [head])) rest).
  { rewrite !read_files_state_snoc. unfold read_file. apply read_lines_app. }
  split; [intros a_file; apply read_files_state_snoc|].
  split; [exact Hhead|]. split; [exact Hrest|].
  unfold read_files; cbn [snd]. rewrite Hrest, Hhead. fold st.
  destruct (read_lines_result_list rest
              (Reader (r_nb_days st) (r_result_list st ++ undated) (r_date_matched st)
                      unknown_date EmptyString)) as [tail Htail].
  exists tail. rewrite Htail. cbn [r_result_list]. rewrite <- app_assoc. reflexivity.
Qed.

Lemma later_file_starts_with_unknown_date_witness :
  exists tail,
    snd (read_files ([[line_start; line_ts; line_out]]
                       ++ [[line_banner; line_out; line_start; line_out]
                             ++ [line_ts; line_out]])) =
    snd (read_files [[line_start; line_ts; line_out]])
    ++ [ ("??/??/????", "11:50:22", "OUT", "Origin7", "user", "MACHINE-NAME");
         ("??/??/????", "11:50:22", "OUT", "Origin7", "user", "MACHINE-NAME") ]
    ++ tail.
Proof.
  refine (proj2 (proj2 (proj2
            (later_file_starts_with_unknown_date [[line_start; line_ts; line_out]]
               [line_banner; line_out; line_start; line_out] [line_ts; line_out] _ _)))).
  - repeat constructor.
  - left. vm_compute; reflexivity.
Defined.

(** C3 as stated fails: the first file ends with the current date
    [2012/1/23], and the event line of the second file is recorded with
    ['??/??/????'], also when it is not the first line of its file. The
    TIMESTAMP line of the second file then counts a day again, although its
    date is the date of the last TIMESTAMP line of the first file. *)
Lemma date_carried_over_counterexample :
  r_date (read_files_state [[line_start; line_ts]]) = "2012/1/23" /\
  read_files [[line_start; line_ts]; [line_out]] =
    (1, [("??/??/????", "11:50:22", "OUT", "Origin7", "user", "MACHINE-NAME")]) /\
  read_files [[line_start; line_ts]; [line_banner; line_out; line_ts; line_out]] =
    (2, [("??/??/????", "11:50:22", "OUT", "Origin7", "user", "MACHINE-NAME");
         ("2012/1/23", "11:50:22", "OUT", "Origin7", "user", "MACHINE-NAME")]).
Proof. vm_compute. repeat split; reflexivity. Qed.

(** ** [main] *)

Lemma perform_ok os_ok steps : (forall x, os_ok x = true) -> perform os_ok steps = Some steps.
Proof.
  intros Hok. unfold perform.
  replace (forallb os_ok steps) with true; [reflexivity|].
  symmetry. apply forallb_forall. intros x _. apply Hok.
Qed.

Lemma perform_inv os_ok steps done : perform os_ok steps = Some done -> done = steps.
Proof. unfold perform. destruct (forallb os_ok steps); congruence. Qed.

(** When every file can be written, [output_gnuplot] completes: no
    dictionary access of [print_gnuplot] raises [KeyError]. *)
Lemma output_gnuplot_total os_ok report_name nb_days l data_dir :
  (forall x, os_ok x = true) ->
  is_Some (output_gnuplot os_ok report_name nb_days l data_dir).
Proof.
  intros Hok. unfold output_gnuplot, print_gnuplot.
  destruct (do_gnuplot_stats_spec l) as (stats & ml & H & Hwf & _). rewrite H.
  destruct (gnuplot_data_total os_ok data_dir Hok ml stats true) as [[ds fs] Hdata].
  { intros m Hm. apply Hwf, Hm. }
  rewrite Hdata, Hok. eauto.
Qed.

(** C9. When [read_files] returns at most one event, [main] returns
    without any output; and so it does in gnuplot mode when the day counter
    of [read_files] is [0]. Neither case raises. *)
Theorem main_silent_on_degenerate_input (os_ok : effect -> bool) (my_opts : Options) :
  ((length (snd (read_files (files my_opts))) <= 1)%nat ->
     main os_ok my_opts = Some []) /\
  (out my_opts = "gnuplot" -> fst (read_files (files my_opts)) = 0 ->
     main os_ok my_opts = Some []).
Proof.
  unfold main. destruct (read_files (files my_opts)) as [nb_days result_list].
  cbn [fst snd]. split.
  - intros Hlen. destruct (Nat.ltb_spec 1 (length result_list)); [lia|reflexivity].
  - intros Hout Hdays. destruct (1 <? length result_list)%nat; [|reflexivity].
    rewrite decide_False by (rewrite Hout; discriminate).
    rewrite decide_False by lia. reflexivity.
Qed.

Lemma main_silent_on_degenerate_input_witness :
  main (fun _ => false)
       (get_command_line_arguments false true "Licenses" [[line_start; line_out]])
    = Some [] /\
  main (fun _ => false)
       (get_command_line_arguments true false "Licenses"
          [[line_start; line_out; line_out]])
    = Some [].
Proof.
  split.
  - refine (proj1 (main_silent_on_degenerate_input _ _) _). vm_compute. lia.
  - refine (proj2 (main_silent_on_degenerate_input _ _) _ _); vm_compute; reflexivity.
Defined.

(** ** Streams without colliding keys *)

Lemma dedup_after_keys k l : k ∈ dedup_after ∅ l -> exists e, e ∈ l /\ dedup_key e = k.
Proof.
  rewrite elem_of_dedup_after. unfold key_open.
  destruct (last (filter (touches k) l)) as [e|] eqn:Hl; [|contradiction].
  intros _. apply last_Some_elem_of in Hl. apply list_elem_of_filter in Hl.
  destruct Hl as [[Hk _] Hin]. eauto.
Qed.

Lemma elem_of_module_keys k m l :
  k ∈ (list_to_set (dedup_key <$> of_module m l) : gset string) <->
  exists e, e ∈ l /\ dedup_key e = k /\ ev_module e = m.
Proof.
  rewrite elem_of_list_to_set, list_elem_of_fmap. unfold of_module. split.
  - intros (e & -> & He). apply list_elem_of_filter in He. destruct He as [Hm Hin]. eauto.
  - intros (e & Hin & <- & Hm). exists e. split; [reflexivity|].
    apply list_elem_of_filter. auto.
Qed.

Lemma collision_free_app_l l1 l2 : collision_free (l1 ++ l2) -> collision_free l1.
Proof.
  intros H e1 e2 H1 H2. apply H; apply elem_of_app; left; assumption.
Qed.

Lemma balance_app l1 l2 : balance (l1 ++ l2) = balance l1 + balance l2.
Proof. unfold balance. rewrite !filter_app, !length_app. lia. Qed.

Lemma size_add_fresh (k : string) (X : gset string) :
  k ∉ X -> Z.of_nat (size (X ∪ {[k]})) = Z.of_nat (size X) + 1.
Proof.
  intros Hk.
  assert (Hd : X ## ({[k]} : gset string)).
  { apply elem_of_disjoint. intros x Hx Hx'. apply elem_of_singleton in Hx'. congruence. }
  rewrite (size_union (C := gset string) _ _ Hd), size_singleton. lia.
Qed.

Lemma size_remove_present (k : string) (X : gset string) :
  k ∈ X -> Z.of_nat (size (X ∖ {[k]})) = Z.of_nat (size X) - 1.
Proof.
  intros Hk.
  assert (HX : X = (X ∖ {[k]}) ∪ {[k]}).
  { apply set_eq. intros x. destruct (decide (x = k)) as [->|Hne]; set_tac. }
  rewrite HX at 2. rewrite size_add_fresh; [lia|]. set_tac.
Qed.

Lemma of_module_single m e : ev_module e = m -> of_module m [e] = [e].
Proof.
  intros H. unfold of_module. rewrite filter_cons, filter_nil.
  rewrite decide_True by exact H. reflexivity.
Qed.

Lemma of_module_single_other m e : ev_module e <> m -> of_module m [e] = [].
Proof.
  intros H. unfold of_module. rewrite filter_cons, filter_nil.
  rewrite decide_False by exact H. reflexivity.
Qed.

(** Without colliding keys the balance of a module's accepted events is
    the number of its open keys. *)
Lemma balance_open_keys m l :
  collision_free l ->
  balance (of_module m (accepted l)) = Z.of_nat (size (open_keys m l)).
Proof.
  induction l as [|e l IH] using rev_ind; intros Hcf.
  { reflexivity. }
  specialize (IH (collision_free_app_l _ _ Hcf)).
  assert (Hmine : ev_module e = m -> dedup_key e ∈ dedup_after ∅ l ->
            dedup_key e ∈ (list_to_set (dedup_key <$> of_module m l) : gset string)).
  { intros Hm Hk. apply dedup_after_keys in Hk. destruct Hk as (e0 & Hin0 & Hk0).
    apply elem_of_module_keys. exists e0. split; [exact Hin0|]. split; [exact Hk0|].
    rewrite <- Hm. apply Hcf; [| |exact Hk0].
    - apply elem_of_app. left. exact Hin0.
    - apply elem_of_app. right. apply list_elem_of_singleton. reflexivity. }
  assert (Hother : ev_module e <> m ->
            dedup_key e ∉ (list_to_set (dedup_key <$> of_module m l) : gset string)).
  { intros Hm Hk. apply elem_of_module_keys in Hk. destruct Hk as (e0 & Hin0 & Hk0 & Hm0).
    apply Hm. rewrite <- Hm0. symmetry. apply Hcf; [| |exact Hk0].
    - apply elem_of_app. left. exact Hin0.
    - apply elem_of_app. right. apply list_elem_of_singleton. reflexivity. }
  unfold open_keys in *.
  rewrite accepted_snoc, !of_module_app, balance_app, IH, dedup_after_snoc.
  rewrite fmap_app, list_to_set_app_L, dedup_event_eq.
  set (S := dedup_after ∅ l) in *.
  set (K := (list_to_set (dedup_key <$> of_module m l) : gset string)) in *.
  set (k := dedup_key e) in *.
  assert (Hnil : balance (of_module m []) = 0) by reflexivity.
  destruct (decide (ev_module e = m)) as [Hm|Hm].
  - rewrite (of_module_single m e Hm).
    cbn [fmap list_fmap list_to_set]. fold k.
    rewrite union_empty_r_L.
    assert (Hone : balance (of_module m [e]) =
              if decide (is_out e) then 1 else if decide (is_in e) then -1 else 0).
    { rewrite (of_module_single m e Hm), balance_cons. unfold balance; cbn. lia. }
    specialize (Hmine Hm). clear Hother.
    destruct (decide (is_out e)) as [Ho|Ho].
    + destruct (decide (k ∈ S)) as [Hk|Hk]; cbn [fst snd].
      * rewrite Hnil. specialize (Hmine Hk).
        replace (S ∩ (K ∪ {[k]})) with (S ∩ K); [lia|].
        apply set_eq. intros x. rewrite !elem_of_intersection. set_tac.
      * rewrite Hone.
        replace ((S ∪ {[k]}) ∩ (K ∪ {[k]})) with ((S ∩ K) ∪ {[k]}).
        -- rewrite size_add_fresh; [lia|]. rewrite elem_of_intersection. tauto.
        -- apply set_eq. intros x.
           rewrite !elem_of_intersection, elem_of_union, elem_of_intersection. set_tac.
    + destruct (decide (is_in e)) as [Hi|Hi].
      * destruct (decide (k ∈ S)) as [Hk|Hk]; cbn [fst snd].
        -- rewrite Hone. specialize (Hmine Hk).
           replace ((S ∖ {[k]}) ∩ (K ∪ {[k]})) with ((S ∩ K) ∖ {[k]}).
           ++ rewrite size_remove_present; [lia|]. rewrite elem_of_intersection. auto.
           ++ apply set_eq. intros x.
              rewrite !elem_of_intersection, elem_of_difference, elem_of_intersection.
              set_tac.
        -- rewrite Hnil.
           replace (S ∩ (K ∪ {[k]})) with (S ∩ K); [lia|].
           apply set_eq. intros x. rewrite !elem_of_intersection. set_tac.
      * cbn [fst snd]. rewrite Hone.
        replace (S ∩ (K ∪ {[k]})) with (S ∩ K); [lia|].
        apply set_eq. intros x.
        rewrite !elem_of_intersection, elem_of_union, elem_of_singleton.
        split; [tauto|]. intros [Hx [Hx'| ->]]; auto.
  - rewrite (of_module_single_other m e Hm).
    cbn [fmap list_fmap list_to_set]. specialize (Hother Hm). fold k in Hother.
    clear Hmine.
    rewrite union_empty_r_L.
    replace (balance (of_module m _)) with 0.
    2:{ match goal with |- context [if ?b then _ else _] => destruct b end;
          [reflexivity|]. rewrite (of_module_single_other m e Hm). reflexivity. }
    rewrite Z.add_0_r. f_equal. f_equal.
    apply set_eq. intros x.
    repeat case_decide; cbn [snd]; rewrite !elem_of_intersection; set_tac.
Qed.

Lemma module_fold_nb_users m evs : forall o,
  t_nb_users (default new_module_stats (module_fold m evs o)) =
  t_nb_users (default new_module_stats o) + balance (of_module m evs).
Proof.
  induction evs as [|e evs IH]; intros o.
  { unfold balance. cbn. lia. }
  rewrite module_fold_cons, IH. unfold of_module. rewrite filter_cons.
  case_decide; [|reflexivity].
  cbn [from_option id]. rewrite update_nb_users, balance_cons.
  unfold is_out, is_in. repeat case_decide; try lia; try contradiction; congruence.
Qed.

Lemma floor_bonus_app l1 l2 :
  l1 <> [] -> floor_bonus (l1 ++ l2) = floor_bonus l1.
Proof. destruct l1; [contradiction | reflexivity]. Qed.

(** Without colliding keys the first accepted event of a module is never a
    CheckIn. *)
Lemma floor_bonus_collision_free m l :
  collision_free l -> floor_bonus (of_module m (accepted l)) = 0.
Proof.
  induction l as [|e l IH] using rev_ind; intros Hcf; [reflexivity|].
  pose proof (balance_open_keys m (l ++ [e]) Hcf) as Hbal.
  pose proof (balance_open_keys m l (collision_free_app_l _ _ Hcf)) as Hbal0.
  specialize (IH (collision_free_app_l _ _ Hcf)).
  rewrite accepted_snoc, of_module_app in *.
  destruct (of_module m (accepted l)) as [|e0 rest] eqn:Hacc.
  - rewrite app_nil_l in *.
    destruct (dedup_event (dedup_after ∅ l) e).1; [reflexivity|].
    destruct (decide (ev_module e = m)) as [Hm|Hm].
    + rewrite (of_module_single m e Hm) in *. cbn [floor_bonus].
      case_decide; [|reflexivity].
      rewrite balance_cons in Hbal.
      rewrite decide_False in Hbal by (intros Ho; eapply out_not_in; eauto).
      rewrite decide_True in Hbal by assumption.
      unfold balance in Hbal; cbn in Hbal. lia.
    + rewrite (of_module_single_other m e Hm). reflexivity.
  - rewrite floor_bonus_app by discriminate. exact IH.
Qed.

(** X15. On a stream without colliding keys the running counts of a module are
    never negative: after every prefix, [nb_users] in [do_some_stats] and
    the newest [use] in [do_gnuplot_stats] are both the number of open keys
    of the module, which is also the number of its accepted CheckOuts minus
    the number of its accepted CheckIns. *)
Lemma counts_nonnegative_without_collisions (l1 l2 : list event) (m : string) :
  collision_free (l1 ++ l2) ->
  exists series,
    stats_field t_nb_users l1 m = Some (Z.of_nat (size (open_keys m l1))) /\
    series_of l1 m = Some series /\
    last_use series = Z.of_nat (size (open_keys m l1)) /\
    last_use series = balance (of_module m (accepted l1)).
Proof.
  intros Hcf. apply collision_free_app_l in Hcf.
  pose proof (balance_open_keys m l1 Hcf) as Hbal.
  pose proof (floor_bonus_collision_free m l1 Hcf) as Hfloor.
  eexists. split; [|split; [apply series_of_spec|]].
  - rewrite stats_field_spec, module_fold_nb_users, Hbal. reflexivity.
  - rewrite series_fold_use by reflexivity. rewrite Hfloor, Hbal. split; lia.
Qed.

(** * Further properties *)

(** ** What the regular expressions match *)

Lemma append_assoc_s (a b c : string) : (a +:+ b) +:+ c = a +:+ b +:+ c.
Proof.
  induction a as [|x a IH]; [reflexivity|].
  change (String x ((a +:+ b) +:+ c) = String x (a +:+ b +:+ c)).
  rewrite IH. reflexivity.
Qed.

Lemma many_inv {A : Type} (p : ascii -> bool) : forall s (k : string -> string -> option A) x,
  Regex.many p s k = Some x ->
  exists m r, s = m +:+ r /\ all_chars p m = true /\ k m r = Some x.
Proof.
  induction s as [|c s IH]; intros k x H; cbn in H.
  { exists EmptyString, EmptyString. auto. }
  destruct (p c) eqn:Hc.
  - destruct (Regex.many p s (fun m r => k (String c m) r)) as [y|] eqn:E.
    + injection H as ->. apply IH in E. destruct E as (m & r & -> & Hm & Hk).
      exists (String c m), r. cbn. rewrite Hc, Hm. auto.
    + exists EmptyString, (String c s). auto.
  - exists EmptyString, (String c s). auto.
Qed.

Lemma many1_inv {A : Type} (p : ascii -> bool) s (k : string -> string -> option A) x :
  Regex.many1 p s k = Some x ->
  exists m r, s = m +:+ r /\ in_class p m /\ k m r = Some x.
Proof.
  unfold Regex.many1. destruct s as [|c s]; [discriminate|].
  destruct (p c) eqn:Hc; [|discriminate]. intros H.
  apply many_inv in H. destruct H as (m & r & -> & Hm & Hk).
  exists (String c m), r. split; [reflexivity|]. split; [|exact Hk].
  split; [discriminate|]. cbn. rewrite Hc, Hm. reflexivity.
Qed.

Lemma many_total {A : Type} (p : ascii -> bool) : forall s (k : string -> string -> option A),
  (forall m r, is_Some (k m r)) -> is_Some (Regex.many p s k).
Proof.
  induction s as [|c s IH]; intros k Hk; cbn; [apply Hk|].
  destruct (p c); [|apply Hk].
  destruct (IH (fun m r => k (String c m) r)) as [y Hy]; [intros; apply Hk|].
  rewrite Hy. eauto.
Qed.

(** With a continuation that always succeeds the repetition takes all it
    can. *)
Lemma many_inv_last {A : Type} (p : ascii -> bool) :
  forall s (k : string -> string -> option A) x,
  (forall m r, is_Some (k m r)) ->
  Regex.many p s k = Some x ->
  exists m r, s = m +:+ r /\ all_chars p m = true /\ stops p r /\ k m r = Some x.
Proof.
  induction s as [|c s IH]; intros k x Hk H; cbn in H.
  { exists EmptyString, EmptyString. cbn. auto. }
  destruct (p c) eqn:Hc.
  - destruct (many_total p s (fun m r => k (String c m) r)) as [y Hy];
      [intros; apply Hk|].
    rewrite Hy in H. injection H as ->.
    apply IH in Hy; [|intros; apply Hk].
    destruct Hy as (m & r & -> & Hm & Hr & Hx).
    exists (String c m), r. cbn. rewrite Hc, Hm. auto.
  - exists EmptyString, (String c s). cbn. auto.
Qed.

Lemma many1_inv_last {A : Type} (p : ascii -> bool) s (k : string -> string -> option A) x :
  (forall m r, is_Some (k m r)) ->
  Regex.many1 p s k = Some x ->
  exists m r, s = m +:+ r /\ in_class p m /\ stops p r /\ k m r = Some x.
Proof.
  unfold Regex.many1. destruct s as [|c s]; [discriminate|].
  destruct (p c) eqn:Hc; [|discriminate]. intros Hk H.
  apply many_inv_last in H; [|intros; apply Hk].
  destruct H as (m & r & -> & Hm & Hr & Hx).
  exists (String c m), r. split; [reflexivity|]. split; [|auto].
  split; [discriminate|]. cbn. rewrite Hc, Hm. reflexivity.
Qed.

Lemma lit_inv {A : Type} : forall t s (k : string -> option A) x,
  Regex.lit t s k = Some x -> exists r, s = t +:+ r /\ k r = Some x.
Proof.
  induction t as [|c t IH]; intros s k x H; cbn in H.
  { exists s. auto. }
  destruct s as [|d s]; [discriminate|].
  destruct (Ascii.eqb_spec c d) as [->|]; [|discriminate].
  apply IH in H. destruct H as (r & -> & Hk). exists r. auto.
Qed.

Lemma opt_space_inv {A : Type} s (k : string -> option A) x :
  Regex.opt_space s k = Some x ->
  exists sp r, (sp = EmptyString \/ sp = " ") /\ s = sp +:+ r /\ k r = Some x.
Proof.
  unfold Regex.opt_space. destruct s as [|c s].
  { intros H. exists EmptyString, EmptyString. auto. }
  destruct (Ascii.eqb_spec c " ") as [->|].
  - destruct (k s) as [y|] eqn:E.
    + intros [= ->]. exists " ", s. auto.
    + intros H. exists EmptyString, (String " " s). auto.
  - intros H. exists EmptyString, (String c s). auto.
Qed.

(** A time of day as the three patterns read it. *)
Lemma clock_inv {A : Type} s (k : string -> string -> option A) x :
  Regex.clock s k = Some x ->
  exists h m sec r,
    s = (h +:+ ":" +:+ m +:+ ":" +:+ sec) +:+ r /\
    in_class is_digit h /\ in_class is_digit m /\ in_class is_digit sec /\
    k (h +:+ ":" +:+ m +:+ ":" +:+ sec) r = Some x.
Proof.
  unfold Regex.clock. intros H.
  apply many1_inv in H. destruct H as (h & r1 & -> & Hh & H).
  apply lit_inv in H. destruct H as (r2 & -> & H).
  apply many1_inv in H. destruct H as (m & r3 & -> & Hm & H).
  apply lit_inv in H. destruct H as (r4 & -> & H).
  apply many1_inv in H. destruct H as (sec & r5 & -> & Hs & H).
  exists h, m, sec, r5. split; [|auto].
  rewrite !append_assoc_s. reflexivity.
Qed.

Lemma mdy_inv {A : Type} s (k : string -> string -> string -> string -> option A) x :
  Regex.mdy s k = Some x ->
  exists g1 g2 g3 r,
    s = g1 +:+ "/" +:+ g2 +:+ "/" +:+ g3 +:+ r /\
    in_class is_digit g1 /\ in_class is_digit g2 /\ in_class is_digit g3 /\
    k g1 g2 g3 r = Some x.
Proof.
  unfold Regex.mdy. intros H.
  apply many1_inv in H. destruct H as (g1 & r1 & -> & H1 & H).
  apply lit_inv in H. destruct H as (r2 & -> & H).
  apply many1_inv in H. destruct H as (g2 & r3 & -> & H2 & H).
  apply lit_inv in H. destruct H as (r4 & -> & H).
  apply many1_inv in H. destruct H as (g3 & r5 & -> & H3 & H).
  exists g1, g2, g3, r5. auto 10.
Qed.

(** X1. When the event pattern matches, the line is made of the groups it
    returns: an optional space, the time [h:m:s] of three groups of digits,
    a text, the state and the user as words, the module between double
    quotes, and the machine, which runs to the end of the line. *)
Theorem re_event_groups (line time state module user machine : string) :
  Regex.re_event line = Some (time, state, module, user, machine) ->
  exists sp h m sec text rest,
    line = sp +:+ time +:+ " " +:+ text +:+ " " +:+ state +:+ ": "
           +:+ String dquote (module +:+ String dquote
                 (" " +:+ user +:+ "@" +:+ machine +:+ rest)) /\
    (sp = EmptyString \/ sp = " ") /\
    time = h +:+ ":" +:+ m +:+ ":" +:+ sec /\
    in_class is_digit h /\ in_class is_digit m /\ in_class is_digit sec /\
    in_class is_dot text /\
    in_class is_word state /\
    in_class is_dot module /\
    in_class is_word user /\
    in_class is_dot machine /\
    stops is_dot rest.
Proof.
  unfold Regex.re_event. intros H.
  apply opt_space_inv in H. destruct H as (sp & r0 & Hsp & -> & H).
  apply clock_inv in H. destruct H as (h & m & sec & r1 & -> & Hh & Hm & Hs & H).
  apply lit_inv in H. destruct H as (r2 & -> & H).
  apply many1_inv in H. destruct H as (text & r3 & -> & Htext & H).
  apply lit_inv in H. destruct H as (r4 & -> & H).
  apply many1_inv in H. destruct H as (g2 & r5 & -> & Hg2 & H).
  apply lit_inv in H. destruct H as (r6 & -> & H).
  apply many1_inv in H. destruct H as (g3 & r7 & -> & Hg3 & H).
  apply lit_inv in H. destruct H as (r8 & -> & H).
  apply many1_inv in H. destruct H as (g4 & r9 & -> & Hg4 & H).
  apply lit_inv in H. destruct H as (r10 & -> & H).
  apply many1_inv_last in H; [|eauto].
  destruct H as (g5 & rest & -> & Hg5 & Hrest & H).
  injection H as <- <- <- <- <-.
  exists sp, h, m, sec, text, rest.
  split; [|auto 15].
  cbn. rewrite !append_assoc_s. reflexivity.
Qed.

(** X2. When the TIMESTAMP pattern matches, the line is made of a time of day,
    a text, the word TIMESTAMP and the three groups of digits returned,
    the last of which takes all the digits there are. *)
Theorem re_timestamp_groups (line g1 g2 g3 : string) :
  Regex.re_timestamp line = Some (g1, g2, g3) ->
  exists sp h m sec text rest,
    line = sp +:+ (h +:+ ":" +:+ m +:+ ":" +:+ sec) +:+ " " +:+ text
           +:+ " TIMESTAMP " +:+ g1 +:+ "/" +:+ g2 +:+ "/" +:+ g3 +:+ rest /\
    (sp = EmptyString \/ sp = " ") /\
    in_class is_digit h /\ in_class is_digit m /\ in_class is_digit sec /\
    in_class is_dot text /\
    in_class is_digit g1 /\ in_class is_digit g2 /\ in_class is_digit g3 /\
    stops is_digit rest.
Proof.
  unfold Regex.re_timestamp. intros H.
  apply opt_space_inv in H. destruct H as (sp & r0 & Hsp & -> & H).
  apply clock_inv in H. destruct H as (h & m & sec & r1 & -> & Hh & Hm & Hs & H).
  apply lit_inv in H. destruct H as (r2 & -> & H).
  apply many1_inv in H. destruct H as (text & r3 & -> & Htext & H).
  apply lit_inv in H. destruct H as (r4 & -> & H).
  unfold Regex.mdy in H.
  apply many1_inv in H. destruct H as (d1 & q1 & -> & H1 & H).
  apply lit_inv in H. destruct H as (q2 & -> & H).
  apply many1_inv in H. destruct H as (d2 & q3 & -> & H2 & H).
  apply lit_inv in H. destruct H as (q4 & -> & H).
  apply many1_inv_last in H; [|eauto].
  destruct H as (d3 & rest & -> & H3 & Hrest & H).
  injection H as <- <- <-.
  exists sp, h, m, sec, text, rest.
  split; [|auto 15].
  cbn. rewrite !append_assoc_s. reflexivity.
Qed.

Lemma re_start_groups (line g1 g2 g3 : string) :
  Regex.re_start line = Some (g1, g2, g3) ->
  in_class is_digit g1 /\ in_class is_digit g2 /\ in_class is_digit g3.
Proof.
  unfold Regex.re_start. intros H.
  apply opt_space_inv in H. destruct H as (sp & r0 & Hsp & -> & H).
  apply clock_inv in H. destruct H as (h & m & sec & r1 & -> & Hh & Hm & Hs & H).
  apply lit_inv in H. destruct H as (r2 & -> & H).
  apply many1_inv in H. destruct H as (text & r3 & -> & Htext & H).
  apply lit_inv in H. destruct H as (r4 & -> & H).
  apply mdy_inv in H. destruct H as (d1 & d2 & d3 & r5 & -> & H1 & H2 & H3 & H).
  apply lit_inv in H. destruct H as (r6 & -> & H).
  injection H as <- <- <-. auto.
Qed.

(** ** What [read_files] returns *)

Lemma read_line_unmatched st line :
  ~ matches_some line -> read_line st line = st.
Proof.
  unfold matches_some. intros H.
  assert (Es : Regex.re_start line = None).
  { destruct (Regex.re_start line) as [x|] eqn:E; [|reflexivity].
    exfalso. apply H. left. exists x. reflexivity. }
  assert (Ee : Regex.re_event line = None).
  { destruct (Regex.re_event line) as [x|] eqn:E; [|reflexivity].
    exfalso. apply H. right. left. exists x. reflexivity. }
  assert (Et : Regex.re_timestamp line = None).
  { destruct (Regex.re_timestamp line) as [x|] eqn:E; [|reflexivity].
    exfalso. apply H. right. right. exists x. reflexivity. }
  unfold read_line. rewrite Es, Ee, Et.
  destruct (r_date_matched st); reflexivity.
Qed.

Lemma read_lines_filter_matches lines : forall st,
  read_lines st (filter matches_some lines) = read_lines st lines.
Proof.
  induction lines as [|line lines IH]; intros st; [reflexivity|].
  rewrite filter_cons. unfold read_lines in *. case_decide; cbn [fold_left].
  - apply IH.
  - rewrite read_line_unmatched by assumption. apply IH.
Qed.

(** X4. Lines that match none of the three patterns are ignored: removing them
    from the files changes neither the day counter nor the events. *)
Theorem read_files_ignores_unmatched_lines (files : list (list string)) :
  read_files (map (filter matches_some) files) = read_files files.
Proof.
  unfold read_files.
  assert (H : forall st, fold_left read_file (map (filter matches_some) files) st =
                         fold_left read_file files st).
  { induction files as [|f files IH]; intros st; [reflexivity|].
    cbn [map fold_left]. unfold read_file at 2 4.
    rewrite read_lines_filter_matches. apply IH. }
  unfold read_files_state. rewrite H. reflexivity.
Qed.

Lemma read_line_fields st line :
  event_fields <$> r_result_list (read_line st line) =
  (event_fields <$> r_result_list st) ++ option_list (Regex.re_event line).
Proof.
  unfold read_line.
  assert (Hst1 : forall st1, r_result_list st1 = r_result_list st ->
    event_fields <$> r_result_list
      match Regex.re_event line with
      | Some (time, state, module, user, machine) =>
          Reader (r_nb_days st1)
            (r_result_list st1 ++ [(r_date st1, time, state, module, user, machine)])
            (r_date_matched st1) (r_date st1) (r_old_date st1)
      | None =>
          match Regex.re_timestamp line with
          | Some (g1, g2, g3) =>
              if decide (format_date g3 g1 g2 <> r_old_date st1)
              then Reader (r_nb_days st1 + 1) (r_result_list st1) (r_date_matched st1)
                     (format_date g3 g1 g2) (format_date g3 g1 g2)
              else Reader (r_nb_days st1) (r_result_list st1) (r_date_matched st1)
                     (format_date g3 g1 g2) (r_old_date st1)
          | None => st1
          end
      end =
    (event_fields <$> r_result_list st) ++ option_list (Regex.re_event line)).
  { intros st1 H1.
    destruct (Regex.re_event line) as [[[[[t s] m] u] c]|].
    - cbn [r_result_list]. rewrite fmap_app, H1. reflexivity.
    - cbn [option_list]. rewrite app_nil_r.
      destruct (Regex.re_timestamp line) as [[[g1 g2] g3]|];
        [case_decide|]; cbn [r_result_list]; rewrite H1; reflexivity. }
  apply Hst1.
  destruct (r_date_matched st); [reflexivity|].
  destruct (Regex.re_start line) as [[[g1 g2] g3]|]; reflexivity.
Qed.

Lemma read_lines_fields lines : forall st,
  event_fields <$> r_result_list (read_lines st lines) =
  (event_fields <$> r_result_list st) ++ omap Regex.re_event lines.
Proof.
  induction lines as [|line lines IH]; intros st.
  { cbn. rewrite app_nil_r. reflexivity. }
  change (read_lines st (line :: lines)) with (read_lines (read_line st line) lines).
  rewrite IH, read_line_fields, <- app_assoc. f_equal.
  cbn [omap list_omap]. destruct (Regex.re_event line); reflexivity.
Qed.

(** X3. The events [read_files] returns are, apart from their dates, the
    matches of the event pattern on the lines of all the files, in the
    order of the files and of their lines: one event per matching line. *)
Theorem read_files_events_are_matches (files : list (list string)) :
  event_fields <$> snd (read_files files) = omap Regex.re_event (concat files).
Proof.
  unfold read_files; cbn [snd].
  assert (H : forall st,
            event_fields <$> r_result_list (fold_left read_file files st) =
            (event_fields <$> r_result_list st) ++ omap Regex.re_event (concat files)).
  { induction files as [|f files IH]; intros st.
    { cbn. rewrite app_nil_r. reflexivity. }
    cbn [fold_left concat]. rewrite IH. unfold read_file.
    rewrite read_lines_fields. cbn [r_result_list].
    rewrite omap_app, <- app_assoc. reflexivity. }
  unfold read_files_state. rewrite H. reflexivity.
Qed.

Lemma all_chars_app p a b : all_chars p (a +:+ b) = all_chars p a && all_chars p b.
Proof.
  induction a as [|c a IH]; [reflexivity|].
  change (all_chars p (String c (a +:+ b)) = all_chars p (String c a) && all_chars p b).
  cbn [all_chars]. rewrite IH, andb_assoc. reflexivity.
Qed.

Lemma format_date_has_slash y m d : all_chars not_slash (format_date y m d) = false.
Proof.
  unfold format_date. rewrite !all_chars_app.
  change (all_chars not_slash "/") with false.
  cbn [andb]. apply andb_false_r.
Qed.

Lemma format_date_not_empty y m d : format_date y m d <> EmptyString.
Proof.
  intros H. pose proof (format_date_has_slash y m d) as Hs. rewrite H in Hs.
  discriminate.
Qed.

Lemma re_timestamp_digits (line g1 g2 g3 : string) :
  Regex.re_timestamp line = Some (g1, g2, g3) ->
  in_class is_digit g1 /\ in_class is_digit g2 /\ in_class is_digit g3.
Proof.
  unfold Regex.re_timestamp. intros H.
  apply opt_space_inv in H. destruct H as (sp & r0 & Hsp & -> & H).
  apply clock_inv in H. destruct H as (h & m & sec & r1 & -> & Hh & Hm & Hs & H).
  apply lit_inv in H. destruct H as (r2 & -> & H).
  apply many1_inv in H. destruct H as (text & r3 & -> & Htext & H).
  apply lit_inv in H. destruct H as (r4 & -> & H).
  apply mdy_inv in H. destruct H as (d1 & d2 & d3 & r5 & -> & H1 & H2 & H3 & H).
  injection H as <- <- <-. auto.
Qed.

Lemma is_event_date_not_sentinel date : is_event_date date -> date <> "XXXXXXX".
Proof.
  intros [->|(y & m & d & -> & _)]; [discriminate|].
  intros H. pose proof (format_date_has_slash y m d) as Hs. rewrite H in Hs.
  discriminate.
Qed.

Lemma read_line_dates st line :
  is_event_date (r_date st) ->
  Forall (fun e => is_event_date (ev_date e)) (r_result_list st) ->
  is_event_date (r_date (read_line st line)) /\
  Forall (fun e => is_event_date (ev_date e)) (r_result_list (read_line st line)).
Proof.
  intros Hd Hl. unfold read_line.
  set (st1 := if r_date_matched st then st else _).
  assert (H1 : is_event_date (r_date st1) /\ r_result_list st1 = r_result_list st).
  { subst st1. destruct (r_date_matched st); [auto|].
    destruct (Regex.re_start line) as [[[g1 g2] g3]|] eqn:E; [|auto].
    split; [|reflexivity]. right. apply re_start_groups in E.
    exists g3, g1, g2. cbn. tauto. }
  destruct H1 as [Hd1 Hl1]. clearbody st1.
  destruct (Regex.re_event line) as [[[[[t s] m] u] c]|].
  - cbn [r_date r_result_list]. split; [exact Hd1|].
    rewrite Hl1. apply Forall_app. split; [exact Hl|].
    apply Forall_singleton. exact Hd1.
  - destruct (Regex.re_timestamp line) as [[[g1 g2] g3]|] eqn:E.
    + assert (Hf : is_event_date (format_date g3 g1 g2)).
      { right. apply re_timestamp_digits in E. exists g3, g1, g2. tauto. }
      case_decide; cbn [r_date r_result_list]; rewrite Hl1; auto.
    + rewrite Hl1. auto.
Qed.

Lemma read_lines_dates lines : forall st,
  is_event_date (r_date st) ->
  Forall (fun e => is_event_date (ev_date e)) (r_result_list st) ->
  Forall (fun e => is_event_date (ev_date e)) (r_result_list (read_lines st lines)).
Proof.
  induction lines as [|line lines IH]; intros st Hd Hl; [exact Hl|].
  change (read_lines st (line :: lines)) with (read_lines (read_line st line) lines).
  destruct (read_line_dates st line Hd Hl) as [Hd' Hl']. apply IH; assumption.
Qed.

Lemma read_files_dates (files : list (list string)) :
  Forall (fun e => is_event_date (ev_date e)) (snd (read_files files)).
Proof.
  unfold read_files; cbn [snd]. unfold read_files_state.
  assert (H : forall st,
            Forall (fun e => is_event_date (ev_date e)) (r_result_list st) ->
            Forall (fun e => is_event_date (ev_date e))
              (r_result_list (fold_left read_file files st))).
  { induction files as [|f files IH]; intros st Hl; [exact Hl|].
    cbn [fold_left]. apply IH. unfold read_file.
    apply read_lines_dates; [left; reflexivity | exact Hl]. }
  apply H. constructor.
Qed.

(** X5. The date of every event [read_files] returns is ['??/??/????'] or
    [year/month/day], each part a group of digits taken from a start or
    TIMESTAMP line; it is never empty and never the ['XXXXXXX'] with which
    [do_some_stats] starts the date of a module. *)
Theorem read_files_event_dates (files : list (list string)) (e : event) :
  e ∈ snd (read_files files) ->
  (ev_date e = unknown_date \/
   exists y m d,
     ev_date e = format_date y m d /\
     in_class is_digit y /\ in_class is_digit m /\ in_class is_digit d) /\
  ev_date e <> EmptyString /\
  ev_date e <> "XXXXXXX".
Proof.
  intros Hin. pose proof (read_files_dates files) as Hall.
  rewrite Forall_forall in Hall. specialize (Hall e Hin).
  split; [exact Hall|]. split; [|apply is_event_date_not_sentinel, Hall].
  destruct Hall as [->|(y & m & d & -> & _)];
    [discriminate | apply format_date_not_empty].
Qed.

Lemma read_files_event_dates_witness :
  let e := ("??/??/????", "11:50:22", "OUT", "Origin7", "user", "MACHINE-NAME") in
  ev_date e <> "XXXXXXX".
Proof.
  intros e.
  refine (proj2 (proj2 (read_files_event_dates [[line_start; line_ts]; [line_out]] e _))).
  vm_compute. apply list_elem_of_singleton. reflexivity.
Defined.

(** ** The day counter of [read_files] *)

Lemma timestamp_date_not_empty line d : timestamp_date line = Some d -> d <> EmptyString.
Proof.
  unfold timestamp_date. destruct (Regex.re_event line); [discriminate|].
  destruct (Regex.re_timestamp line) as [[[g1 g2] g3]|]; [|discriminate].
  intros [= <-]. apply format_date_not_empty.
Qed.

Lemma read_line_days st line :
  r_nb_days (read_line st line) =
    r_nb_days st + date_changes (r_old_date st) (option_list (timestamp_date line)) /\
  r_old_date (read_line st line) = default (r_old_date st) (timestamp_date line).
Proof.
  unfold read_line, timestamp_date.
  set (st1 := if r_date_matched st then st else _).
  assert (H1 : r_nb_days st1 = r_nb_days st /\ r_old_date st1 = r_old_date st).
  { subst st1. destruct (r_date_matched st); [auto|].
    destruct (Regex.re_start line) as [[[g1 g2] g3]|]; auto. }
  destruct H1 as [Hn Ho]. clearbody st1.
  destruct (Regex.re_event line) as [[[[[t s] m] u] c]|].
  - cbn. split; [lia | exact Ho].
  - destruct (Regex.re_timestamp line) as [[[g1 g2] g3]|].
    + change (option_list (Some (format_date g3 g1 g2))) with [format_date g3 g1 g2].
      cbn [date_changes from_option id]. rewrite <- Ho.
      destruct (decide (format_date g3 g1 g2 <> r_old_date st1)) as [Hne|Heq];
        cbn [r_nb_days r_old_date].
      * split; [lia | reflexivity].
      * split; [lia|]. destruct (decide (format_date g3 g1 g2 = r_old_date st1));
          [congruence | contradiction].
    + cbn. split; [lia | exact Ho].
Qed.

Lemma read_lines_days lines : forall st,
  r_nb_days (read_lines st lines) =
  r_nb_days st + date_changes (r_old_date st) (omap timestamp_date lines).
Proof.
  induction lines as [|line lines IH]; intros st.
  { cbn. lia. }
  change (read_lines st (line :: lines)) with (read_lines (read_line st line) lines).
  destruct (read_line_days st line) as [Hn Ho]. rewrite IH, Hn, Ho.
  cbn [omap list_omap]. destruct (timestamp_date line) as [d|]; cbn; lia.
Qed.

Lemma date_changes_bounds dates : forall old_date,
  0 <= date_changes old_date dates <= Z.of_nat (length dates).
Proof.
  induction dates as [|d rest IH]; intros old_date; cbn [date_changes length].
  { lia. }
  specialize (IH d). case_decide; lia.
Qed.

Lemma file_days_bounds a_file :
  (if decide (omap timestamp_date a_file = []) then 0 else 1) <= file_days a_file
  <= Z.of_nat (length (omap timestamp_date a_file)).
Proof.
  unfold file_days.
  pose proof (date_changes_bounds (omap timestamp_date a_file) EmptyString) as Hb.
  case_decide as Hnil; [lia|]. split; [|lia].
  induction a_file as [|line rest IH]; [contradiction|].
  cbn [omap list_omap] in *.
  destruct (timestamp_date line) as [d|] eqn:E.
  - cbn [date_changes].
    pose proof (timestamp_date_not_empty line d E).
    pose proof (date_changes_bounds (omap timestamp_date rest) d).
    rewrite decide_True by assumption. lia.
  - apply IH; [exact Hb | exact Hnil].
Qed.

(** X6. The day counter of [read_files] is the sum, over the files, of the
    changes of date along the TIMESTAMP lines of the file, the first such
    line of a file always counting. It is therefore at least the number of
    files with a TIMESTAMP line and at most the number of TIMESTAMP lines,
    and [0] exactly when no file has one. *)
Theorem read_files_day_counter (files : list (list string)) :
  let nb_days := fst (read_files files) in
  nb_days = sum_Z (file_days <$> files) /\
  Z.of_nat (length (filter (fun f => omap timestamp_date f <> []) files)) <= nb_days /\
  nb_days <= Z.of_nat (length (omap timestamp_date (concat files))) /\
  (nb_days = 0 <-> omap timestamp_date (concat files) = []).
Proof.
  intros nb_days.
  assert (Hsum : forall st, r_nb_days (fold_left read_file files st) =
                            r_nb_days st + sum_Z (file_days <$> files)).
  { induction files as [|f files IH]; intros st; [cbn; lia|].
    cbn [fold_left fmap list_fmap sum_Z fold_right]. rewrite IH. unfold read_file.
    rewrite read_lines_days. cbn [r_nb_days r_old_date]. unfold file_days, sum_Z. lia. }
  assert (Hnb : nb_days = sum_Z (file_days <$> files)).
  { subst nb_days. unfold read_files; cbn [fst]. unfold read_files_state.
    rewrite Hsum. reflexivity. }
  assert (Hlo : Z.of_nat (length (filter (fun f => omap timestamp_date f <> []) files))
                <= sum_Z (file_days <$> files)).
  { clear. induction files as [|f files IH]; [cbn; lia|].
    rewrite filter_cons. cbn [fmap list_fmap sum_Z fold_right]. fold (sum_Z (file_days <$> files)).
    pose proof (file_days_bounds f) as Hb.
    destruct (decide (omap timestamp_date f = [])) as [Hf|Hf].
    - rewrite decide_False by (intros H; exact (H Hf)). lia.
    - rewrite decide_True by exact Hf. cbn [length]. lia. }
  assert (Hhi : sum_Z (file_days <$> files)
                <= Z.of_nat (length (omap timestamp_date (concat files)))).
  { clear. induction files as [|f files IH]; [cbn; lia|].
    cbn [fmap list_fmap sum_Z fold_right concat]. fold (sum_Z (file_days <$> files)).
    pose proof (file_days_bounds f) as Hb.
    rewrite omap_app, length_app. lia. }
  rewrite Hnb. split; [reflexivity|]. split; [exact Hlo|]. split; [exact Hhi|].
  split.
  - intros H0. destruct (omap timestamp_date (concat files)) as [|d rest] eqn:E;
      [reflexivity|]. exfalso.
    assert (Hpos : (0 < length (filter (fun f => omap timestamp_date f <> []) files))%nat).
    { clear - E. induction files as [|f files IH]; [discriminate|].
      cbn [concat] in E. rewrite omap_app in E. rewrite filter_cons.
      destruct (omap timestamp_date f) eqn:Ef.
      - case_decide; [contradiction|]. apply IH. exact E.
      - case_decide; [cbn; lia | congruence]. }
    lia.
  - intros E. rewrite E in Hhi. cbn in Hhi. lia.
Qed.

(** ** The deduplicator as a filter *)

Lemma dedup_event_dropped s e : (dedup_event s e).1 = true -> (dedup_event s e).2 = s.
Proof. rewrite dedup_event_eq. repeat case_decide; cbn; congruence. Qed.

Lemma accepted_from_idem l : forall s,
  accepted_from s (accepted_from s l) = accepted_from s l /\
  dedup_after s (accepted_from s l) = dedup_after s l.
Proof.
  induction l as [|e l IH]; intros s; [split; reflexivity|].
  change (dedup_after s (e :: l)) with (dedup_after (dedup_event s e).2 l).
  cbn [accepted_from].
  pose proof (dedup_event_dropped s e) as Hdrop.
  destruct (dedup_event s e) as [dup s'] eqn:E. cbn [fst snd] in *.
  destruct dup.
  - rewrite (Hdrop eq_refl). apply IH.
  - cbn [accepted_from]. rewrite E.
    change (dedup_after s (e :: accepted_from s' l))
      with (dedup_after (dedup_event s e).2 (accepted_from s' l)).
    rewrite E. cbn [snd]. destruct (IH s') as [IH1 IH2]. rewrite IH1, IH2. auto.
Qed.

Lemma balance_single e :
  balance [e] = if decide (is_out e) then 1 else if decide (is_in e) then -1 else 0.
Proof. rewrite balance_cons. unfold balance; cbn. lia. Qed.

Lemma of_key_app k l1 l2 : of_key k (l1 ++ l2) = of_key k l1 ++ of_key k l2.
Proof. unfold of_key. apply filter_app. Qed.

(** X7. For every event stream and every key, the accepted CheckOuts of the
    key minus its accepted CheckIns is [1] when the key is in the dedup set
    and [0] when it is not: a key never holds more than one license, and
    never less than none. *)
Theorem key_balance_is_membership (l : list event) (k : string) :
  balance (of_key k (accepted l)) = if decide (k ∈ dedup_after ∅ l) then 1 else 0.
Proof.
  induction l as [|e l IH] using rev_ind.
  { cbn. rewrite decide_False by apply not_elem_of_empty. reflexivity. }
  rewrite accepted_snoc, of_key_app, balance_app, IH, dedup_after_snoc, dedup_event_eq.
  set (S := dedup_after ∅ l) in *.
  assert (Hnil : balance (of_key k []) = 0) by reflexivity.
  destruct (decide (dedup_key e = k)) as [Hk|Hk].
  - assert (Hone : balance (of_key k [e]) = balance [e]).
    { unfold of_key. rewrite filter_cons, filter_nil.
      rewrite decide_True by exact Hk. reflexivity. }
    rewrite balance_single in Hone. rewrite Hk.
    destruct (decide (is_out e)) as [Ho|Ho].
    + destruct (decide (k ∈ S)) as [Hin|Hin]; cbn [fst snd].
      * rewrite Hnil. rewrite decide_True by exact Hin. lia.
      * rewrite Hone. rewrite decide_True by set_tac. lia.
    + destruct (decide (is_in e)) as [Hi|Hi].
      * destruct (decide (k ∈ S)) as [Hin|Hin]; cbn [fst snd].
        -- rewrite Hone. rewrite decide_False by set_tac. lia.
        -- rewrite Hnil. rewrite decide_False by exact Hin. lia.
      * cbn [fst snd]. rewrite Hone. lia.
  - assert (Hzero : forall b : bool, balance (of_key k (if b then [] else [e])) = 0).
    { intros [|]; [reflexivity|]. unfold of_key. rewrite filter_cons, filter_nil.
      rewrite decide_False by exact Hk. reflexivity. }
    rewrite Hzero, Z.add_0_r.
    match goal with
    | |- _ = if decide (k ∈ ?X) then _ else _ =>
        assert (Hiff : k ∈ X <-> k ∈ S)
          by (repeat case_decide; cbn [snd]; set_tac);
        destruct (decide (k ∈ S)), (decide (k ∈ X)); tauto || reflexivity
    end.
Qed.

(** X8. For every event stream, the accepted CheckOuts minus the accepted
    CheckIns of all the modules together is the number of keys in the dedup
    set: over all modules the number of licenses in use is never
    negative. *)
Theorem total_balance_is_set_size (l : list event) :
  balance (accepted l) = Z.of_nat (size (dedup_after ∅ l)).
Proof.
  induction l as [|e l IH] using rev_ind.
  { reflexivity. }
  rewrite accepted_snoc, balance_app, IH, dedup_after_snoc, dedup_event_eq.
  set (S := dedup_after ∅ l) in *.
  assert (Hnil : balance [] = 0) by reflexivity.
  pose proof (balance_single e) as Hone.
  destruct (decide (is_out e)) as [Ho|Ho].
  - destruct (decide (dedup_key e ∈ S)) as [Hin|Hin]; cbn [fst snd].
    + rewrite Hnil. lia.
    + rewrite Hone, size_add_fresh by exact Hin. lia.
  - destruct (decide (is_in e)) as [Hi|Hi].
    + destruct (decide (dedup_key e ∈ S)) as [Hin|Hin]; cbn [fst snd].
      * rewrite Hone, size_remove_present by exact Hin. lia.
      * rewrite Hnil. lia.
    + cbn [fst snd]. rewrite Hone. lia.
Qed.

(** ** The list of modules *)

Lemma stats_step_modules stats ml s e r :
  stats_step (stats, ml, s) e = Some r ->
  r.1.2 = (if (dedup_event s e).1 then ml else add_module ml e) /\
  r.2 = (dedup_event s e).2.
Proof.
  destruct e as [[[[[d t] st] mo] u] c].
  unfold stats_step, dedup_event, add_module, get_stats_from_module. cbn [ev_module].
  destruct (deduplicate s st mo u c) as [dup s']. cbn [fst snd].
  destruct dup; [intros [= <-]; auto|].
  destruct (decide (mo ∈ ml)).
  - destruct (stats !! mo); [|discriminate]. intros [= <-]. auto.
  - rewrite lookup_insert_eq. intros [= <-]. auto.
Qed.

Lemma gnuplot_step_modules (stats : gmap string (list snapshot)) ml s e r :
  gnuplot_step (stats, ml, s) e = Some r ->
  r.1.2 = (if (dedup_event s e).1 then ml else add_module ml e) /\
  r.2 = (dedup_event s e).2.
Proof.
  destruct e as [[[[[d t] st] mo] u] c].
  unfold gnuplot_step, dedup_event, add_module. cbn [ev_module].
  destruct (deduplicate s st mo u c) as [dup s']. cbn [fst snd].
  destruct dup; [intros [= <-]; auto|].
  destruct (decide (mo ∈ ml)).
  - destruct (stats !! mo); [|discriminate]. intros [= <-]. auto.
  - rewrite lookup_insert_eq. intros [= <-]. auto.
Qed.

Lemma stats_fold_modules l : forall stats ml s r,
  fold_opt stats_step l (stats, ml, s) = Some r ->
  r.1.2 = fold_left add_module (accepted_from s l) ml.
Proof.
  induction l as [|e l IH]; intros stats ml s r H.
  { injection H as <-. reflexivity. }
  cbn [fold_opt] in H.
  destruct (stats_step (stats, ml, s) e) as [[[stats1 ml1] s1]|] eqn:E; [|discriminate].
  apply stats_step_modules in E. cbn [fst snd] in E. destruct E as [-> ->].
  apply IH in H. rewrite H. cbn [accepted_from].
  destruct (dedup_event s e) as [dup s']. cbn [fst snd]. destruct dup; reflexivity.
Qed.

Lemma gnuplot_fold_modules l : forall (stats : gmap string (list snapshot)) ml s r,
  fold_opt gnuplot_step l (stats, ml, s) = Some r ->
  r.1.2 = fold_left add_module (accepted_from s l) ml.
Proof.
  induction l as [|e l IH]; intros stats ml s r H.
  { injection H as <-. reflexivity. }
  cbn [fold_opt] in H.
  destruct (gnuplot_step (stats, ml, s) e) as [[[stats1 ml1] s1]|] eqn:E; [|discriminate].
  apply gnuplot_step_modules in E. cbn [fst snd] in E. destruct E as [-> ->].
  apply IH in H. rewrite H. cbn [accepted_from].
  destruct (dedup_event s e) as [dup s']. cbn [fst snd]. destruct dup; reflexivity.
Qed.

Lemma fold_add_module_first_seen evs : forall acc,
  fold_left add_module evs acc =
  acc ++ filter (fun y => y ∉ acc) (first_seen (ev_module <$> evs)).
Proof.
  induction evs as [|e evs IH]; intros acc.
  { cbn. rewrite app_nil_r. reflexivity. }
  cbn [fold_left fmap list_fmap first_seen]. rewrite IH. unfold add_module.
  rewrite filter_cons, list_filter_filter.
  destruct (decide (ev_module e ∈ acc)) as [Hin|Hin].
  - rewrite decide_False by tauto. f_equal.
    apply list_filter_iff. intros y. split; [|tauto].
    intros Hy. split; [exact Hy|]. congruence.
  - rewrite decide_True by exact Hin. rewrite <- app_assoc. cbn [app]. do 2 f_equal.
    apply list_filter_iff. intros y.
    rewrite elem_of_app, list_elem_of_singleton. tauto.
Qed.

Lemma first_seen_spec names :
  NoDup (first_seen names) /\ forall x, x ∈ first_seen names <-> x ∈ names.
Proof.
  induction names as [|x rest [IHn IHm]]; cbn [first_seen].
  { split; [constructor | reflexivity]. }
  split.
  - apply NoDup_cons. split; [|apply NoDup_filter, IHn].
    rewrite list_elem_of_filter. tauto.
  - intros y. rewrite !elem_of_cons, list_elem_of_filter, IHm.
    destruct (decide (y = x)); tauto.
Qed.

Lemma filter_not_in_nil (names : list string) :
  filter (fun y => y ∉ ([] : list string)) names = names.
Proof.
  induction names as [|x r IH]; [reflexivity|].
  rewrite filter_cons, IH. rewrite decide_True by apply not_elem_of_nil. reflexivity.
Qed.

Lemma do_some_stats_modules l stats ml :
  do_some_stats l = Some (stats, ml) -> ml = first_seen (ev_module <$> accepted l).
Proof.
  unfold do_some_stats.
  destruct (fold_opt stats_step l (∅, [], ∅)) as [[[stats1 ml1] s1]|] eqn:E; [|discriminate].
  intros [= <- <-]. apply stats_fold_modules in E. cbn [fst snd] in E.
  rewrite E, fold_add_module_first_seen. cbn [app]. apply filter_not_in_nil.
Qed.

Lemma do_gnuplot_stats_modules l stats ml :
  do_gnuplot_stats l = Some (stats, ml) -> ml = first_seen (ev_module <$> accepted l).
Proof.
  unfold do_gnuplot_stats.
  destruct (fold_opt gnuplot_step l (∅, [], ∅)) as [[[stats1 ml1] s1]|] eqn:E; [|discriminate].
  intros [= <- <-]. apply gnuplot_fold_modules in E. cbn [fst snd] in E.
  rewrite E, fold_add_module_first_seen. cbn [app]. apply filter_not_in_nil.
Qed.

(** X10. For every event stream, [do_some_stats] and [do_gnuplot_stats] return
    the same list of modules: the modules of the accepted events, each
    once, in the order in which they first occur. *)
Theorem module_lists_agree (l : list event) :
  exists stats series ml,
    do_some_stats l = Some (stats, ml) /\
    do_gnuplot_stats l = Some (series, ml) /\
    ml = first_seen (ev_module <$> accepted l) /\
    NoDup ml /\
    forall m, m ∈ ml <-> exists e, e ∈ accepted l /\ ev_module e = m.
Proof.
  destruct (do_some_stats_spec l) as (stats & ml & H & _ & _).
  destruct (do_gnuplot_stats_spec l) as (series & ml' & H' & _ & _).
  pose proof (do_some_stats_modules l stats ml H) as Hml.
  pose proof (do_gnuplot_stats_modules l series ml' H') as Hml'.
  exists stats, series, ml. rewrite <- Hml' in Hml. subst ml'.
  split; [exact H|]. split; [exact H'|]. split; [exact Hml'|].
  destruct (first_seen_spec (ev_module <$> accepted l)) as [Hn Hm].
  rewrite Hml'. split; [exact Hn|].
  intros m. rewrite Hm, list_elem_of_fmap. split.
  - intros (e & -> & He). eauto.
  - intros (e & He & <-). eauto.
Qed.

(** X9. Deduplication is idempotent: a stream that was already filtered passes
    unchanged and leaves the same dedup set, so both folds give on the
    filtered stream what they give on the stream itself. *)
Theorem deduplication_is_idempotent (l : list event) :
  accepted (accepted l) = accepted l /\
  dedup_after ∅ (accepted l) = dedup_after ∅ l /\
  do_some_stats (accepted l) = do_some_stats l /\
  do_gnuplot_stats (accepted l) = do_gnuplot_stats l.
Proof.
  destruct (accepted_from_idem l ∅) as [Hacc Hset]. fold (accepted l) in Hacc, Hset.
  fold (accepted (accepted l)) in Hacc.
  split; [exact Hacc|]. split; [exact Hset|]. split.
  - destruct (do_some_stats_spec l) as (stats & ml & H & _ & Hlk).
    destruct (do_some_stats_spec (accepted l)) as (stats' & ml' & H' & _ & Hlk').
    rewrite H, H'. f_equal. f_equal.
    + apply map_eq. intros m. rewrite Hlk, Hlk', Hacc. reflexivity.
    + rewrite (do_some_stats_modules _ _ _ H), (do_some_stats_modules _ _ _ H'), Hacc.
      reflexivity.
  - destruct (do_gnuplot_stats_spec l) as (stats & ml & H & _ & Hlk).
    destruct (do_gnuplot_stats_spec (accepted l)) as (stats' & ml' & H' & _ & Hlk').
    rewrite H, H'. f_equal. f_equal.
    + apply map_eq. intros m. rewrite Hlk, Hlk', Hacc. reflexivity.
    + rewrite (do_gnuplot_stats_modules _ _ _ H), (do_gnuplot_stats_modules _ _ _ H'), Hacc.
      reflexivity.
Qed.

(** ** Bounds on the statistics of a module *)

Lemma update_max_users t d st :
  0 <= t_max_users t ->
  t_max_users (update_stats_tuple t d st) =
    Z.max (t_max_users t) (t_nb_users (update_stats_tuple t d st)) /\
  t_max_day (update_stats_tuple t d st) =
    (if decide (t_max_users t < t_nb_users (update_stats_tuple t d st))
     then d else t_max_day t).
Proof.
  destruct t as [[[[[[mx mn] md] nu] tu] nd] od].
  unfold update_stats_tuple, count_users_upon_state, get_min_max_users,
    t_max_users, t_nb_users, t_max_day.
  intros Hmx.
  repeat (case_decide || case_match); simplify_eq;
    repeat match goal with
    | H : andb _ _ = true |- _ => apply andb_true_iff in H; destruct H
    | H : andb _ _ = false |- _ => apply andb_false_iff in H
    | H : (_ <? _) = true |- _ => apply Z.ltb_lt in H
    | H : (_ <? _) = false |- _ => apply Z.ltb_ge in H
    | H : (_ <=? _) = true |- _ => apply Z.leb_le in H
    | H : (_ <=? _) = false |- _ => apply Z.leb_gt in H
    end;
    split; try reflexivity; try lia.
Qed.

Lemma update_min_users t d st :
  let t' := update_stats_tuple t d st in
  t_min_users t' =
    (if decide (0 <= t_nb_users t' /\ t_nb_users t' < t_min_users t)
     then t_nb_users t' else t_min_users t).
Proof.
  destruct t as [[[[[[mx mn] md] nu] tu] nd] od].
  unfold update_stats_tuple, count_users_upon_state, get_min_max_users,
    t_min_users, t_nb_users.
  repeat (case_decide || case_match); simplify_eq;
    repeat match goal with
    | H : andb _ _ = true |- _ => apply andb_true_iff in H; destruct H
    | H : andb _ _ = false |- _ => apply andb_false_iff in H
    | H : (_ <? _) = true |- _ => apply Z.ltb_lt in H
    | H : (_ <? _) = false |- _ => apply Z.ltb_ge in H
    | H : (_ <=? _) = true |- _ => apply Z.leb_le in H
    | H : (_ <=? _) = false |- _ => apply Z.leb_gt in H
    end;
    try reflexivity; lia.
Qed.

Lemma update_tuple_bounds t d st :
  tuple_bounds t ->
  let t' := update_stats_tuple t d st in
  tuple_bounds t' /\ (0 <= t_nb_users t' -> t_min_users t' <= t_nb_users t').
Proof.
  intros Hb t'. unfold tuple_bounds in *.
  destruct Hb as (Hmx & Hnu & Htu & Hnd & Hmn & Hmm).
  destruct (update_max_users t d st Hmx) as [Hmax _]. fold t' in Hmax.
  pose proof (update_min_users t d st) as Hmin. cbv zeta in Hmin. fold t' in Hmin.
  pose proof (update_nb_users t d st) as Hnu'. fold t' in Hnu'.
  pose proof (update_total_use t d st) as Htu'. fold t' in Htu'.
  pose proof (update_nb_days t d st) as Hnd'. fold t' in Hnd'.
  rewrite Hmax, Hmin, Htu', Hnd'. rewrite Hnu' at 1 2 3 4.
  repeat case_decide; try tauto; repeat split; try lia.
Qed.

Lemma new_module_stats_bounds : tuple_bounds new_module_stats.
Proof. unfold tuple_bounds, new_module_stats. cbn. lia. Qed.

Lemma module_fold_bounds m evs : forall o,
  (forall t0, o = Some t0 ->
     tuple_bounds t0 /\ (0 <= t_nb_users t0 -> t_min_users t0 <= t_nb_users t0)) ->
  forall t, module_fold m evs o = Some t ->
    tuple_bounds t /\ (0 <= t_nb_users t -> t_min_users t <= t_nb_users t).
Proof.
  induction evs as [|e evs IH]; intros o Ho t Ht.
  { apply Ho, Ht. }
  rewrite module_fold_cons in Ht. apply (IH _) in Ht; [exact Ht|].
  case_decide; [|exact Ho].
  intros t0 [= <-]. apply update_tuple_bounds.
  destruct o as [t1|]; [apply Ho; reflexivity | apply new_module_stats_bounds].
Qed.

(** X11. For every event stream and every module with a tuple in the result of
    [do_some_stats]: [max_users] is not negative, at least [nb_users] and at
    most [total_use]; [nb_days] is between [0] and [total_use]; [min_users]
    is between [0] and the initial [999999999999], at most [nb_users] when
    that is not negative, and at most [max_users] when that is positive. *)
Theorem stats_tuple_bounds (l : list event) (m : string) :
  exists stats ml,
    do_some_stats l = Some (stats, ml) /\
    forall t, stats !! m = Some t ->
      0 <= t_max_users t /\
      t_nb_users t <= t_max_users t /\
      t_max_users t <= t_total_use t /\
      0 <= t_nb_days t <= t_total_use t /\
      0 <= t_min_users t <= 999999999999 /\
      (0 <= t_nb_users t -> t_min_users t <= t_nb_users t) /\
      (0 < t_max_users t -> t_min_users t <= t_max_users t).
Proof.
  destruct (do_some_stats_spec l) as (stats & ml & H & _ & Hlk).
  exists stats, ml. split; [exact H|]. intros t Ht. rewrite Hlk in Ht.
  apply module_fold_bounds in Ht; [|intros t0 [=]].
  unfold tuple_bounds in Ht. tauto.
Qed.

(** ** The peak of a module *)

Lemma snoc_split {A : Type} (l l1 l2 : list A) (x : A) :
  l ++ [x] = l1 ++ l2 ->
  (l2 = [] /\ l1 = l ++ [x]) \/ exists l2', l2 = l2' ++ [x] /\ l = l1 ++ l2'.
Proof.
  destruct l2 as [|y l2 _] using rev_ind.
  - rewrite app_nil_r. intros <-. left. auto.
  - rewrite app_assoc. intros H. apply app_inj_tail in H. destruct H as [-> ->].
    right. eauto.
Qed.

Lemma module_fold_peak m evs :
  let t := default new_module_stats (module_fold m evs None) in
  let E := of_module m evs in
  (forall E1 E2, E = E1 ++ E2 -> balance E1 <= t_max_users t) /\
  exists E1 E2,
    E = E1 ++ E2 /\
    balance E1 = t_max_users t /\
    t_max_day t = default EmptyString (ev_date <$> last E1) /\
    forall E0 E0', E1 = E0 ++ E0' -> E0' <> [] -> balance E0 < t_max_users t.
Proof.
  induction evs as [|e evs IH] using rev_ind.
  { cbn. split.
    - intros E1 E2 H. symmetry in H. apply app_eq_nil in H. destruct H as [-> _].
      reflexivity.
    - exists [], []. repeat split. intros E0 E0' H Hne.
      symmetry in H. apply app_eq_nil in H. tauto. }
  cbv zeta in *. rewrite module_fold_app, of_module_app.
  destruct (decide (ev_module e = m)) as [Hm|Hm].
  2:{ rewrite (module_fold_other m [e]) by (apply of_module_single_other, Hm).
      rewrite (of_module_single_other m e Hm), app_nil_r. exact IH. }
  rewrite (of_module_single m e Hm).
  pose proof (module_fold_nb_users m (evs ++ [e]) None) as Hnu.
  rewrite module_fold_app, of_module_app, (of_module_single m e Hm) in Hnu.
  change (t_nb_users (default new_module_stats None)) with 0 in Hnu.
  rewrite Z.add_0_l in Hnu.
  rewrite module_fold_cons in *. rewrite decide_True in * by exact Hm.
  change (module_fold m [] ?o) with o in *. cbn [from_option id] in *.
  set (t := default new_module_stats (module_fold m evs None)) in *.
  set (E := of_module m evs) in *.
  destruct IH as (Hle & E1 & E2 & HE & Hbal & Hday & Hfirst).
  assert (Hmx : 0 <= t_max_users t) by (apply (Hle [] E); reflexivity).
  destruct (update_max_users t (ev_date e) (ev_state e) Hmx) as [Hmax Hmaxday].
  set (t' := update_stats_tuple t (ev_date e) (ev_state e)) in *.
  rewrite Hnu in Hmax, Hmaxday. rewrite Hmax, Hmaxday.
  destruct (decide (t_max_users t < balance (E ++ [e]))) as [Hnew|Hold].
  - rewrite Z.max_r by lia. split.
    + intros F1 F2 HF. apply snoc_split in HF.
      destruct HF as [[_ ->]|(F2' & _ & HF)]; [lia|].
      specialize (Hle F1 F2' HF). lia.
    + exists (E ++ [e]), []. rewrite app_nil_r. repeat split.
      * rewrite last_snoc. reflexivity.
      * intros E0 E0' HF Hne. apply snoc_split in HF.
        destruct HF as [[-> _]|(F2' & _ & HF)]; [contradiction|].
        specialize (Hle E0 F2' HF). lia.
  - rewrite Z.max_l by lia. split.
    + intros F1 F2 HF. apply snoc_split in HF.
      destruct HF as [[_ ->]|(F2' & _ & HF)]; [lia|].
      apply (Hle F1 F2' HF).
    + exists E1, (E2 ++ [e]). rewrite HE, <- app_assoc. auto.
Qed.

(** X12. For every event stream and module, with [E] the accepted events of the
    module: the CheckOuts minus the CheckIns of every prefix of [E] are at
    most [max_users]; [max_users] is this count for some prefix, no shorter
    prefix reaches it, and [max_day] is the date of the last event of that
    prefix (empty when the prefix is, that is when [max_users] is [0]). *)
Theorem max_users_is_peak (l : list event) (m : string) :
  exists stats ml,
    do_some_stats l = Some (stats, ml) /\
    let t := tuple_of stats m in
    let E := of_module m (accepted l) in
    (forall E1 E2, E = E1 ++ E2 -> balance E1 <= t_max_users t) /\
    exists E1 E2,
      E = E1 ++ E2 /\
      balance E1 = t_max_users t /\
      t_max_day t = default EmptyString (ev_date <$> last E1) /\
      forall E0 E0', E1 = E0 ++ E0' -> E0' <> [] -> balance E0 < t_max_users t.
Proof.
  destruct (do_some_stats_spec l) as (stats & ml & H & _ & Hlk).
  exists stats, ml. split; [exact H|].
  unfold tuple_of. rewrite Hlk. apply module_fold_peak.
Qed.

(** ** Every row of a time series *)

Lemma series_fold_rows m evs :
  let E := of_module m evs in
  let rows := rev (default [] (series_fold m evs None)) in
  length rows = length E /\
  forall i e, E !! i = Some e ->
    rows !! i = Some (ev_date e, ev_time e, balance (take (S i) E) + floor_bonus E).
Proof.
  induction evs as [|e evs IH] using rev_ind.
  { cbn. split; [reflexivity|]. intros i e H. discriminate. }
  cbv zeta in *. rewrite series_fold_app, of_module_app.
  destruct (decide (ev_module e = m)) as [Hm|Hm].
  2:{ rewrite (series_fold_other m [e]) by (apply of_module_single_other, Hm).
      rewrite (of_module_single_other m e Hm), app_nil_r. exact IH. }
  rewrite (of_module_single m e Hm).
  pose proof (series_fold_use m (evs ++ [e]) None eq_refl) as Huse.
  rewrite series_fold_app, of_module_app, (of_module_single m e Hm) in Huse.
  rewrite series_fold_cons in *. rewrite decide_True in * by exact Hm.
  change (series_fold m [] ?o) with o in *. cbn [from_option id] in *.
  set (old := default [] (series_fold m evs None)) in *.
  set (E := of_module m evs) in *.
  cbn [last_use] in Huse. destruct IH as [Hlen Hrows].
  cbn [rev]. rewrite !length_app, Hlen. split; [reflexivity|].
  intros i x Hx.
  destruct (decide (i < length E)%nat) as [Hlt|Hge].
  - rewrite lookup_app_l in Hx by exact Hlt.
    rewrite lookup_app_l by (rewrite Hlen; exact Hlt).
    rewrite (Hrows i x Hx). rewrite take_app_le by lia.
    rewrite floor_bonus_app; [reflexivity|].
    intros HE. rewrite HE in Hlt. cbn in Hlt. lia.
  - assert (Hi : i = length E).
    { apply lookup_lt_Some in Hx. rewrite length_app in Hx. cbn in Hx. lia. }
    subst i. rewrite list_lookup_middle in Hx by reflexivity. injection Hx as <-.
    rewrite list_lookup_middle by (symmetry; exact Hlen).
    rewrite take_ge by (rewrite length_app; cbn; lia).
    rewrite Huse. reflexivity.
Qed.

(** X14. For every event stream and module, the data file of the module has one
    row per accepted event of the module, and the row of the [i]-th such
    event carries its date, its time, and the accepted CheckOuts minus the
    accepted CheckIns of the module up to and including it, raised by one
    when the first accepted event of the module is a CheckIn. *)
Theorem time_series_rows (l : list event) (m : string) :
  exists rows,
    option_map dat_rows (series_of l m) = Some rows /\
    let E := of_module m (accepted l) in
    length rows = length E /\
    forall i e, E !! i = Some e ->
      rows !! i = Some (ev_date e, ev_time e, balance (take (S i) E) + floor_bonus E).
Proof.
  eexists. rewrite series_of_spec. split; [reflexivity|].
  apply series_fold_rows.
Qed.

(** ** The two folds agree *)

(** X13. For every event stream and module, [nb_users] in [do_some_stats] is
    the accepted CheckOuts minus the accepted CheckIns of the module, also
    when that is negative, and the newest [use] in [do_gnuplot_stats] is
    the same number, raised by one when the first accepted event of the
    module is a CheckIn. *)
Theorem nb_users_and_newest_use (l : list event) (m : string) :
  exists rows,
    stats_field t_nb_users l m = Some (balance (of_module m (accepted l))) /\
    series_of l m = Some rows /\
    last_use rows =
      balance (of_module m (accepted l)) + floor_bonus (of_module m (accepted l)).
Proof.
  eexists. split; [|split; [apply series_of_spec|]].
  - rewrite stats_field_spec, module_fold_nb_users. reflexivity.
  - apply series_fold_use. reflexivity.
Qed.

(** ** Without colliding keys *)

Lemma counts_nonnegative_without_collisions_witness :
  let l1 := [ ("2012/7/30", "11:50:22", "OUT", "Origin7", "alice", "HOST1");
              ("2012/7/30", "11:55:00", "OUT", "Origin7", "bob", "HOST2") ] in
  let l2 := [ ("2012/7/30", "12:00:00", "IN", "Origin7", "alice", "HOST1") ] in
  exists series,
    stats_field t_nb_users l1 "Origin7" = Some 2 /\
    series_of l1 "Origin7" = Some series /\
    last_use series = 2 /\
    last_use series = balance (of_module "Origin7" (accepted l1)).
Proof.
  intros l1 l2.
  refine (counts_nonnegative_without_collisions l1 l2 "Origin7" _).
  by_decision.
Defined.

(** ** Witnesses for the patterns *)

Lemma re_event_groups_witness :
  in_class is_word "OUT" /\ in_class is_word "user".
Proof.
  assert (H : Regex.re_event line_out =
              Some ("11:50:22", "OUT", "Origin7", "user", "MACHINE-NAME"))
    by (vm_compute; reflexivity).
  destruct (re_event_groups line_out _ _ _ _ _ H)
    as (sp & h & m & sec & text & rest & _ & _ & _ & _ & _ & _ & _ & Hs & _ & Hu & _).
  split; assumption.
Defined.

(** A user name with a letter of Latin-1, [e] with an acute accent, is
    matched by [\w+]. *)
Lemma re_event_latin1_user :
  let e_acute := String (ascii_of_nat 233) EmptyString in
  Regex.re_event ("11:50:22 (orglab) OUT: " +:+ quoted "Origin7" +:+ " ren"
                    +:+ e_acute +:+ "@HOST")
  = Some ("11:50:22", "OUT", "Origin7", "ren" +:+ e_acute, "HOST").
Proof. vm_compute. reflexivity. Qed.

Lemma re_timestamp_groups_witness :
  in_class is_digit "1" /\ in_class is_digit "23" /\ in_class is_digit "2012".
Proof.
  assert (H : Regex.re_timestamp line_ts = Some ("1", "23", "2012"))
    by (vm_compute; reflexivity).
  destruct (re_timestamp_groups line_ts _ _ _ H)
    as (sp & h & m & sec & text & rest & _ & _ & _ & _ & _ & _ & H1 & H2 & H3 & _).
  auto.
Defined.

(** ** The division of [print_stats] *)

Lemma scale_nonneg x s : 0 <= s -> scale x s = x * 2 ^ s.
Proof. intros H. unfold scale. destruct (Z.leb_spec 0 s); [reflexivity | lia]. Qed.

Lemma scale_nonpos x s : s <= 0 -> scale x s = x.
Proof.
  intros H. unfold scale. destruct (Z.leb_spec 0 s); [|reflexivity].
  replace s with 0 by lia. rewrite Z.pow_0_r. lia.
Qed.

Lemma quotient_exponent_spec n d :
  0 < d <= n ->
  let k := quotient_exponent n d in
  0 <= k /\ d * 2 ^ k <= n < d * 2 ^ (k + 1).
Proof.
  intros Hnd. unfold quotient_exponent.
  destruct (Z.log2_spec n) as [Hn1 Hn2]; [lia|].
  destruct (Z.log2_spec d) as [Hd1 Hd2]; [lia|].
  assert (Hle : Z.log2 d <= Z.log2 n) by (apply Z.log2_le_mono; lia).
  pose proof (Z.log2_nonneg d) as Hd0.
  set (a := Z.log2 n) in *. set (b := Z.log2 d) in *.
  set (k := a - b).
  assert (Hk : 0 <= k) by (unfold k; lia).
  assert (Ha : 2 ^ a = 2 ^ b * 2 ^ k).
  { rewrite <- Z.pow_add_r by lia. f_equal. unfold k. lia. }
  assert (HP : 0 < 2 ^ k) by (apply Z.pow_pos_nonneg; lia).
  rewrite (Z.pow_succ_r 2 a) in Hn2 by lia.
  rewrite (Z.pow_succ_r 2 b) in Hd2 by lia.
  rewrite (scale_nonneg d k Hk), (scale_nonpos n (- k)) by lia.
  destruct (Z.ltb_spec n (d * 2 ^ k)) as [Hlt|Hge]; cbv zeta.
  - assert (Hk1 : 0 < k).
    { destruct (Z.eq_dec k 0) as [E|E]; [|lia].
      rewrite E, Z.pow_0_r in Hlt. lia. }
    replace (k - 1 + 1) with k by lia.
    assert (Hp : 2 ^ k = 2 * 2 ^ (k - 1)).
    { rewrite <- Z.pow_succ_r by lia. f_equal. lia. }
    assert (HP' : 0 < 2 ^ (k - 1)) by (apply Z.pow_pos_nonneg; lia).
    split; [lia|]. split; [|exact Hlt]. nia.
  - split; [lia|]. split; [lia|].
    rewrite Z.pow_add_r by lia. change (2 ^ 1) with 2. nia.
Qed.

Lemma round_half_even_cases n d :
  round_half_even n d = n / d \/
  (round_half_even n d = n / d + 1 /\ d <= 2 * (n mod d)).
Proof.
  unfold round_half_even.
  destruct (Z.ltb_spec (2 * (n mod d)) d); [left; reflexivity|].
  destruct (Z.ltb_spec d (2 * (n mod d))); [right; split; [reflexivity|lia]|].
  destruct (Z.even (n / d)); [left; reflexivity|right; split; [reflexivity|lia]].
Qed.

(** For [0 < d <= n]: the division raises only from [2^1023] on, its
    integer part is at least [1], and it is the floor of the quotient for
    [n] below [2^53]. *)
Lemma int_of_true_div_spec n d :
  0 < d <= n ->
  match int_of_true_div n d with
  | Some a => 1 <= a /\ (n < 2 ^ 53 -> a = n / d)
  | None => 2 ^ 1023 <= n
  end.
Proof.
  intros Hnd. unfold int_of_true_div.
  destruct (Z.eqb_spec d 0); [lia|]. destruct (Z.eqb_spec n 0); [lia|].
  rewrite !Z.abs_eq by lia.
  destruct (quotient_exponent_spec n d Hnd) as (Hk0 & Hlo & Hhi).
  set (k := quotient_exponent n d) in *.
  assert (HK : 0 < 2 ^ k) by (apply Z.pow_pos_nonneg; lia).
  assert (Hbig : 1023 <= k -> 2 ^ 1023 <= n).
  { intros H. assert (2 ^ 1023 <= 2 ^ k) by (apply Z.pow_le_mono_r; lia). nia. }
  destruct (Z.ltb_spec 1023 k); [apply Hbig; lia|].
  rewrite Z.max_l by lia.
  set (e := k - 52).
  set (m := round_half_even (scale n (- e)) (scale d e)).
  destruct ((k =? 1023) && (m =? 2 ^ 53)) eqn:Hguard.
  { apply andb_prop in Hguard. destruct Hguard as [Hg _].
    apply Z.eqb_eq in Hg. apply Hbig. lia. }
  rewrite !Z.sgn_pos by lia. rewrite !Z.mul_1_l.
  destruct (Z.leb_spec 0 e) as [He|He].
  - (* the quotient is 2^52 or more: the double is an integer *)
    assert (HE : 0 < 2 ^ e) by (apply Z.pow_pos_nonneg; lia).
    assert (Hke : 2 ^ k = 2 ^ e * 2 ^ 52).
    { rewrite <- Z.pow_add_r by lia. f_equal. unfold e. lia. }
    assert (Hm : 2 ^ 52 * 2 ^ e <= m * 2 ^ e).
    { destruct (Z.eq_dec e 0) as [E0|E0].
      - unfold m. rewrite E0 in *. cbn [Z.opp].
        rewrite !scale_nonneg by lia. rewrite Z.pow_0_r in *. rewrite !Z.mul_1_r.
        assert (2 ^ 52 <= n / d) by (apply Z.div_le_lower_bound; nia).
        destruct (round_half_even_cases n d) as [->|[-> _]]; lia.
      - unfold m. rewrite (scale_nonneg d e), (scale_nonpos n (- e)) by lia.
        assert (2 ^ 52 <= n / (d * 2 ^ e)) by (apply Z.div_le_lower_bound; nia).
        destruct (round_half_even_cases n (d * 2 ^ e)) as [->|[-> _]]; nia. }
    split; [nia|]. intros Hn.
    assert (2 ^ 52 <= 2 ^ k) by (apply Z.pow_le_mono_r; lia).
    change (2 ^ 53) with (2 * 2 ^ 52) in Hn. 
    assert (Hd1 : d = 1 /\ e = 0).
    { assert (2 ^ e < 2) by nia. 
      destruct (Z.eq_dec e 0) as [E0|E0]; [split; [|exact E0]|].
      - rewrite E0, Z.pow_0_r in Hke. nia.
      - assert (2 ^ 1 <= 2 ^ e) by (apply Z.pow_le_mono_r; lia). 
        change (2 ^ 1) with 2 in *. lia. }
    destruct Hd1 as [-> E0]. unfold m. rewrite E0. cbn [Z.opp].
    rewrite !scale_nonneg by lia. rewrite Z.pow_0_r, !Z.mul_1_r.
    unfold round_half_even. rewrite Z.mod_1_r, Z.div_1_r. reflexivity.
  - (* below 2^52: [m] counts units of [2^e] *)
    set (s := - e) in *.
    assert (Hs : 0 < s) by (unfold s; lia).
    assert (HS : 0 < 2 ^ s) by (apply Z.pow_pos_nonneg; lia).
    assert (Hks : 2 ^ s * 2 ^ k = 2 ^ 52).
    { rewrite <- Z.pow_add_r by lia. f_equal. unfold s, e. lia. }
    unfold m. rewrite (scale_nonneg n s), (scale_nonpos d e) by lia.
    set (N := n * 2 ^ s).
    pose proof (Z.div_mod N d ltac:(lia)) as HN.
    pose proof (Z.mod_pos_bound N d ltac:(lia)) as HR.
    pose proof (Z.div_mod n d ltac:(lia)) as Hn.
    pose proof (Z.mod_pos_bound n d ltac:(lia)) as Hr.
    set (Q := N / d) in *. set (R := N mod d) in *.
    set (q := n / d) in *. set (r := n mod d) in *.
    assert (Hq1 : 1 <= q) by (apply Z.div_le_lower_bound; lia).
    assert (HQlo : q * 2 ^ s <= Q) by (unfold N in HN; nia).
    assert (HQhi : Q < (q + 1) * 2 ^ s) by (unfold N in HN; nia).
    split.
    + apply Z.div_le_lower_bound; [lia|].
      destruct (round_half_even_cases N d) as [->|[-> _]]; fold Q; nia.
    + intros Hn53. change (2 ^ 53) with (2 * 2 ^ 52) in Hn53.
      symmetry. 
      destruct (round_half_even_cases N d) as [->|[-> Hup]]; fold Q; [|fold R in Hup].
      * apply (Z.div_unique_pos Q (2 ^ s) q (Q - 2 ^ s * q)); lia.
      * apply (Z.div_unique_pos (Q + 1) (2 ^ s) q (Q + 1 - 2 ^ s * q)); [|lia].
        split; [lia|].
        destruct (Z.lt_ge_cases (Q + 1) ((q + 1) * 2 ^ s)) as [Hok|Hbad]; [lia|].
        exfalso.
        assert (HQ : Q + 1 = (q + 1) * 2 ^ s) by lia.
        assert (HReq : R = d - (d - r) * 2 ^ s) by (unfold N in HN; nia).
        assert (Hd2 : 2 * 2 ^ s <= d) by nia.
        nia.
Qed.

(** From [2^53] on the double can lie above the quotient. *)
Lemma int_of_true_div_rounds_up :
  int_of_true_div (2 ^ 53 + 3) 1 = Some (2 ^ 53 + 4).
Proof. vm_compute. reflexivity. Qed.

(** ** What [print_stats] prints *)

Lemma print_stats_blocks os_ok nb_days (stats : gmap string stats_tuple) :
  forall name_list,
  (forall name, name ∈ name_list -> is_Some (stats !! name)) ->
  print_stats os_ok nb_days stats name_list =
  mjoin <$> mapM (fun name => print_module_stats nb_days name (tuple_of stats name)
                               ≫= perform os_ok) name_list.
Proof.
  induction name_list as [|name rest IH]; intros Hall; [reflexivity|].
  destruct (Hall name) as [t Ht]; [apply elem_of_cons; left; reflexivity|].
  cbn [print_stats]. rewrite Ht, IH.
  2:{ intros n Hn. apply Hall, elem_of_cons. right. exact Hn. }
  change (mapM ?f (name :: rest)) with (y ← f name; k ← mapM f rest; mret (y :: k)).
  assert (Htuple : tuple_of stats name = t) by (unfold tuple_of; rewrite Ht; reflexivity).
  cbn beta. rewrite Htuple.
  destruct (print_module_stats nb_days name t) as [lines|]; [|reflexivity].
  cbn [mbind option_bind].
  destruct (perform os_ok lines) as [printed|]; [|reflexivity].
  cbn [mbind option_bind].
  destruct (mapM _ rest) as [blocks|]; reflexivity.
Qed.

(** X16. For every event stream, [output_stats] prints one block per module, in
    the order of [module_list], and raises when the block of a module
    raises or a line cannot be printed. In the block of a module the
    minimum lies between [0] and the maximum printed above it (the initial
    [999999999999] is never printed). The line of the average is there
    exactly when the module has days of use; the block raises only when
    the division overflows, with a total of [2^1023] uses or more;
    otherwise the average printed is [1] or more, and it is the floor of
    the quotient for a total below [2^53]. *)
Theorem printed_statistics (os_ok : effect -> bool) (l : list event) (nb_days : Z)
    (m : string) :
  exists stats ml,
    do_some_stats l = Some (stats, ml) /\
    output_stats os_ok nb_days l =
      mjoin <$> mapM (fun name => print_module_stats nb_days name (tuple_of stats name)
                                   ≫= perform os_ok) ml /\
    forall t, stats !! m = Some t ->
      exists v,
        0 <= v <= t_max_users t /\
        let head :=
          [ Print ("Module " +:+ m +:+ " :");
            Print " Number of users per day :";
            Print ("  max : " +:+ string_of_Z (t_max_users t) +:+ " ("
                     +:+ t_max_day t +:+ ")");
            Print ("  min : " +:+ string_of_Z v);
            Print (" Total number of use : " +:+ string_of_Z (t_total_use t));
            Print (" Number of days used : " +:+ string_of_Z (t_nb_days t) +:+ " / "
                     +:+ string_of_Z nb_days) ] in
        (t_nb_days t = 0 /\
         print_module_stats nb_days m t = Some (head ++ [Print EmptyString])) \/
        (0 < t_nb_days t /\
         match int_of_true_div (t_total_use t) (t_nb_days t) with
         | Some a =>
             1 <= a /\
             (t_total_use t < 2 ^ 53 -> a = t_total_use t / t_nb_days t) /\
             print_module_stats nb_days m t =
               Some (head ++ [Print (" Average use per day : " +:+ string_of_Z a);
                              Print EmptyString])
         | None =>
             2 ^ 1023 <= t_total_use t /\ print_module_stats nb_days m t = None
         end).
Proof.
  destruct (do_some_stats_spec l) as (stats & ml & H & Hwf & Hlk).
  exists stats, ml. split; [exact H|]. split.
  { unfold output_stats. rewrite H. apply print_stats_blocks.
    intros name Hn. apply Hwf, Hn. }
  intros t Ht. rewrite Hlk in Ht.
  apply module_fold_bounds in Ht; [|intros t0 [=]].
  destruct Ht as [(Hmx & Hnu & Htu & Hnd & Hmn & Hmm) _].
  destruct t as [[[[[[mx mn] md] nu] tu] nd] od].
  unfold t_max_users, t_min_users, t_total_use, t_nb_days, t_nb_users, t_max_day in *.
  unfold print_module_stats.
  exists (if mx =? 0 then 0 else mn). split.
  { destruct (Z.eqb_spec mx 0); lia. }
  cbv zeta.
  destruct (Z.ltb_spec 0 nd) as [Hpos|Hzero].
  - right. split; [exact Hpos|].
    pose proof (int_of_true_div_spec tu nd ltac:(lia)) as Hdiv.
    destruct (int_of_true_div tu nd) as [a|].
    + destruct Hdiv as [H1 Hfloor]. split; [exact H1|]. split; [exact Hfloor|reflexivity].
    + split; [exact Hdiv|reflexivity].
  - left. split; [lia | reflexivity].
Qed.

Lemma printed_statistics_witness :
  output_stats (fun _ => true) 2 rotated_stream =
  Some [ Print "Module Origin7 :"; Print " Number of users per day :";
         Print "  max : 3 (2012/7/30)"; Print "  min : 1";
         Print " Total number of use : 3";
         Print " Number of days used : 3 / 2";
         Print " Average use per day : 1"; Print EmptyString ].
Proof.
  destruct (printed_statistics (fun _ => true) rotated_stream 2 "Origin7")
    as (stats & ml & Hstats & -> & _).
  vm_compute in Hstats. injection Hstats as <- <-.
  vm_compute. reflexivity.
Defined.

(** ** Logs and days of use *)

Lemma date_changes_positive old_date d rest :
  d <> old_date -> 1 <= date_changes old_date (d :: rest).
Proof.
  intros H. cbn [date_changes]. rewrite decide_True by exact H.
  pose proof (date_changes_bounds rest d). lia.
Qed.

(** X17. For the events of any log files and any module, [nb_days] is positive
    exactly when [total_use] is, and never above it: the first accepted
    CheckOut of a module always counts a day, as no date of [read_files] is
    the initial ['XXXXXXX']. *)
Theorem days_used_of_a_log (files : list (list string)) (m : string) :
  let l := snd (read_files files) in
  exists nb_days total_use,
    stats_field t_nb_days l m = Some nb_days /\
    stats_field t_total_use l m = Some total_use /\
    nb_days <= total_use /\
    (0 < nb_days <-> 0 < total_use).
Proof.
  intros l. eexists _, _.
  rewrite !stats_field_spec. split; [reflexivity|]. split; [reflexivity|].
  rewrite module_fold_nb_days, module_fold_total_use.
  change (t_nb_days (default new_module_stats None)) with 0.
  change (t_total_use (default new_module_stats None)) with 0.
  change (t_old_date (default new_module_stats None)) with "XXXXXXX".
  rewrite !Z.add_0_l.
  assert (Hlen : length (checkout_dates m (accepted l)) =
                 length (filter is_out (of_module m (accepted l)))).
  { unfold checkout_dates. apply length_map. }
  rewrite <- Hlen.
  pose proof (date_changes_bounds (checkout_dates m (accepted l)) "XXXXXXX") as Hb.
  split; [lia|]. split; [lia|]. intros Hpos.
  destruct (checkout_dates m (accepted l)) as [|d rest] eqn:Hd; [cbn in Hpos; lia|].
  enough (Hne : d <> "XXXXXXX")
    by (pose proof (date_changes_positive "XXXXXXX" d rest Hne); lia).
  assert (Hin : d ∈ checkout_dates m (accepted l)) by (rewrite Hd; left).
  unfold checkout_dates in Hin. apply list_elem_of_In, in_map_iff in Hin.
  destruct Hin as (e & <- & He). apply list_elem_of_In in He.
  apply list_elem_of_filter in He. destruct He as [_ He].
  unfold of_module in He. apply list_elem_of_filter in He. destruct He as [_ He].
  apply is_event_date_not_sentinel.
  pose proof (read_files_dates files) as Hall. rewrite Forall_forall in Hall.
  apply Hall. eapply elem_of_sublist; [exact He|]. apply accepted_from_sublist.
Qed.

(** ** The modes of [main] *)

Lemma print_module_stats_prints nb_days name t lines :
  print_module_stats nb_days name t = Some lines -> Forall is_print lines.
Proof.
  destruct t as [[[[[[mx mn] md] nu] tu] nd] od]. unfold print_module_stats.
  destruct (0 <? nd); [destruct (int_of_true_div tu nd); [|discriminate]|];
    intros [= <-]; repeat constructor.
Qed.

Lemma print_stats_prints os_ok nb_days (stats : gmap string stats_tuple) :
  forall name_list out,
  print_stats os_ok nb_days stats name_list = Some out -> Forall is_print out.
Proof.
  induction name_list as [|name rest IH]; intros out H; cbn [print_stats] in H.
  { injection H as <-. constructor. }
  destruct (stats !! name) as [t|]; [|discriminate].
  destruct (print_module_stats nb_days name t) as [lines|] eqn:Hlines; [|discriminate].
  destruct (perform os_ok lines) as [printed|] eqn:Hp; [|discriminate].
  destruct (print_stats os_ok nb_days stats rest) as [out'|]; [|discriminate].
  injection H as <-. apply perform_inv in Hp. subst printed.
  apply Forall_app. split; [eapply print_module_stats_prints, Hlines|].
  apply IH. reflexivity.
Qed.

Lemma gnuplot_data_writes os_ok data_dir :
  forall module_list (stats : gmap string (list snapshot)) first_line directives written,
  gnuplot_data os_ok stats data_dir first_line module_list = Some (directives, written) ->
  Forall is_write written /\
  length written = length module_list /\
  length directives = length module_list.
Proof.
  induction module_list as [|m rest IH]; intros stats first_line ds fs H;
    cbn [gnuplot_data] in H.
  { injection H as <- <-. repeat split. constructor. }
  destruct (stats !! m) as [event_list|]; [|discriminate].
  destruct (os_ok _); [|discriminate].
  destruct (gnuplot_data os_ok _ data_dir false rest) as [[ds' fs']|] eqn:E;
    [|discriminate].
  injection H as <- <-. destruct (IH _ false ds' fs' E) as (Hw & Hl & Hd).
  cbn [length]. repeat split; [|lia|lia]. constructor; [exact I | exact Hw].
Qed.

(** The total of a module is at most the number of events. *)
Lemma total_use_le_length (l : list event) (m : string) (t : stats_tuple) :
  module_fold m (accepted l) None = Some t -> t_total_use t <= Z.of_nat (length l).
Proof.
  intros H. pose proof (module_fold_total_use m (accepted l) None) as Htu.
  rewrite H in Htu. cbn [from_option id] in Htu.
  change (t_total_use new_module_stats) with 0 in Htu. rewrite Htu, Z.add_0_l.
  apply inj_le. etransitivity; [apply length_filter|].
  unfold of_module. etransitivity; [apply length_filter|].
  apply sublist_length, accepted_from_sublist.
Qed.

(** Without overflow and with a standard output to print to,
    [print_stats] completes. *)
Lemma print_stats_total os_ok nb_days (stats : gmap string stats_tuple) :
  (forall x, os_ok x = true) ->
  forall name_list,
  (forall name, name ∈ name_list ->
     exists t, stats !! name = Some t /\
               0 <= t_nb_days t <= t_total_use t /\ t_total_use t < 2 ^ 1023) ->
  is_Some (print_stats os_ok nb_days stats name_list).
Proof.
  intros Hok. induction name_list as [|name rest IH]; intros Hall; cbn [print_stats].
  { eauto. }
  destruct (Hall name) as (t & Ht & Hnd & Htu); [apply elem_of_cons; left; reflexivity|].
  rewrite Ht.
  assert (Hlines : is_Some (print_module_stats nb_days name t)).
  { destruct t as [[[[[[mx mn] md] nu] tu] nd] od].
    unfold t_total_use, t_nb_days in *. unfold print_module_stats.
    destruct (Z.ltb_spec 0 nd) as [Hpos|_]; [|eauto].
    pose proof (int_of_true_div_spec tu nd ltac:(lia)) as Hdiv.
    destruct (int_of_true_div tu nd); [eauto | lia]. }
  destruct Hlines as [lines ->]. rewrite (perform_ok os_ok lines Hok).
  destruct IH as [out ->]; [|eauto].
  intros n Hn. apply Hall, elem_of_cons. right. exact Hn.
Qed.

(** X18. [main] completes when every step on the operating system succeeds
    and [read_files] returned fewer than [2^1023] events, so that the
    division of [print_stats] does not overflow. When [main] completes:
    with [-s], alone or together with [-g], it has only printed. With
    neither option it has done nothing. With [-g] alone it has done nothing
    when [read_files] returned at most one event or no day; otherwise it
    has made the two directories, written one data file per module and the
    script, and run the two commands, in this order, and printed
    nothing. *)
Theorem main_by_mode (os_ok : effect -> bool) (gnuplot stats : bool)
    (report_name : string) (log_files : list (list string)) :
  let my_opts := get_command_line_arguments gnuplot stats report_name log_files in
  let nb_days := fst (read_files log_files) in
  let result_list := snd (read_files log_files) in
  let modules := first_seen (ev_module <$> accepted result_list) in
  let report_dir := report_name +:+ "_report" in
  let data_dir := path_join report_dir "data" in
  ((forall step, os_ok step = true) -> Z.of_nat (length result_list) < 2 ^ 1023 ->
     is_Some (main os_ok my_opts)) /\
  forall effects, main os_ok my_opts = Some effects ->
  (stats = true -> Forall is_print effects) /\
  (stats = false -> gnuplot = false -> effects = []) /\
  (stats = false -> gnuplot = true ->
     (effects = [] /\ ((length result_list <= 1)%nat \/ nb_days <= 0)) \/
     ((1 < length result_list)%nat /\ 0 < nb_days /\
      exists written,
        effects =
          [Makedirs report_dir; Makedirs data_dir] ++ written ++
          [System ("cd " +:+ data_dir +:+ "; gnuplot " +:+ "gnuplot.script");
           System ("mv " +:+ path_join data_dir report_name +:+ ".pdf " +:+ report_dir)] /\
        Forall is_write written /\
        length written = S (length modules))).
Proof.
  intros my_opts nb_days result_list modules report_dir data_dir.
  unfold main. subst my_opts nb_days result_list. unfold get_command_line_arguments.
  cbn [files out report].
  destruct (read_files log_files) as [nb_days result_list] eqn:Hread.
  cbn [fst snd] in *. split.
  { intros Hok Hsmall.
    destruct (1 <? length result_list)%nat; [|eauto].
    destruct stats.
    - rewrite decide_True by reflexivity. unfold output_stats.
      destruct (do_some_stats_spec result_list) as (st & ml & H & Hwf & Hlk).
      rewrite H. apply print_stats_total; [exact Hok|].
      intros name Hname. apply Hwf in Hname. destruct Hname as [t Ht].
      exists t. split; [exact Ht|]. rewrite Hlk in Ht.
      pose proof (total_use_le_length _ _ _ Ht) as Hle.
      apply module_fold_bounds in Ht; [|intros t0 [=]].
      destruct Ht as [(_ & _ & _ & Hnd & _) _]. split; [exact Hnd | lia].
    - destruct gnuplot.
      + rewrite decide_False by discriminate.
        destruct (decide ("gnuplot" = "gnuplot" /\ nb_days > 0)); [|eauto].
        rewrite perform_ok by exact Hok.
        destruct (output_gnuplot_total os_ok report_name nb_days result_list
                    (path_join (report_name +:+ "_report") "data") Hok) as [written ->].
        eauto.
      + rewrite decide_False by discriminate.
        rewrite decide_False by (intros [Hx _]; discriminate). eauto. }
  intros effects.
  destruct (Nat.ltb_spec 1 (length result_list)) as [Hlen|Hlen].
  2:{ intros [= <-]. split; [constructor|]. split; [reflexivity|].
      intros _ _. left. split; [reflexivity|]. left. lia. }
  destruct stats.
  - rewrite decide_True by reflexivity. intros Hout.
    split; [|split; discriminate].
    intros _. unfold output_stats in Hout.
    destruct (do_some_stats result_list) as [[st ml]|]; [|discriminate].
    eapply print_stats_prints, Hout.
  - destruct gnuplot.
    + rewrite decide_False by discriminate.
      destruct (decide ("gnuplot" = "gnuplot" /\ nb_days > 0)) as [Hg|Hg].
      2:{ intros [= <-]. split; [discriminate|]. split; [discriminate|].
          intros _ _. left. split; [reflexivity|]. right.
          destruct (Z_gt_dec nb_days 0) as [Hgt|Hle]; [|lia].
          exfalso. apply Hg. split; [reflexivity | exact Hgt]. }
      fold report_dir. fold data_dir. intros Hmain.
      split; [discriminate|]. split; [discriminate|]. intros _ _. right.
      split; [exact Hlen|]. split; [lia|].
      destruct (perform os_ok [Makedirs report_dir; Makedirs data_dir]) as [made|] eqn:Hmade;
        [|discriminate].
      destruct (output_gnuplot os_ok report_name nb_days result_list data_dir)
        as [written|] eqn:Hwritten; [|discriminate].
      injection Hmain as <-.
      apply perform_inv in Hmade. subst made.
      exists written. split; [reflexivity|].
      unfold output_gnuplot, print_gnuplot in Hwritten.
      destruct (do_gnuplot_stats result_list) as [[series ml]|] eqn:Hs; [|discriminate].
      pose proof (do_gnuplot_stats_modules _ _ _ Hs) as Hml. fold modules in Hml.
      destruct (gnuplot_data os_ok series data_dir true ml) as [[ds fs]|] eqn:Hdata;
        [|discriminate].
      destruct (os_ok _); [|discriminate]. injection Hwritten as <-.
      destruct (gnuplot_data_writes os_ok data_dir ml series true ds fs Hdata)
        as (Hw & Hl & _).
      split.
      * apply Forall_app. split; [exact Hw|]. repeat constructor.
      * rewrite length_app, Hl, <- Hml. cbn. lia.
    + rewrite decide_False by discriminate.
      rewrite decide_False by (intros [Hx _]; discriminate).
      intros [= <-]. split; [discriminate|]. split; [reflexivity|]. discriminate.
Qed.

Lemma main_by_mode_witness :
  exists written,
    main (fun _ => true)
         (get_command_line_arguments true false "Licenses" rotated_logs) =
      Some ([Makedirs "Licenses_report"; Makedirs "Licenses_report/data"] ++ written ++
            [System "cd Licenses_report/data; gnuplot gnuplot.script";
             System "mv Licenses_report/data/Licenses.pdf Licenses_report"]) /\
    Forall is_write written /\
    length written = 2%nat.
Proof.
  destruct (main_by_mode (fun _ => true) true false "Licenses" rotated_logs)
    as [Hcompletes Hshape].
  destruct Hcompletes as [effects Hmain].
  { intros step. reflexivity. }
  { vm_compute. reflexivity. }
  destruct (Hshape effects Hmain) as (_ & _ & Hg).
  destruct (Hg eq_refl eq_refl) as [[_ [Hlen|Hdays]]|(_ & _ & written & -> & Hw & Hl)].
  - vm_compute in Hlen. lia.
  - vm_compute in Hdays. exfalso. apply Hdays. reflexivity.
  - exists written. split; [exact Hmain|]. split; [exact Hw | exact Hl].
Defined.
